(** * macp: the request-dispatch-and-normalization layer of the A-share data scripts

    A shallow embedding of the four scripts of the repository

      - [scripts/astock.py]           (command line, direct HTTP upstream)
      - [scripts/astock_service.py]   (HTTP service, direct HTTP upstream)
      - [scripts/akshare_service.py]  (HTTP service, data-library upstream)
      - [skills/quant-data-agent/scripts/data_query.py] (command line, data library)

    Python values are an inductive type, Python floats are the kernel's
    binary64 numbers, exceptions are threaded through a small monad that
    also records the observable events of a run (upstream calls, lines
    printed, HTTP responses sent, status lines that went out without a
    body). *)

From Stdlib Require Import ZArith List String Ascii Bool.
From Stdlib Require Import Floats.PrimFloat Floats.SpecFloat Floats.FloatOps.
Import ListNotations.

Set Warnings "-register-all,-inexact-float".

Local Open Scope string_scope.
Local Open Scope Z_scope.

(** ** Python values *)

(** The values that [json.loads] produces and [json.dumps] accepts; cells of
    a data-library table are values of the same type. A [dict] is an
    association list read by its first binding of a key. *)
Inductive pyval : Type :=
| PNone
| PBool (b : bool)
| PInt (z : Z)
| PFloat (f : float)
| PStr (s : string)
| PList (l : list pyval)
| PDict (d : list (string * pyval)).

(** [bool(v)]: the truth value Python's [if v] and [not v] test. *)
Definition truthy (v : pyval) : bool :=
  match v with
  | PNone => false
  | PBool b => b
  | PInt z => negb (z =? 0)
  | PFloat f => negb (PrimFloat.eqb f 0%float)
  | PStr s => negb (s =? "")%string
  | PList l => match l with [] => false | _ => true end
  | PDict d => match d with [] => false | _ => true end
  end.

(** [d.get(k)] on the association list of a dict (or of a table row). *)
Fixpoint lookup (k : string) (d : list (string * pyval)) : option pyval :=
  match d with
  | [] => None
  | (k', v) :: d' => if (k =? k')%string then Some v else lookup k d'
  end.

(** ** Numbers *)

(** [float(z)] for an int: the nearest binary64 number, ties to even. *)
Definition SF_of_Z (z : Z) : spec_float := binary_normalize prec emax z 0 false.

(** [a / b] on two ints, [b <> 0]: the exact quotient rounded once. *)
Definition SF_div_Z (a b : Z) : spec_float :=
  match a, b with
  | Z0, _ => S754_zero false
  | _, Z0 => S754_nan
  | Zpos p, Zpos q => SFdiv prec emax (S754_finite false p 0) (S754_finite false q 0)
  | Zpos p, Zneg q => SFdiv prec emax (S754_finite false p 0) (S754_finite true q 0)
  | Zneg p, Zpos q => SFdiv prec emax (S754_finite true p 0) (S754_finite false q 0)
  | Zneg p, Zneg q => SFdiv prec emax (S754_finite true p 0) (S754_finite true q 0)
  end.

Definition SF_is_finite (x : spec_float) : bool :=
  match x with
  | S754_zero _ | S754_finite _ _ _ => true
  | _ => false
  end.

(** ** Text that UTF-8 cannot encode *)

(** A str is held as the bytes of its UTF-8 form. A lone surrogate, which
    [json.loads] gives for an escape such as [\ud800] and for which UTF-8
    has no form, is held as the three bytes the same scheme would give it:
    0xED, then a byte from 0xA0 to 0xBF, then one more. *)
Definition surrogate_at (c d : ascii) : bool :=
  (nat_of_ascii c =? 237)%nat &&
  (160 <=? nat_of_ascii d)%nat && (nat_of_ascii d <=? 191)%nat.

(** Whether [s.encode('utf-8')] returns: [s] holds no surrogate. Writing [s]
    to a standard output in UTF-8 succeeds on the same condition. *)
Fixpoint str_encodable (s : string) : bool :=
  match s with
  | String c (String d _ as s') => negb (surrogate_at c d) && str_encodable s'
  | _ => true
  end.

(** The same for the text [json.dumps(v, ensure_ascii=False)], which holds
    the strs and the keys of [v] as they are. *)
Fixpoint encodable (v : pyval) : bool :=
  match v with
  | PStr s => str_encodable s
  | PList l => forallb encodable l
  | PDict d => forallb (fun kv : string * pyval =>
                         let (k, x) := kv in str_encodable k && encodable x) d
  | _ => true
  end.

(** ** Exceptions, events and the monad of a run *)

(** The exceptions the scripts can meet. [RaisedBy] is an exception raised
    inside the transfer-tool call or inside the data library ([msg] is its
    [str(e)]); the others are raised by the operations modelled below. All
    of them derive from Python's [Exception]. *)
Inductive exn : Type :=
| AttributeError (v : pyval) (attr : string)
| TypeError (op : string) (v : pyval)
| ValueError (op : string) (v : pyval)
| KeyError (k : string)
| OverflowError (op : string)
| ZeroDivisionError
| UnicodeEncodeError (v : pyval)
| RaisedBy (who msg : string).

(** What a run does that can be observed from outside. *)
Inductive event : Type :=
| Subprocess (argv : list string)        (* subprocess.run(argv, ...) *)
| Ak (fn : string) (args : list string)  (* ak.fn(args) *)
| Stdout (line : string)                 (* print(line), a plain line *)
| PrintJson (v : pyval)                  (* print(json.dumps(v, ...)) *)
| Response (status : Z) (body : pyval)   (* send_json(body, status) *)
| HeadersOnly (status : Z).              (* send_json whose body is never written *)

(** A computation: the events so far, and a value or the exception raised. *)
Definition M (A : Type) : Type := (list event * (A + exn))%type.

Definition ret {A} (a : A) : M A := ([], inl a).
Definition raise {A} (e : exn) : M A := ([], inr e).
Definition emit (ev : event) : M unit := ([ev], inl tt).

Definition bind {A B} (m : M A) (k : A -> M B) : M B :=
  match m with
  | (t, inl a) => let (t', r) := k a in ((t ++ t')%list, r)
  | (t, inr e) => (t, inr e)
  end.

(** [try: m except ... as e: h e] *)
Definition try_except {A} (m : M A) (h : exn -> M A) : M A :=
  match m with
  | (t, inl a) => (t, inl a)
  | (t, inr e) => let (t', r) := h e in ((t ++ t')%list, r)
  end.

Declare Scope py_scope.
Delimit Scope py_scope with py.
Notation "x <- m ;; k" := (bind m (fun x => k))
  (at level 61, m at next level, right associativity) : py_scope.
Notation "m ;;; k" := (bind m (fun _ => k))
  (at level 61, right associativity) : py_scope.
Local Open Scope py_scope.

Fixpoint mapM {A B} (f : A -> M B) (l : list A) : M (list B) :=
  match l with
  | [] => ret []
  | a :: l' => b <- f a ;; bs <- mapM f l' ;; ret (b :: bs)
  end.

Definition trace {A} (m : M A) : list event := fst m.
Definition outcome {A} (m : M A) : A + exn := snd m.

(** The exit code of a script whose body is [m]: 0 when it runs to its end,
    1 when an exception reaches the top level. *)
Definition exit_code {A} (m : M A) : Z :=
  match outcome m with inl _ => 0 | inr _ => 1 end.

(** ** The parts of Python outside the scripts *)

(** Library functions the scripts call whose results on text are not
    modelled here: they are parameters of every definition below. *)
Record PyLib : Type := {
  json_loads : string -> option pyval;    (* None: json.loads raises *)
  float_of_str : string -> option float;  (* None: float(s) raises *)
  int_of_str : string -> option Z;        (* None: int(s) raises *)
  repr : pyval -> string;                 (* str(v) of a value that is not a str *)
  builtin_msg : exn -> string;            (* str(e) of an interpreter exception *)
  (* Both texts show the strs they quote through [repr], which writes a
     surrogate as its escape: UTF-8 can encode them. *)
  repr_encodable : forall v, str_encodable (repr v) = true;
  builtin_msg_encodable : forall e, str_encodable (builtin_msg e) = true
}.

(** The readings of [datetime.now()] during one run. *)
Record Clock : Type := {
  isoformat : string;          (* datetime.now().isoformat() *)
  log_stamp : string;          (* datetime.now().strftime('%Y-%m-%d %H:%M:%S') *)
  days_ago : Z -> string       (* (datetime.now() - timedelta(days=n)).strftime("%Y%m%d") *)
}.

(** A table of the data library: its column labels and its rows of cells. *)
Record DataFrame : Type := {
  df_columns : list string;
  df_rows : list (list pyval)
}.

(** What [subprocess.run(..., capture_output=True, text=True)] returns. *)
Record CompletedProcess : Type := {
  returncode : Z;
  stdout : string
}.

(** The upstream: what each call of the transfer tool and of the data
    library gives, a result or an exception. *)
Record World : Type := {
  subprocess_run : list string -> option Z -> CompletedProcess + exn;
  ak : string -> list string -> DataFrame + exn
}.

(** ** Built-in operations *)

(** [v.get(k, dflt)]: only a dict has the method. *)
Definition py_get (v : pyval) (k : string) (dflt : pyval) : M pyval :=
  match v with
  | PDict d => ret (match lookup k d with Some x => x | None => dflt end)
  | _ => raise (AttributeError v "get")
  end.

(** The items a [for] loop draws from [v]: the elements of a list, the keys
    of a dict, the characters of a str (one per byte here; the loops of the
    scripts call [.get] on each item, which a str of any content lacks). *)
Definition py_iter (v : pyval) : M (list pyval) :=
  match v with
  | PList l => ret l
  | PDict d => ret (map (fun kv => PStr (fst kv)) d)
  | PStr s => ret (map (fun c => PStr (String c EmptyString)) (list_ascii_of_string s))
  | _ => raise (TypeError "iter" v)
  end.

(** An int, a bool (an int in Python) or a float, as a number. *)
Definition as_number (v : pyval) : option (Z + float) :=
  match v with
  | PInt z => Some (inl z)
  | PBool b => Some (inl (if b then 1 else 0))
  | PFloat f => Some (inr f)
  | _ => None
  end.

Definition float_of_number (op : string) (n : Z + float) : M float :=
  match n with
  | inl z => let x := SF_of_Z z in
             if SF_is_finite x then ret (SF2Prim x) else raise (OverflowError op)
  | inr f => ret f
  end.

(** [float(v)] *)
Definition py_float (lib : PyLib) (v : pyval) : M float :=
  match v with
  | PStr s => match float_of_str lib s with
              | Some f => ret f
              | None => raise (ValueError "float" v)
              end
  | _ => match as_number v with
         | Some n => float_of_number "float" n
         | None => raise (TypeError "float" v)
         end
  end.

(** The integer part of a finite binary64 number, towards zero. *)
Definition trunc_SF (x : spec_float) : option Z :=
  match x with
  | S754_zero _ => Some 0
  | S754_finite s m e =>
      let a := match e with
               | Zneg k => Z.shiftr (Zpos m) (Zpos k)
               | _ => Z.shiftl (Zpos m) e
               end in
      Some (if s then - a else a)
  | _ => None
  end.

(** [int(v)] *)
Definition py_int (lib : PyLib) (v : pyval) : M Z :=
  match v with
  | PInt z => ret z
  | PBool b => ret (if b then 1 else 0)
  | PFloat f => match trunc_SF (Prim2SF f) with
                | Some z => ret z
                | None => if is_nan f then raise (ValueError "int" v)
                          else raise (OverflowError "int")
                end
  | PStr s => match int_of_str lib s with
              | Some z => ret z
              | None => raise (ValueError "int" v)
              end
  | _ => raise (TypeError "int" v)
  end.

(** [a / b], Python's true division. *)
Definition py_truediv (a b : pyval) : M float :=
  match as_number a, as_number b with
  | None, _ => raise (TypeError "/" a)
  | _, None => raise (TypeError "/" b)
  | Some (inl x), Some (inl y) =>
      if y =? 0 then raise ZeroDivisionError
      else let q := SF_div_Z x y in
           if SF_is_finite q then ret (SF2Prim q) else raise (OverflowError "/")
  | Some x, Some y =>
      fx <- float_of_number "/" x ;;
      fy <- float_of_number "/" y ;;
      if PrimFloat.eqb fy 0%float then raise ZeroDivisionError
      else ret (fx / fy)%float
  end.

(** [str(v)] *)
Definition py_str (lib : PyLib) (v : pyval) : string :=
  match v with
  | PStr s => s
  | _ => repr lib v
  end.

(** [str(e)] *)
Definition exn_str (lib : PyLib) (e : exn) : string :=
  match e with
  | RaisedBy _ msg => msg
  | _ => builtin_msg lib e
  end.

(** [json.loads(text)] *)
Definition py_json_loads (lib : PyLib) (text : string) : M pyval :=
  match json_loads lib text with
  | Some v => ret v
  | None => raise (ValueError "json.loads" (PStr text))
  end.

(** [print(json.dumps(v))]: the payload is recorded as the value that is
    serialised. The text is ASCII, every other character being escaped, so
    the line is always written. *)
Definition print_json (v : pyval) : M unit := emit (PrintJson v).

(** [print(json.dumps(v, ensure_ascii=False))]: the text goes as it is to
    the standard output (in UTF-8), which raises on a surrogate and then
    writes nothing of the line. *)
Definition print_json_raw (v : pyval) : M unit :=
  if encodable v then emit (PrintJson v) else raise (UnicodeEncodeError v).

(** ** Strings *)

(** [needle in hay] *)
Fixpoint contains (needle hay : string) : bool :=
  String.prefix needle hay ||
  match hay with
  | EmptyString => false
  | String _ hay' => contains needle hay'
  end.

(** [s.startswith(p)] *)
Definition startswith (s p : string) : bool := String.prefix p s.

(** [s.split(sep)] for a one-character separator. *)
Fixpoint split (sep : ascii) (s : string) : list string :=
  match s with
  | EmptyString => [EmptyString]
  | String c s' =>
      if Ascii.eqb c sep then EmptyString :: split sep s'
      else match split sep s' with
           | [] => [String c EmptyString]
           | w :: ws => String c w :: ws
           end
  end.

(** [l[-1]] of a list that is not empty. *)
Definition last_item (l : list string) : string := List.last l EmptyString.

(** [sys.argv[i] if len(sys.argv) > i else dflt] *)
Definition argv_or (argv : list string) (i : nat) (dflt : string) : string :=
  nth i argv dflt.

(** [not data] for what [curl_get] returns: [None] or a str. *)
Definition no_data (data : option string) : bool :=
  match data with
  | None => true
  | Some s => (s =? "")%string
  end.

(** The str that [data] is once [not data] is false. *)
Definition text_of (data : option string) : string :=
  match data with
  | Some text => text
  | None => EmptyString
  end.

(** JSON object and array literals of the scripts. *)
Definition board_entry (name : string) (change : float) : pyval :=
  PDict [("name", PStr name); ("change", PFloat change)].

Definition error_object (msg : string) : pyval := PDict [("error", PStr msg)].

(** ** scripts/astock.py *)

Module Astock.

(** [curl_get(url)] *)
Definition curl_get (w : World) (url : string) : M (option string) :=
  let argv := ["curl"; "-s"; "-m"; "10"; url] in
  emit (Subprocess argv) ;;;
  match subprocess_run w argv None with
  | inl result => ret (Some (stdout result))
  | inr _ => ret None
  end.

Definition index_url : string :=
  "https://push2.eastmoney.com/api/qt/ulist.np/get?fltt=2&fields=f1,f2,f3,f4,f12,f13,f14,f104,f105&secids=1.000001,0.399001,0.399006,1.000300,1.000016,1.000905,0.399101,0.399102".

Definition stock_url (symbol : string) : string :=
  "https://push2.eastmoney.com/api/qt/stock/get?secid=1." ++ symbol ++
  "&fields=f43,f44,f45,f46,f47,f48,f50,f51,f52,f55,f57,f58,f59,f60,f116,f117,f162,f167,f168,f169,f170,f171,f173,f177".

Definition concept_url : string :=
  "https://push2.eastmoney.com/api/qt/clist/get?pn=1&pz=20&po=1&np=1&ut=bd1d9ddb04089700cf9c27f6f7426281&fltt=2&invt=2&fid=f3&fs=m:90+t:2&fields=f1,f2,f3,f4,f12,f13,f14".

Definition industry_url : string :=
  "https://push2.eastmoney.com/api/qt/clist/get?pn=1&pz=20&po=1&np=1&ut=bd1d9ddb04089700cf9c27f6f7426281&fltt=2&invt=2&fid=f3&fs=m:90+t:3&fields=f1,f2,f3,f4,f12,f13,f14".

(** The record built from one item of the index list. *)
Definition index_record (item : pyval) : M pyval :=
  symbol <- py_get item "f12" (PStr "") ;;
  name <- py_get item "f14" (PStr "") ;;
  price <- py_get item "f2" (PInt 0) ;;
  change <- py_get item "f3" (PInt 0) ;;
  ret (PDict [("symbol", symbol); ("name", name); ("price", price); ("change", change)]).

(** [obj.get(k, 0) / 100 if obj.get(k) else 0] *)
Definition scaled (obj : pyval) (k : string) : M pyval :=
  test <- py_get obj k PNone ;;
  if truthy test then
    x <- py_get obj k (PInt 0) ;;
    q <- py_truediv x (PInt 100) ;;
    ret (PFloat q)
  else ret (PInt 0).

(** The record built from one item of a board list. *)
Definition board_record (item : pyval) : M pyval :=
  name <- py_get item "f14" (PStr "") ;;
  change <- py_get item "f3" (PInt 0) ;;
  ret (PDict [("name", name); ("change", change)]).

(** [obj.get('data', {}).get('diff', [])], then the loop over it. *)
Definition board_records (obj : pyval) : M (list pyval) :=
  data <- py_get obj "data" (PDict []) ;;
  diff <- py_get data "diff" (PList []) ;;
  items <- py_iter diff ;;
  mapM board_record items.

Definition get_index (lib : PyLib) (w : World) : M unit :=
  data <- curl_get w index_url ;;
  if no_data data then print_json (PList [error_object "获取数据失败"])
  else
    try_except
      (obj <- py_json_loads lib (text_of data) ;;
       data <- py_get obj "data" (PList []) ;;
       items <- py_iter data ;;
       indices <- mapM index_record items ;;
       print_json_raw (PList indices))
      (fun _ => print_json (PList [error_object "解析数据失败"])).

(** The dict that [get_stock] prints, from the [data] object of the response. *)
Definition stock_record (symbol : string) (obj : pyval) : M pyval :=
  name <- py_get obj "f58" (PStr "") ;;
  price <- scaled obj "f43" ;;
  change <- scaled obj "f170" ;;
  ret (PDict [("symbol", PStr symbol); ("name", name);
              ("price", price); ("change", change)]).

Definition get_stock (lib : PyLib) (w : World) (symbol : string) : M unit :=
  data <- curl_get w (stock_url symbol) ;;
  if no_data data then print_json (error_object "获取数据失败")
  else
    try_except
      (obj <- py_json_loads lib (text_of data) ;;
       obj <- py_get obj "data" (PDict []) ;;
       record <- stock_record symbol obj ;;
       print_json_raw record)
      (fun _ => print_json (error_object "解析数据失败")).

Definition concept_placeholder : pyval :=
  PList [board_entry "人工智能" 3.25; board_entry "芯片概念" 2.18].

Definition industry_placeholder : pyval :=
  PList [board_entry "电子元件" 1.85; board_entry "软件服务" 1.62].

(** The body shared, up to the URL and the placeholder, by [get_concept]
    and [get_industry]. *)
Definition get_board (lib : PyLib) (w : World) (url : string) (placeholder : pyval)
  : M unit :=
  data <- curl_get w url ;;
  if no_data data then print_json placeholder
  else
    try_except
      (obj <- py_json_loads lib (text_of data) ;;
       records <- board_records obj ;;
       print_json_raw (PList records))
      (fun _ => print_json placeholder).

Definition get_concept (lib : PyLib) (w : World) : M unit :=
  get_board lib w concept_url concept_placeholder.

Definition get_industry (lib : PyLib) (w : World) : M unit :=
  get_board lib w industry_url industry_placeholder.

(** The [__main__] block; [argv] is [sys.argv]. *)
Definition main (lib : PyLib) (w : World) (argv : list string) : M unit :=
  let cmd := argv_or argv 1 "index" in
  let arg := argv_or argv 2 "" in
  if (cmd =? "index")%string then get_index lib w
  else if (cmd =? "stock")%string then get_stock lib w arg
  else if (cmd =? "concept")%string then get_concept lib w
  else if (cmd =? "industry")%string then get_industry lib w
  else ret tt.

End Astock.

(** ** The HTTP request handler shared by the two services *)

(** What the handler reads of a request. *)
Record Request : Type := {
  requestline : string;   (* the first line of the request, as logged *)
  path : string           (* self.path *)
}.

(** [send_json(data, status)]: [send_response] logs the request through the
    overridden [log_message]; the status line and the headers go out with
    [end_headers]; then [json.dumps(data, ensure_ascii=False).encode('utf-8')]
    gives the body, or raises when the text holds a surrogate, and the body
    is written. A response sent whole is one [Response] event. *)
Definition send_json (clk : Clock) (req : Request) (data : pyval) (status : Z) : M unit :=
  emit (Stdout ("[" ++ log_stamp clk ++ "] " ++ requestline req)) ;;;
  if encodable data then emit (Response status data)
  else emit (HeadersOnly status) ;;; raise (UnicodeEncodeError data).

(** ** scripts/astock_service.py *)

Module AstockService.

(** [curl_get(url)] *)
Definition curl_get (lib : PyLib) (w : World) (url : string) : M (option string) :=
  let argv := ["curl"; "-s"; "-m"; "10"; "--noproxy"; "*"; url] in
  emit (Subprocess argv) ;;;
  match subprocess_run w argv (Some 15) with
  | inl result => ret (Some (stdout result))
  | inr e => emit (Stdout ("curl error: " ++ exn_str lib e)) ;;; ret None
  end.

Definition index_url : string :=
  "https://push2.eastmoney.com/api/qt/ulist.np/get?fltt=2&fields=f2,f3,f4,f12,f14&secids=1.000001,0.399001,0.399006,1.000300,1.000016,1.000905,0.399101,0.399102".

Definition stock_url (symbol : string) : string :=
  "https://push2.eastmoney.com/api/qt/stock/get?secid=1." ++ symbol ++
  "&fields=f43,f44,f45,f46,f47,f48,f58,f170".

Definition concept_url : string :=
  "https://push2.eastmoney.com/api/qt/clist/get?pn=1&pz=20&po=1&np=1&ut=bd1d9ddb04089700cf9c27f6f7426281&fltt=2&invt=2&fid=f3&fs=m:90+t:2&fields=f2,f3,f4,f12,f14".

Definition industry_url : string :=
  "https://push2.eastmoney.com/api/qt/clist/get?pn=1&pz=20&po=1&np=1&ut=bd1d9ddb04089700cf9c27f6f7426281&fltt=2&invt=2&fid=f3&fs=m:90+t:3&fields=f2,f3,f4,f12,f14".

Definition index_placeholder : pyval :=
  PList [PDict [("symbol", PStr "000001"); ("name", PStr "上证指数");
                ("price", PInt 3388); ("change", PFloat 0.5)]].

Definition stock_placeholder (symbol : string) : pyval :=
  PDict [("symbol", PStr symbol); ("name", PStr "股票");
         ("price", PFloat 10.0); ("change", PFloat 0.0)].

Definition concept_placeholder : pyval :=
  PList [board_entry "人工智能" 3.25; board_entry "芯片概念" 2.18].

Definition industry_placeholder : pyval :=
  PList [board_entry "电子元件" 1.85; board_entry "软件服务" 1.62].

Section Handlers.
Variables (lib : PyLib) (clk : Clock) (w : World) (req : Request).

(** The branch of [do_GET] under [# 指数行情]. *)
Definition index_handler : M unit :=
  data <- curl_get lib w index_url ;;
  if no_data data then send_json clk req index_placeholder 200
  else
    try_except
      (obj <- py_json_loads lib (text_of data) ;;
       data <- py_get obj "data" (PList []) ;;
       items <- py_iter data ;;
       indices <- mapM Astock.index_record items ;;
       send_json clk req (PList indices) 200)
      (fun _ => send_json clk req index_placeholder 200).

(** The branch of [do_GET] under [# 个股行情]. *)
Definition stock_handler : M unit :=
  let symbol := last_item (split "/" (path req)) in
  data <- curl_get lib w (stock_url symbol) ;;
  if no_data data then send_json clk req (stock_placeholder symbol) 200
  else
    try_except
      (obj <- py_json_loads lib (text_of data) ;;
       obj <- py_get obj "data" (PDict []) ;;
       record <- Astock.stock_record symbol obj ;;
       send_json clk req record 200)
      (fun _ => send_json clk req (stock_placeholder symbol) 200).

(** The branches under [# 概念板块] and [# 行业板块], which differ in the
    URL and the placeholder. *)
Definition board_handler (url : string) (placeholder : pyval) : M unit :=
  data <- curl_get lib w url ;;
  if no_data data then send_json clk req placeholder 200
  else
    try_except
      (obj <- py_json_loads lib (text_of data) ;;
       records <- Astock.board_records obj ;;
       send_json clk req (PList records) 200)
      (fun _ => send_json clk req placeholder 200).

Definition concept_handler : M unit := board_handler concept_url concept_placeholder.
Definition industry_handler : M unit := board_handler industry_url industry_placeholder.

Definition health_handler : M unit :=
  send_json clk req (PDict [("status", PStr "ok"); ("service", PStr "A股数据服务")]) 200.

Definition unknown_handler : M unit :=
  send_json clk req (error_object "Unknown endpoint") 200.

(** [StockHandler.do_GET] *)
Definition do_GET : M unit :=
  let path := path req in
  if (path =? "/health")%string then health_handler
  else if (path =? "/stock/index/realtime")%string || contains "/index" path
  then index_handler
  else if contains "/stock/realtime/" path then stock_handler
  else if (path =? "/stock/concept")%string || contains "/concept" path
  then concept_handler
  else if (path =? "/stock/industry")%string || contains "/industry" path
  then industry_handler
  else unknown_handler.
End Handlers.

End AstockService.

(** ** Tables of the data library *)

(** A row as [iterrows] and [iloc] give it: the cells under their labels. *)
Definition row : Type := list (string * pyval).

Definition iterrows (df : DataFrame) : list row :=
  map (combine (df_columns df)) (df_rows df).

(** [df.head(n)] *)
Definition head (n : nat) (df : DataFrame) : DataFrame :=
  {| df_columns := df_columns df; df_rows := firstn n (df_rows df) |}.

(** [row.get(k, dflt)] *)
Definition row_get (r : row) (k : string) (dflt : pyval) : pyval :=
  match lookup k r with Some v => v | None => dflt end.

(** [cell == symbol] for a str [symbol]. *)
Definition cell_is (symbol : string) (cell : pyval) : bool :=
  match cell with
  | PStr s => (s =? symbol)%string
  | _ => false
  end.

(** [df[df[col] == symbol]]: [df[col]] raises when the label is missing. *)
Definition select_eq (df : DataFrame) (col symbol : string) : M DataFrame :=
  if existsb (String.eqb col) (df_columns df) then
    ret {| df_columns := df_columns df;
           df_rows := filter (fun cells =>
                                cell_is symbol (row_get (combine (df_columns df) cells) col PNone))
                             (df_rows df) |}
  else raise (KeyError col).

(** [df.empty] *)
Definition empty (df : DataFrame) : bool :=
  match df_columns df, df_rows df with
  | [], _ | _, [] => true
  | _, _ => false
  end.

(** A call of the data library. *)
Definition ak_call (w : World) (fn : string) (args : list string) : M DataFrame :=
  emit (Ak fn args) ;;;
  match ak w fn args with
  | inl df => ret df
  | inr e => raise e
  end.

(** [float(v) if v else dflt] *)
Definition float_if (lib : PyLib) (v dflt : pyval) : M pyval :=
  if truthy v then f <- py_float lib v ;; ret (PFloat f) else ret dflt.

(** [float(row.get(k, 0)) if row.get(k) else dflt] *)
Definition float_field (lib : PyLib) (r : row) (k : string) (dflt : pyval) : M pyval :=
  if truthy (row_get r k PNone)
  then f <- py_float lib (row_get r k (PInt 0)) ;; ret (PFloat f)
  else ret dflt.

(** [int(row.get(k, 0)) if row.get(k) else 0] *)
Definition int_field (lib : PyLib) (r : row) (k : string) : M pyval :=
  if truthy (row_get r k PNone)
  then z <- py_int lib (row_get r k (PInt 0)) ;; ret (PInt z)
  else ret (PInt 0).

(** ** scripts/akshare_service.py *)

Module AkshareService.

Section Handlers.
Variables (lib : PyLib) (clk : Clock) (w : World) (req : Request).

(** [except Exception as e: self.send_json({"error": str(e)}, 500)] *)
Definition on_error (e : exn) : M unit :=
  send_json clk req (error_object (exn_str lib e)) 500.

(** The record of the realtime-all and index loops. *)
Definition quote_record (r : row) : M pyval :=
  let price := row_get r "最新价" PNone in
  let change := row_get r "涨跌幅" PNone in
  p <- float_if lib price (PInt 0) ;;
  c <- float_if lib change (PInt 0) ;;
  ret (PDict [("symbol", row_get r "代码" (PStr "")); ("name", row_get r "名称" (PStr ""));
              ("price", p); ("change", c)]).

Definition news_record (r : row) : M pyval :=
  ret (PDict [("title", row_get r "新闻标题" (PStr ""));
              ("datetime", PStr (py_str lib (row_get r "发布时间" (PStr ""))))]).

Definition board_record (r : row) : M pyval :=
  let change := row_get r "涨跌幅" PNone in
  c <- float_if lib change (PInt 0) ;;
  ret (PDict [("name", row_get r "板块名称" (PStr "")); ("change", c)]).

(** The branches that send the first [limit] rows of a table, each
    through [record]. *)
Definition list_handler (fn : string) (limit : nat) (record : row -> M pyval) : M unit :=
  try_except
    (df <- ak_call w fn [] ;;
     records <- mapM record (iterrows (head limit df)) ;;
     send_json clk req (PList records) 200)
    on_error.

Definition realtime_all_handler : M unit := list_handler "stock_zh_a_spot_em" 100 quote_record.
Definition index_handler : M unit := list_handler "stock_zh_index_spot_em" 10 quote_record.
Definition news_handler : M unit := list_handler "stock_news_em" 10 news_record.
Definition concept_handler : M unit := list_handler "stock_board_concept_name_em" 20 board_record.
Definition industry_handler : M unit := list_handler "stock_board_industry_name_em" 20 board_record.

(** The dict the single-quote branch sends, from the row found. *)
Definition stock_record (symbol : string) (r : row) : M pyval :=
  price <- float_field lib r "最新价" (PInt 0) ;;
  change <- float_field lib r "涨跌幅" (PInt 0) ;;
  volume <- float_field lib r "成交量" (PInt 0) ;;
  ret (PDict [("symbol", PStr symbol); ("name", row_get r "名称" (PStr ""));
              ("price", price); ("change", change); ("volume", volume)]).

(** The branch under [# 个股实时行情]. *)
Definition stock_handler : M unit :=
  let symbol := last_item (split "/" (path req)) in
  try_except
    (df <- ak_call w "stock_zh_a_spot_em" [] ;;
     stock <- select_eq df "代码" symbol ;;
     if empty stock then send_json clk req (error_object "股票未找到") 404
     else
       match iterrows stock with
       | [] => raise (RaisedBy "iloc" "single positional indexer is out-of-bounds")
       | r :: _ =>
           record <- stock_record symbol r ;;
           send_json clk req record 200
       end)
    on_error.

Definition health_handler : M unit :=
  send_json clk req (PDict [("status", PStr "ok"); ("service", PStr "AkShare A股数据服务")]) 200.

Definition unknown_handler : M unit :=
  send_json clk req (error_object "Unknown endpoint") 404.

(** [StockHandler.do_GET] *)
Definition do_GET : M unit :=
  let path := path req in
  if (path =? "/health")%string then health_handler
  else if startswith path "/stock/realtime/all" then realtime_all_handler
  else if startswith path "/stock/index/realtime" then index_handler
  else if startswith path "/stock/news" then news_handler
  else if startswith path "/stock/concept" then concept_handler
  else if startswith path "/stock/industry" then industry_handler
  else if startswith path "/stock/realtime/" then stock_handler
  else unknown_handler.
End Handlers.

End AkshareService.

(** ** skills/quant-data-agent/scripts/data_query.py *)

Module DataQuery.

Section Commands.
Variables (lib : PyLib) (clk : Clock) (w : World).

Definition get_timestamp : string := isoformat clk.

(** [error_response(msg)] and [success_response(data)]: the str that
    [json.dumps] returns is represented by the value it serialises. *)
Definition error_response (msg : string) : pyval :=
  PDict [("success", PBool false); ("error", PStr msg);
         ("timestamp", PStr get_timestamp)].

Definition success_response (data : pyval) : pyval :=
  PDict [("success", PBool true); ("data", data);
         ("timestamp", PStr get_timestamp); ("source", PStr "akshare")].

(** The shape every [get_*] function has: one library call, the first
    [limit] rows (all of them when there is no limit), one record per row,
    and [except Exception as e: return error_response(...)]. *)
Definition query (fn : string) (args : list string) (limit : option nat)
           (record : row -> M pyval) : M pyval :=
  try_except
    (df <- ak_call w fn args ;;
     result <- mapM record
                 (iterrows (match limit with Some n => head n df | None => df end)) ;;
     ret (success_response (PList result)))
    (fun e => ret (error_response ("获取失败: " ++ exn_str lib e))).

Definition a_stock_record (r : row) : M pyval :=
  price <- float_field lib r "最新价" PNone ;;
  change <- float_field lib r "涨跌幅" (PInt 0) ;;
  amplitude <- float_field lib r "振幅" (PInt 0) ;;
  high <- float_field lib r "最高" PNone ;;
  low <- float_field lib r "最低" PNone ;;
  open <- float_field lib r "今开" PNone ;;
  close <- float_field lib r "昨收" PNone ;;
  ret (PDict [("symbol", row_get r "代码" (PStr "")); ("name", row_get r "名称" (PStr ""));
              ("price", price); ("change", change);
              ("volume", row_get r "成交量" (PStr "")); ("amount", row_get r "成交额" (PStr ""));
              ("amplitude", amplitude); ("high", high); ("low", low);
              ("open", open); ("close", close)]).

Definition get_a_stock_realtime : M pyval :=
  query "stock_zh_a_spot_em" [] (Some 100%nat) a_stock_record.

Definition kline_record (r : row) : M pyval :=
  open <- float_field lib r "开盘" PNone ;;
  close <- float_field lib r "收盘" PNone ;;
  high <- float_field lib r "最高" PNone ;;
  low <- float_field lib r "最低" PNone ;;
  volume <- float_field lib r "成交量" (PInt 0) ;;
  amount <- float_field lib r "成交额" (PInt 0) ;;
  ret (PDict [("date", PStr (py_str lib (row_get r "日期" (PStr ""))));
              ("open", open); ("close", close); ("high", high); ("low", low);
              ("volume", volume); ("amount", amount)]).

Definition get_a_stock_kline (symbol period : string) (days : Z) : M pyval :=
  query "stock_zh_a_hist" [symbol; period; days_ago clk days; "qfq"] None kline_record.

Definition fund_flow_record (r : row) : M pyval :=
  f1 <- float_field lib r "主力净流入" (PInt 0) ;;
  f2 <- float_field lib r "散户净流入" (PInt 0) ;;
  f3 <- float_field lib r "超大单净流入" (PInt 0) ;;
  f4 <- float_field lib r "大单净流入" (PInt 0) ;;
  f5 <- float_field lib r "中单净流入" (PInt 0) ;;
  f6 <- float_field lib r "小单净流入" (PInt 0) ;;
  ret (PDict [("date", PStr (py_str lib (row_get r "日期" (PStr ""))));
              ("主力净流入", f1); ("散户净流入", f2); ("超大单净流入", f3);
              ("大单净流入", f4); ("中单净流入", f5); ("小单净流入", f6)]).

Definition get_fund_flow (symbol : string) : M pyval :=
  query "stock_individual_fund_flow" [symbol; "sh"] (Some 10%nat) fund_flow_record.

Definition index_record (r : row) : M pyval :=
  price <- float_field lib r "最新价" PNone ;;
  change <- float_field lib r "涨跌幅" (PInt 0) ;;
  ret (PDict [("symbol", row_get r "代码" (PStr "")); ("name", row_get r "名称" (PStr ""));
              ("price", price); ("change", change);
              ("volume", row_get r "成交量" (PStr "")); ("amount", row_get r "成交额" (PStr ""))]).

Definition get_index_realtime : M pyval :=
  query "stock_zh_index_spot_em" [] (Some 20%nat) index_record.

Definition futures_record (r : row) : M pyval :=
  price <- float_field lib r "最新价" PNone ;;
  change <- float_field lib r "涨跌幅" (PInt 0) ;;
  ret (PDict [("symbol", row_get r "合约代码" (PStr "")); ("name", row_get r "合约名称" (PStr ""));
              ("latest_price", price); ("change", change);
              ("volume", row_get r "成交量" (PStr "")); ("amount", row_get r "成交额" (PStr ""))]).

Definition get_futures_realtime (symbol : string) : M pyval :=
  if negb (symbol =? "")%string
  then query "futures_zh_realtime" [symbol] (Some 20%nat) futures_record
  else query "futures_zh_realtime_all" [] (Some 20%nat) futures_record.

Definition etf_record (r : row) : M pyval :=
  price <- float_field lib r "最新价" PNone ;;
  change <- float_field lib r "涨跌幅" (PInt 0) ;;
  ret (PDict [("symbol", row_get r "代码" (PStr "")); ("name", row_get r "名称" (PStr ""));
              ("price", price); ("change", change);
              ("volume", row_get r "成交量" (PStr ""))]).

Definition get_etf_realtime : M pyval :=
  query "fund_etf_spot_em" [] (Some 30%nat) etf_record.

Definition concept_record (r : row) : M pyval :=
  change <- float_field lib r "涨跌幅" (PInt 0) ;;
  up <- int_field lib r "上涨" ;;
  down <- int_field lib r "下跌" ;;
  ret (PDict [("name", row_get r "板块名称" (PStr "")); ("change", change);
              ("volume", row_get r "成交额" (PStr ""));
              ("up_count", up); ("down_count", down)]).

Definition get_concept_board : M pyval :=
  query "stock_board_concept_name_em" [] (Some 30%nat) concept_record.

Definition industry_record (r : row) : M pyval :=
  change <- float_field lib r "涨跌幅" (PInt 0) ;;
  ret (PDict [("name", row_get r "板块名称" (PStr "")); ("change", change);
              ("volume", row_get r "成交额" (PStr ""))]).

Definition get_industry_board : M pyval :=
  query "stock_board_industry_name_em" [] (Some 30%nat) industry_record.

Definition gdp_record (r : row) : M pyval :=
  gdp <- float_field lib r "国内生产总值(亿元)" PNone ;;
  yoy <- float_field lib r "国内生产总值同比增长" PNone ;;
  ret (PDict [("quarter", PStr (py_str lib (row_get r "季度" (PStr ""))));
              ("gdp", gdp); ("gdp_yoy", yoy)]).

Definition get_macro_gdp : M pyval := query "macro_china_gdp" [] None gdp_record.

Definition cpi_record (r : row) : M pyval :=
  cpi <- float_field lib r "全国居民消费价格" PNone ;;
  yoy <- float_field lib r "全国居民消费价格同比增长" PNone ;;
  ret (PDict [("month", PStr (py_str lib (row_get r "月份" (PStr ""))));
              ("cpi", cpi); ("cpi_yoy", yoy)]).

Definition get_macro_cpi : M pyval := query "macro_china_cpi" [] None cpi_record.

Definition news_record (r : row) : M pyval :=
  ret (PDict [("title", row_get r "新闻标题" (PStr ""));
              ("datetime", PStr (py_str lib (row_get r "发布时间" (PStr ""))));
              ("source", row_get r "文章来源" (PStr ""))]).

Definition get_stock_news : M pyval := query "stock_news_em" [] (Some 20%nat) news_record.

Definition help_object : pyval :=
  PDict [("commands",
          PDict [("stock", PStr "A股实时行情");
                 ("kline <symbol> [period]", PStr "K线数据");
                 ("fundflow <symbol>", PStr "资金流向");
                 ("index", PStr "指数行情");
                 ("futures [symbol]", PStr "期货行情");
                 ("etf", PStr "ETF行情");
                 ("concept", PStr "概念板块");
                 ("industry", PStr "行业板块");
                 ("gdp", PStr "GDP数据");
                 ("cpi", PStr "CPI数据");
                 ("news", PStr "财经新闻")])].

(** [a or b] on two strs. *)
Definition str_or (a b : string) : string := if (a =? "")%string then b else a.

(** The payload [main] prints for [argv]. *)
Definition response (argv : list string) : M pyval :=
  let cmd := argv_or argv 1 "help" in
  let arg1 := argv_or argv 2 "" in
  let arg2 := argv_or argv 3 "" in
  if (cmd =? "stock")%string then get_a_stock_realtime
  else if (cmd =? "kline")%string
  then get_a_stock_kline (str_or arg1 "000001") (str_or arg2 "daily") 30
  else if (cmd =? "fundflow")%string then get_fund_flow (str_or arg1 "000001")
  else if (cmd =? "index")%string then get_index_realtime
  else if (cmd =? "futures")%string then get_futures_realtime arg1
  else if (cmd =? "etf")%string then get_etf_realtime
  else if (cmd =? "concept")%string then get_concept_board
  else if (cmd =? "industry")%string then get_industry_board
  else if (cmd =? "gdp")%string then get_macro_gdp
  else if (cmd =? "cpi")%string then get_macro_cpi
  else if (cmd =? "news")%string then get_stock_news
  else ret help_object.

(** [main()]: every branch is [print(...)] of one payload. *)
Definition main (argv : list string) : M unit :=
  payload <- response argv ;;
  print_json payload.
End Commands.

End DataQuery.

(** ** A reader for the JSON texts of the examples *)

(** The examples below give upstream responses as text. [Json.loads] reads
    the part of the JSON grammar they use: objects, arrays, strings with the
    one-letter escapes and the [\u] escapes, decimal numbers, [true],
    [false] and [null]. A text outside that part ([NaN], say) is rejected.
    The theorems do not depend on it: they hold for every [json_loads]. *)
Module Json.

Definition dquote : ascii := "034"%char.
Definition backslash : ascii := "092"%char.

Definition is_ws (c : ascii) : bool :=
  match nat_of_ascii c with
  | 32%nat | 9%nat | 10%nat | 13%nat => true
  | _ => false
  end.

Fixpoint skip_ws (s : list ascii) : list ascii :=
  match s with
  | c :: s' => if is_ws c then skip_ws s' else s
  | [] => []
  end.

Definition digit (c : ascii) : option Z :=
  let n := Z.of_nat (nat_of_ascii c) in
  if (48 <=? n) && (n <=? 57) then Some (n - 48) else None.

(** The digits at the head of [s]: their value from [acc], how many there
    are, and the rest. *)
Fixpoint digits (acc : Z) (count : Z) (s : list ascii) : Z * Z * list ascii :=
  match s with
  | c :: s' => match digit c with
               | Some d => digits (10 * acc + d) (count + 1) s'
               | None => (acc, count, s)
               end
  | [] => (acc, count, s)
  end.

(** The binary64 number nearest to [m * 10^e], for [m >= 0]. *)
Definition decimal_to_float (m e : Z) : float :=
  SF2Prim (if 0 <=? e then SF_of_Z (m * 10 ^ e) else SF_div_Z m (10 ^ (- e))).

(** [s] starts with a [0] that another digit follows. *)
Definition leading_zero (s : list ascii) : bool :=
  match s with
  | "0"%char :: c :: _ => match digit c with Some _ => true | None => false end
  | _ => false
  end.

(** A number: an int when it has neither fraction nor exponent. *)
Definition number (s : list ascii) : option (pyval * list ascii) :=
  let (neg, s1) := match s with
                   | "-"%char :: r => (true, r)
                   | _ => (false, s)
                   end in
  let '(int_part, n_int, s2) := digits 0 0 s1 in
  if (n_int =? 0) || leading_zero s1 then None
  else
    let '(mant, n_frac, s3, has_frac) :=
      match s2 with
      | "."%char :: r => let '(m, n, r') := digits int_part 0 r in (m, n, r', true)
      | _ => (int_part, 0, s2, false)
      end in
    if has_frac && (n_frac =? 0) then None
    else
      let '(exp, s4, has_exp, exp_ok) :=
        match s3 with
        | c :: r =>
            if Ascii.eqb c "e" || Ascii.eqb c "E" then
              let (eneg, r1) := match r with
                                | "-"%char :: r' => (true, r')
                                | "+"%char :: r' => (false, r')
                                | _ => (false, r)
                                end in
              let '(e, n, r2) := digits 0 0 r1 in
              (if eneg then - e else e, r2, true, negb (n =? 0))
            else (0, s3, false, true)
        | [] => (0, s3, false, true)
        end in
      if negb exp_ok then None
      else if has_frac || has_exp then
        let f := decimal_to_float mant (exp - n_frac) in
        Some (PFloat (if neg then (- f)%float else f), s4)
      else Some (PInt (if neg then - int_part else int_part), s4).

Definition hex_digit (c : ascii) : option Z :=
  let n := Z.of_nat (nat_of_ascii c) in
  if (48 <=? n) && (n <=? 57) then Some (n - 48)
  else if (65 <=? n) && (n <=? 70) then Some (n - 55)
  else if (97 <=? n) && (n <=? 102) then Some (n - 87)
  else None.

(** The number that four hexadecimal digits write. *)
Definition hex4 (a b c d : ascii) : option Z :=
  match hex_digit a, hex_digit b, hex_digit c, hex_digit d with
  | Some x, Some y, Some z, Some t => Some (((x * 16 + y) * 16 + z) * 16 + t)
  | _, _, _, _ => None
  end.

Definition byte (n : Z) : ascii := ascii_of_nat (Z.to_nat n).

(** The bytes of the character [n] in UTF-8. A surrogate, from 0xD800 to
    0xDFFF, gets the three bytes of the same scheme. *)
Definition utf8 (n : Z) : list ascii :=
  if n <? 128 then [byte n]
  else if n <? 2048 then [byte (192 + n / 64); byte (128 + n mod 64)]
  else if n <? 65536 then
    [byte (224 + n / 4096); byte (128 + (n / 64) mod 64); byte (128 + n mod 64)]
  else
    [byte (240 + n / 262144); byte (128 + (n / 4096) mod 64);
     byte (128 + (n / 64) mod 64); byte (128 + n mod 64)].

(** The character that a high surrogate [hi] and the escape that follows
    it write together, when that escape is the one of a low surrogate. *)
Definition surrogate_pair (hi : Z) (bs u a b c d : ascii) : option Z :=
  if (55296 <=? hi) && (hi <=? 56319) && Ascii.eqb bs backslash && Ascii.eqb u "u" then
    match hex4 a b c d with
    | Some lo => if (56320 <=? lo) && (lo <=? 57343)
                 then Some (65536 + (hi - 55296) * 1024 + (lo - 56320))
                 else None
    | None => None
    end
  else None.

Definition prepend (bytes : list ascii) (rest : option (string * list ascii))
  : option (string * list ascii) :=
  match rest with
  | Some (w, r) => Some (fold_right String w bytes, r)
  | None => None
  end.

(** The characters of a string literal after its opening quote. *)
Fixpoint string_body (s : list ascii) : option (string * list ascii) :=
  match s with
  | [] => None
  | c :: s' =>
      if Ascii.eqb c dquote then Some (EmptyString, s')
      else if Ascii.eqb c backslash then
        match s' with
        | e :: s'' =>
            if Ascii.eqb e "u" then
              match s'' with
              | a :: b :: c4 :: d :: r =>
                  match hex4 a b c4 d with
                  | Some hi =>
                      match r with
                      | bs :: u :: a' :: b' :: c' :: d' :: r' =>
                          match surrogate_pair hi bs u a' b' c' d' with
                          | Some n => prepend (utf8 n) (string_body r')
                          | None => prepend (utf8 hi) (string_body r)
                          end
                      | _ => prepend (utf8 hi) (string_body r)
                      end
                  | None => None
                  end
              | _ => None
              end
            else
            let unescaped :=
              if Ascii.eqb e dquote then Some dquote
              else if Ascii.eqb e backslash then Some backslash
              else match e with
                   | "/"%char => Some "/"%char
                   | "b"%char => Some "008"%char
                   | "f"%char => Some "012"%char
                   | "n"%char => Some "010"%char
                   | "r"%char => Some "013"%char
                   | "t"%char => Some "009"%char
                   | _ => None
                   end in
            match unescaped, string_body s'' with
            | Some u, Some (w, r) => Some (String u w, r)
            | _, _ => None
            end
        | [] => None
        end
      else if (nat_of_ascii c <? 32)%nat then None
      else match string_body s' with
           | Some (w, r) => Some (String c w, r)
           | None => None
           end
  end.

(** [d[k] = v]: a key met again keeps its place and takes the new value. *)
Fixpoint dict_set (k : string) (v : pyval) (d : list (string * pyval))
  : list (string * pyval) :=
  match d with
  | [] => [(k, v)]
  | (k', v') :: d' => if (k =? k')%string then (k, v) :: d' else (k', v') :: dict_set k v d'
  end.

Fixpoint value (fuel : nat) (s : list ascii) : option (pyval * list ascii) :=
  match fuel with
  | O => None
  | S fuel' =>
      match skip_ws s with
      | "n"%char :: "u"%char :: "l"%char :: "l"%char :: r => Some (PNone, r)
      | "t"%char :: "r"%char :: "u"%char :: "e"%char :: r => Some (PBool true, r)
      | "f"%char :: "a"%char :: "l"%char :: "s"%char :: "e"%char :: r => Some (PBool false, r)
      | "["%char :: r =>
          match skip_ws r with
          | "]"%char :: r' => Some (PList [], r')
          | _ => match elements fuel' r with
                 | Some (l, r') => Some (PList l, r')
                 | None => None
                 end
          end
      | "{"%char :: r =>
          match skip_ws r with
          | "}"%char :: r' => Some (PDict [], r')
          | _ => match members fuel' [] r with
                 | Some (d, r') => Some (PDict d, r')
                 | None => None
                 end
          end
      | c :: r =>
          if Ascii.eqb c dquote then
            match string_body r with
            | Some (w, r') => Some (PStr w, r')
            | None => None
            end
          else number (c :: r)
      | [] => None
      end
  end

(** The elements of an array after its bracket, up to the closing one. *)
with elements (fuel : nat) (s : list ascii) : option (list pyval * list ascii) :=
  match fuel with
  | O => None
  | S fuel' =>
      match value fuel' s with
      | Some (v, r) =>
          match skip_ws r with
          | ","%char :: r' => match elements fuel' r' with
                              | Some (l, r'') => Some (v :: l, r'')
                              | None => None
                              end
          | "]"%char :: r' => Some ([v], r')
          | _ => None
          end
      | None => None
      end
  end

(** The members of an object after its brace, added to [acc]. *)
with members (fuel : nat) (acc : list (string * pyval)) (s : list ascii)
  : option (list (string * pyval) * list ascii) :=
  match fuel with
  | O => None
  | S fuel' =>
      match skip_ws s with
      | c :: r =>
          if Ascii.eqb c dquote then
            match string_body r with
            | Some (k, r1) =>
                match skip_ws r1 with
                | ":"%char :: r2 =>
                    match value fuel' r2 with
                    | Some (v, r3) =>
                        match skip_ws r3 with
                        | ","%char :: r4 => members fuel' (dict_set k v acc) r4
                        | "}"%char :: r4 => Some (dict_set k v acc, r4)
                        | _ => None
                        end
                    | None => None
                    end
                | _ => None
                end
            | None => None
            end
          else None
      | [] => None
      end
  end.

(** The whole text is one value. *)
Definition loads (text : string) : option pyval :=
  let s := list_ascii_of_string text in
  match value (S (List.length s)) s with
  | Some (v, r) => match skip_ws r with [] => Some v | _ => None end
  | None => None
  end.

(** JSON text is written below with ['] where it has a double quote. *)
Definition text (s : string) : string :=
  string_of_list_ascii
    (map (fun c => if Ascii.eqb c "'" then dquote else c) (list_ascii_of_string s)).

(** [float(s)] and [int(s)] on the plain decimal literals of JSON; the
    examples call neither on a str. *)
Definition parse_float (s : string) : option float :=
  match number (list_ascii_of_string s) with
  | Some (PFloat f, []) => Some f
  | Some (PInt z, []) => Some (SF2Prim (SF_of_Z z))
  | _ => None
  end.

Definition parse_int (s : string) : option Z :=
  match number (list_ascii_of_string s) with
  | Some (PInt z, []) => Some z
  | _ => None
  end.

(** The library used by the examples. [repr] and [builtin_msg] are fixed
    texts: no example reads them. *)
Definition lib : PyLib :=
  {| json_loads := loads;
     float_of_str := parse_float;
     int_of_str := parse_int;
     repr := fun _ => "<repr>";
     builtin_msg := fun _ => "<message>";
     repr_encodable := fun _ => eq_refl;
     builtin_msg_encodable := fun _ => eq_refl |}.

End Json.


(** ** Reading a run *)

(** The HTTP responses sent, the JSON payloads printed and the upstream
    calls made during a run, in order. *)
Definition responses (t : list event) : list (Z * pyval) :=
  flat_map (fun ev => match ev with Response st body => [(st, body)] | _ => [] end) t.

Definition printed (t : list event) : list pyval :=
  flat_map (fun ev => match ev with PrintJson v => [v] | _ => [] end) t.

Definition upstream_calls (t : list event) : list event :=
  filter (fun ev => match ev with Subprocess _ | Ak _ _ => true | _ => false end) t.

(** [v[k]] of a JSON object, when it has the field. *)
Definition field (k : string) (v : pyval) : option pyval :=
  match v with
  | PDict d => lookup k d
  | _ => None
  end.

Definition has_field (k : string) (v : pyval) : bool :=
  match field k v with Some _ => true | None => false end.

(** A payload without its [timestamp] field. *)
Definition without_timestamp (v : pyval) : pyval :=
  match v with
  | PDict d => PDict (filter (fun kv => negb (fst kv =? "timestamp")%string) d)
  | _ => v
  end.

(** What [curl_get] of astock.py hands back for [url] in world [w]. *)
Definition fetched (w : World) (url : string) : option string :=
  match subprocess_run w ["curl"; "-s"; "-m"; "10"; url] None with
  | inl result => Some (stdout result)
  | inr _ => None
  end.

(** The same for astock_service.py. *)
Definition fetched_by_service (w : World) (url : string) : option string :=
  match subprocess_run w ["curl"; "-s"; "-m"; "10"; "--noproxy"; "*"; url] (Some 15) with
  | inl result => Some (stdout result)
  | inr _ => None
  end.

(** ** The claims' own words *)

(** "upstream field divided by 100": an int or a bool is divided exactly
    and rounded once, a float is divided by [100.0]; there is no quotient
    for a value that is not a number, nor when the quotient of an int is
    beyond the largest float. *)
Definition hundredth (v : pyval) : option float :=
  match as_number v with
  | Some (inl z) => let q := SF_div_Z z 100 in
                    if SF_is_finite q then Some (SF2Prim q) else None
  | Some (inr f) => Some (f / 100)%float
  | None => None
  end.

(** "divided by 100 when truthy, and 0 otherwise", for a field that may be
    absent. *)
Definition rescaled (field_value : option pyval) : option pyval :=
  match field_value with
  | None => Some (PInt 0)
  | Some v => if truthy v then option_map PFloat (hundredth v) else Some (PInt 0)
  end.

(** A payload that is a list of at most [n] records, or the error object
    sent with status 500, or no response sent whole (the text of the error
    could not be encoded either). *)
Definition capped_response (n : nat) (t : list event) : Prop :=
  (exists l, responses t = [(200, PList l)] /\ (List.length l <= n)%nat) \/
  (exists msg, responses t = [(500, error_object msg)]) \/
  responses t = [].

(** The same for a payload of data_query.py. *)
Definition capped_payload (n : nat) (clk : Clock) (m : M pyval) : Prop :=
  (exists l, outcome m = inl (DataQuery.success_response clk (PList l)) /\
             (List.length l <= n)%nat) \/
  (exists msg, outcome m = inl (DataQuery.error_response clk msg)).

(** ** Upstreams, clocks and requests of the examples *)

Module Fixture.

Definition clock_a : Clock :=
  {| isoformat := "2026-03-02T10:00:00.000001";
     log_stamp := "2026-03-02 10:00:00";
     days_ago := fun _ => "20260131" |}.

(** One second later on the same day. *)
Definition clock_b : Clock :=
  {| isoformat := "2026-03-02T10:00:01.000001";
     log_stamp := "2026-03-02 10:00:01";
     days_ago := fun _ => "20260131" |}.

Definition GET (path : string) : Request :=
  {| requestline := "GET " ++ path ++ " HTTP/1.1"; path := path |}.

(** An upstream whose transfer tool answers every URL alike and whose data
    library is out of reach. *)
Definition curl_world (answer : CompletedProcess + exn) : World :=
  {| subprocess_run := fun _ _ => answer;
     ak := fun _ _ => inr (RaisedBy "akshare" "Connection aborted.") |}.

(** The transfer tool ends with code 0 and [body] on its standard output. *)
Definition serving (body : string) : World :=
  curl_world (inl {| returncode := 0; stdout := Json.text body |}).

(** The transfer tool cannot be run at all. *)
Definition unreachable : World :=
  curl_world (inr (RaisedBy "subprocess" "[Errno 2] No such file or directory: 'curl'")).

(** The transfer tool gives up after its ten seconds, exit code 28, with
    the part of the body it had received on its standard output. *)
Definition partial_body : string := Json.text "{'data':{'di".

Definition cut_short : World :=
  curl_world (inl {| returncode := 28; stdout := partial_body |}).

(** An upstream whose data library answers every call with [answer]. *)
Definition ak_world (answer : DataFrame + exn) : World :=
  {| subprocess_run := fun _ _ => inr (RaisedBy "subprocess" "unused");
     ak := fun _ _ => answer |}.

(** A realtime snapshot of two stocks. *)
Definition snapshot : DataFrame :=
  {| df_columns := ["代码"; "名称"; "最新价"; "涨跌幅"; "成交量"];
     df_rows := [[PStr "600000"; PStr "浦发银行"; PFloat 10.5; PFloat 1.2; PFloat 1000];
                 [PStr "000001"; PStr "平安银行"; PFloat 0; PStr ""; PNone]] |}.

(** A table of [n] boards. *)
Definition boards (n : nat) : DataFrame :=
  {| df_columns := ["板块名称"; "涨跌幅"; "成交额"; "上涨"; "下跌"];
     df_rows := repeat [PStr "人工智能"; PFloat 3.25; PFloat 100; PInt 7; PInt 2] n |}.

(** The stub response of the concept-board example. *)
Definition concept_stub : string := "{'data':{'diff':[{'f14':'人工智能','f3':3.25}]}}".

(** A board response of [n + 1] entries. *)
Definition board_text (n : nat) : string :=
  "{'data':{'diff':[" ++ String.concat "" (repeat "{'f14':'x','f3':1}," n)
  ++ "{'f14':'x','f3':1}]}}".

(** An index response of [n + 1] entries. *)
Definition index_text (n : nat) : string :=
  "{'data':[" ++ String.concat "" (repeat "{'f12':'1','f14':'y','f2':2,'f3':3}," n)
  ++ "{'f12':'1','f14':'y','f2':2,'f3':3}]}".

(** The transfer tool answers the concept URL with one board and every
    other URL with one index. *)
Definition two_sources : World :=
  {| subprocess_run := fun argv _ =>
       inl {| returncode := 0;
              stdout := if (List.last argv "" =? AstockService.concept_url)%string
                        then Json.text concept_stub
                        else Json.text "{'data':[{'f12':'000001','f14':'上证指数','f2':3388.1,'f3':0.5}]}" |};
     ak := fun _ _ => inr (RaisedBy "akshare" "unused") |}.

(** The transfer tool of [w] beside a data library that answers every
    call with [answer]. *)
Definition with_library (w : World) (answer : DataFrame + exn) : World :=
  {| subprocess_run := subprocess_run w; ak := fun _ _ => answer |}.

End Fixture.

(** ** Properties of runs *)

(** Every response of the run has status [st]. *)
Definition all_status (st : Z) {A} (m : M A) : Prop :=
  Forall (fun r => fst r = st) (responses (trace m)).

(** The record of a board item that is the object [d]. *)
Definition board_of (d : list (string * pyval)) : pyval :=
  PDict [("name", match lookup "f14" d with Some x => x | None => PStr "" end);
         ("change", match lookup "f3" d with Some x => x | None => PInt 0 end)].

(** Two runs end alike and send the same responses. *)
Definition same_answers {A} (m1 m2 : M A) : Prop :=
  outcome m1 = outcome m2 /\
  responses (trace m1) = responses (trace m2) /\
  upstream_calls (trace m1) = upstream_calls (trace m2).

(** Two commands of data_query.py make the same calls and return payloads
    that are equal apart from the [timestamp] field. *)
Definition same_payload (m1 m2 : M pyval) : Prop :=
  exists t p1 p2,
    m1 = (t, inl p1) /\ m2 = (t, inl p2) /\
    without_timestamp p1 = without_timestamp p2.

(** The run prints exactly one payload and ends without an exception. *)
Definition prints_once (m : M unit) : Prop :=
  exists p, printed (trace m) = [p] /\ outcome m = inl tt.

(** The run prints one payload and ends, or raises before it printed. *)
Definition prints_or_raises (m : M unit) : Prop :=
  prints_once m \/ (printed (trace m) = [] /\ exists e, outcome m = inr e).

(** The payload of a command of data_query.py, next to the calls made:
    the help object and no call, or one call and the payload its outcome
    decides. *)
Definition payload_of_call (lib : PyLib) (clk : Clock) (w : World)
           (t : list event) (p : pyval) : Prop :=
  (t = [] /\ p = DataQuery.help_object) \/
  exists fn args,
    t = [Ak fn args] /\
    match ak w fn args with
    | inl _ => (exists l, p = DataQuery.success_response clk (PList l)) \/
               (exists msg, p = DataQuery.error_response clk msg)
    | inr e => p = DataQuery.error_response clk ("获取失败: " ++ exn_str lib e)
    end.

(** ** Properties of a request *)

(** The status lines written during a run, in order: those of the
    responses sent whole and those that no body followed. *)
Definition status_lines (t : list event) : list Z :=
  flat_map (fun ev => match ev with
                      | Response st _ | HeadersOnly st => [st]
                      | _ => []
                      end) t.

(** The run sends one response whole and nothing else, with a status that
    satisfies [P], and ends without an exception. *)
Definition answers_at_once (P : Z -> Prop) (m : M unit) : Prop :=
  exists st body,
    responses (trace m) = [(st, body)] /\ P st /\ outcome m = inl tt /\
    status_lines (trace m) = [st].

(** The run answers as above, or raises an exception that satisfies [E]
    having sent no response whole and at most the status line 200. *)
Definition answers_or_fails (P : Z -> Prop) (E : exn -> Prop) (m : M unit) : Prop :=
  answers_at_once P m \/
  exists e, outcome m = inr e /\ E e /\ responses (trace m) = [] /\
            (status_lines (trace m) = [] \/ status_lines (trace m) = [200]).

(** The run sends exactly one response whole, with a status that satisfies
    [P], and ends without an exception; at most one status line went out
    before that response with no body after it, and its status is 200. *)
Definition answered (P : Z -> Prop) (m : M unit) : Prop :=
  exists st body,
    responses (trace m) = [(st, body)] /\ P st /\ outcome m = inl tt /\
    (status_lines (trace m) = [st] \/ status_lines (trace m) = [200; st]).

(** The run writes no status line, and an exception it raises satisfies [E]. *)
Definition fails_within (E : exn -> Prop) {A} (m : M A) : Prop :=
  status_lines (trace m) = [] /\ forall e, outcome m = inr e -> E e.

(** [str(e)] can be encoded in UTF-8. *)
Definition plain (lib : PyLib) (e : exn) : Prop := str_encodable (exn_str lib e) = true.

(** An exception of the interpreter, not one raised inside the transfer
    tool or the data library. *)
Definition builtin (e : exn) : Prop :=
  match e with RaisedBy _ _ => False | _ => True end.

(** The exceptions of the data library have a [str(e)] that can be encoded. *)
Definition plain_failures (lib : PyLib) (w : World) : Prop :=
  forall fn args e, ak w fn args = inr e -> plain lib e.

(** The run raises nothing but exceptions of the interpreter. *)
Definition builtin_only {A} (m : M A) : Prop :=
  forall e, outcome m = inr e -> builtin e.

(** The run makes at most [n] upstream calls. *)
Definition calls_le (n : nat) {A} (m : M A) : Prop :=
  (List.length (upstream_calls (trace m)) <= n)%nat.

(** The statuses akshare_service.py sends. *)
Definition library_status (st : Z) : Prop := st = 200 \/ st = 404 \/ st = 500.

(** The fetch of [url] by astock_service.py failed: the transfer tool gave
    no data, or a text that [json.loads] rejects. *)
Definition service_fetch_failed (lib : PyLib) (w : World) (url : string) : Prop :=
  no_data (fetched_by_service w url) = true \/
  exists text, fetched_by_service w url = Some text /\
               (text =? "")%string = false /\ json_loads lib text = None.

(** More upstreams for the examples. *)
Module Sample.

(** The str of the one character U+D800, a surrogate with no partner, as
    [json.loads] gives it for the escape [\ud800]. *)
Definition lone_surrogate : string :=
  String "237" (String "160" (String "128" EmptyString)).

(** A snapshot whose table lacks the 代码 column. *)
Definition unlabelled : DataFrame :=
  {| df_columns := ["名称"; "最新价"];
     df_rows := [[PStr "浦发银行"; PFloat 10.5]] |}.

(** A snapshot in which one price is the missing value of the library, NaN,
    and one is a str that is no number. *)
Definition gaps : DataFrame :=
  {| df_columns := ["代码"; "名称"; "最新价"; "涨跌幅"];
     df_rows := [[PStr "600000"; PStr "浦发银行"; PFloat nan; PFloat 1.2];
                 [PStr "000001"; PStr "平安银行"; PStr "-"; PFloat 0.3]] |}.

(** A news table of [n] items. *)
Definition news (n : nat) : DataFrame :=
  {| df_columns := ["新闻标题"; "发布时间"; "文章来源"];
     df_rows := repeat [PStr "标题"; PStr "2026-03-02 09:30:00"; PStr "东方财富"] n |}.

(** The transfer tool answers every URL with a board list in which a name
    is the escape of that character. *)
Definition garbled_boards : World :=
  Fixture.serving "{'data':{'diff':[{'f14':'\ud800','f3':1.5}]}}".

(** The same for the name of a single quote. *)
Definition garbled_quote : World :=
  Fixture.serving "{'data':{'f58':'\ud800','f43':1234,'f170':-56}}".

(** A news table whose one title holds a lone surrogate. *)
Definition garbled_news : DataFrame :=
  {| df_columns := ["新闻标题"; "发布时间"; "文章来源"];
     df_rows := [[PStr lone_surrogate; PStr "2026-03-02 09:30:00"; PStr "东方财富"]] |}.

(** A table of [n] quarters of GDP. *)
Definition gdp (n : nat) : DataFrame :=
  {| df_columns := ["季度"; "国内生产总值(亿元)"; "国内生产总值同比增长"];
     df_rows := repeat [PStr "2025年第4季度"; PFloat 1400000; PFloat 5.0] n |}.

(** A data library that raises on every call. *)
Definition library_down : World :=
  Fixture.ak_world (inr (RaisedBy "akshare" "Connection aborted.")).

(** A snapshot in which the name of a stock holds that character. *)
Definition garbled : DataFrame :=
  {| df_columns := ["代码"; "名称"; "最新价"; "涨跌幅"; "成交量"];
     df_rows := [[PStr "600000"; PStr lone_surrogate; PFloat 10.5; PFloat 1.2; PFloat 1000]] |}.

End Sample.

(** * Theorems *)

(** ** The reader of the examples on sample texts *)

Example loads_concept_stub :
  Json.loads (Json.text Fixture.concept_stub)
  = Some (PDict [("data", PDict [("diff",
            PList [PDict [("f14", PStr "人工智能"); ("f3", PFloat 3.25)]])])]).
Proof. vm_compute. reflexivity. Qed.

Example loads_sample :
  Json.loads (Json.text " [1, -2.5e1, true, null, {'a': 'x', 'a': []}, 12.34 ] ")
  = Some (PList [PInt 1; PFloat (-25); PBool true; PNone;
                 PDict [("a", PList [])]; PFloat 12.34]).
Proof. vm_compute. reflexivity. Qed.

Example loads_rejects_truncated : Json.loads (Json.text "{'data':{'di") = None.
Proof. vm_compute. reflexivity. Qed.

(** A lone surrogate is read and cannot be encoded; a high and a low
    surrogate in a row are one character, which can. *)
Example loads_surrogates :
  Json.loads (Json.text "['\ud800', '\ud83d\ude00', '\u4eba']")
  = Some (PList [PStr Sample.lone_surrogate;
                 PStr (String "240" (String "159" (String "152" (String "128" ""))));
                 PStr "人"]) /\
  map encodable [PStr Sample.lone_surrogate;
                 PStr (String "240" (String "159" (String "152" (String "128" ""))));
                 PStr "人"]
  = [false; true; true].
Proof. split; vm_compute; reflexivity. Qed.

Example hundredth_1234 : hundredth (PInt 1234) = Some 12.34%float.
Proof. vm_compute. reflexivity. Qed.

Example split_path : split "/" "/stock/realtime/600000" = [""; "stock"; "realtime"; "600000"].
Proof. reflexivity. Qed.


(** ** The transfer-tool call *)

Lemma astock_curl_get_eq (w : World) (url : string) :
  Astock.curl_get w url
  = ([Subprocess ["curl"; "-s"; "-m"; "10"; url]], inl (fetched w url)).
Proof.
  unfold Astock.curl_get, fetched.
  destruct (subprocess_run w _ None); reflexivity.
Qed.

Lemma service_curl_get_eq (lib : PyLib) (w : World) (url : string) :
  exists log,
    AstockService.curl_get lib w url
    = (Subprocess ["curl"; "-s"; "-m"; "10"; "--noproxy"; "*"; url] :: log,
       inl (fetched_by_service w url))
    /\ responses log = [] /\ upstream_calls log = [] /\ printed log = [].
Proof.
  unfold AstockService.curl_get, fetched_by_service.
  destruct (subprocess_run w _ (Some 15)).
  - exists []. repeat split.
  - eexists [_]. repeat split.
Qed.

(** ** Sending and printing a payload *)

Lemma bind_ret_l {A B} (a : A) (k : A -> M B) : bind (ret a) k = k a.
Proof. unfold bind, ret. destruct (k a). reflexivity. Qed.

Lemma raise_bind {A B} (e : exn) (k : A -> M B) : bind (raise e) k = raise e.
Proof. reflexivity. Qed.

Lemma send_json_sent clk req (v : pyval) (st : Z) :
  encodable v = true ->
  send_json clk req v st
  = ([Stdout ("[" ++ log_stamp clk ++ "] " ++ requestline req); Response st v], inl tt).
Proof. unfold send_json. intros ->. reflexivity. Qed.

Lemma send_json_cut clk req (v : pyval) (st : Z) :
  encodable v = false ->
  send_json clk req v st
  = ([Stdout ("[" ++ log_stamp clk ++ "] " ++ requestline req); HeadersOnly st],
     inr (UnicodeEncodeError v)).
Proof. unfold send_json. intros ->. reflexivity. Qed.

Lemma print_json_raw_printed (v : pyval) :
  encodable v = true -> print_json_raw v = ([PrintJson v], inl tt).
Proof. unfold print_json_raw. intros ->. reflexivity. Qed.

Lemma print_json_raw_refused (v : pyval) :
  encodable v = false -> print_json_raw v = ([], inr (UnicodeEncodeError v)).
Proof. unfold print_json_raw. intros ->. reflexivity. Qed.

Lemma encodable_error_object (msg : string) :
  encodable (error_object msg) = str_encodable msg.
Proof.
  cbn. change (str_encodable "error") with true. cbn.
  rewrite !andb_true_r. reflexivity.
Qed.

Lemma encodable_stock_placeholder (symbol : string) :
  encodable (AstockService.stock_placeholder symbol) = str_encodable symbol.
Proof.
  unfold AstockService.stock_placeholder. cbn [encodable forallb].
  destruct (str_encodable symbol); reflexivity.
Qed.

Lemma exn_str_encodable (lib : PyLib) (e : exn) :
  match e with RaisedBy _ msg => str_encodable msg = true | _ => True end ->
  str_encodable (exn_str lib e) = true.
Proof. destruct e; intros H; try apply builtin_msg_encodable. exact H. Qed.

(** ** C9: the health endpoint *)

(** C9. Whatever the upstream does, [GET /health] is answered in both
    services with status 200 and the object of the two fields [status],
    which is ["ok"], and [service]; no call of the transfer tool or of the
    data library is made on the way. *)
Theorem health_always_ok (lib : PyLib) (clk : Clock) (w : World) (line : string) :
  let req := {| requestline := line; path := "/health" |} in
  let direct := trace (AstockService.do_GET lib clk w req) in
  let library := trace (AkshareService.do_GET lib clk w req) in
  responses direct
  = [(200, PDict [("status", PStr "ok"); ("service", PStr "A股数据服务")])] /\
  upstream_calls direct = [] /\
  responses library
  = [(200, PDict [("status", PStr "ok"); ("service", PStr "AkShare A股数据服务")])] /\
  upstream_calls library = [].
Proof. repeat split. Qed.

(** ** C8: the concept-board example *)

(** C8. When the transfer tool hands back the stub text
    [{"data":{"diff":[{"f14":"人工智能","f3":3.25}]}}] and [json.loads] reads
    it as the object it denotes, the [concept] command of astock.py prints
    the array of the one record with name 人工智能 and change 3.25, and the
    concept endpoint of astock_service.py sends the same array. *)
Theorem concept_stub_example (lib : PyLib) (clk : Clock) (w : World) (line : string) :
  json_loads lib (Json.text Fixture.concept_stub)
  = Some (PDict [("data", PDict [("diff",
            PList [PDict [("f14", PStr "人工智能"); ("f3", PFloat 3.25)]])])]) ->
  fetched w Astock.concept_url = Some (Json.text Fixture.concept_stub) ->
  fetched_by_service w AstockService.concept_url = Some (Json.text Fixture.concept_stub) ->
  printed (trace (Astock.main lib w ["astock.py"; "concept"]))
  = [PList [PDict [("name", PStr "人工智能"); ("change", PFloat 3.25)]]] /\
  responses (trace (AstockService.do_GET lib clk w
                      {| requestline := line; path := "/stock/concept" |}))
  = [(200, PList [PDict [("name", PStr "人工智能"); ("change", PFloat 3.25)]])].
Proof.
  intros Hloads Hcli Hsvc.
  assert (Hne : no_data (Some (Json.text Fixture.concept_stub)) = false) by reflexivity.
  remember (Json.text Fixture.concept_stub) as text eqn:Etext. clear Etext.
  split.
  - change (Astock.main lib w ["astock.py"; "concept"])
      with (Astock.get_board lib w Astock.concept_url Astock.concept_placeholder).
    unfold Astock.get_board. rewrite astock_curl_get_eq, Hcli.
    unfold bind at 1. rewrite Hne.
    unfold py_json_loads, text_of. rewrite Hloads. reflexivity.
  - change (AstockService.do_GET lib clk w {| requestline := line; path := "/stock/concept" |})
      with (AstockService.board_handler lib clk w
              {| requestline := line; path := "/stock/concept" |}
              AstockService.concept_url AstockService.concept_placeholder).
    unfold AstockService.board_handler.
    destruct (service_curl_get_eq lib w AstockService.concept_url)
      as (log & -> & Hlog & _).
    rewrite Hsvc. unfold bind at 1. rewrite Hne.
    unfold py_json_loads, text_of. rewrite Hloads, bind_ret_l.
    change (Astock.board_records _)
      with (@ret (list pyval) [PDict [("name", PStr "人工智能"); ("change", PFloat 3.25)]]).
    rewrite bind_ret_l, send_json_sent by reflexivity.
    cbn [try_except trace fst]. unfold responses in *.
    rewrite flat_map_app. cbn [flat_map app]. rewrite Hlog. reflexivity.
Qed.

(** The example run on the reader of the examples and an upstream that
    serves the stub text. *)
Lemma concept_stub_example_witness :
  printed (trace (Astock.main Json.lib (Fixture.serving Fixture.concept_stub)
                    ["astock.py"; "concept"]))
  = [PList [PDict [("name", PStr "人工智能"); ("change", PFloat 3.25)]]] /\
  responses (trace (AstockService.do_GET Json.lib Fixture.clock_a
                      (Fixture.serving Fixture.concept_stub)
                      {| requestline := "GET /stock/concept HTTP/1.1";
                         path := "/stock/concept" |}))
  = [(200, PList [PDict [("name", PStr "人工智能"); ("change", PFloat 3.25)]])].
Proof.
  apply (concept_stub_example Json.lib Fixture.clock_a
           (Fixture.serving Fixture.concept_stub) "GET /stock/concept HTTP/1.1");
    vm_compute; reflexivity.
Defined.

(** ** C5: what the transfer-tool call hands back *)

(** C5, as the code has it. For every URL, [curl_get] of both scripts
    returns and never raises: [None] when the call of the transfer tool
    raised, and otherwise the standard output of the tool, whatever its
    exit code. *)
Theorem curl_get_returns (lib : PyLib) (w : World) (url : string) :
  outcome (Astock.curl_get w url)
  = inl (match subprocess_run w ["curl"; "-s"; "-m"; "10"; url] None with
         | inl result => Some (stdout result)
         | inr _ => None
         end) /\
  outcome (AstockService.curl_get lib w url)
  = inl (match subprocess_run w ["curl"; "-s"; "-m"; "10"; "--noproxy"; "*"; url] (Some 15) with
         | inl result => Some (stdout result)
         | inr _ => None
         end).
Proof.
  split.
  - rewrite astock_curl_get_eq. reflexivity.
  - destruct (service_curl_get_eq lib w url) as (log & -> & _). reflexivity.
Qed.

(** C5, as stated, fails: the tool ends with the non-zero code 28 and a
    part of the body on its standard output, and [curl_get] hands that
    part to its caller, which is neither [None] nor the empty str. *)
Lemma curl_get_nonzero_exit_with_output :
  subprocess_run Fixture.cut_short ["curl"; "-s"; "-m"; "10"; Astock.index_url] None
  = inl {| returncode := 28; stdout := Fixture.partial_body |} /\
  outcome (Astock.curl_get Fixture.cut_short Astock.index_url)
  = inl (Some Fixture.partial_body) /\
  outcome (AstockService.curl_get Json.lib Fixture.cut_short AstockService.index_url)
  = inl (Some Fixture.partial_body) /\
  no_data (Some Fixture.partial_body) = false.
Proof. repeat split. Qed.

(** ** Prefixes and substrings *)

Lemma prefix_app (a p : string) :
  String.prefix a p = true -> exists r, p = a ++ r.
Proof.
  revert p. induction a as [|c a IH]; intros p H.
  - exists p. reflexivity.
  - destruct p as [|d p]; [discriminate|]. simpl in H.
    destruct (ascii_dec c d) as [->|]; [|discriminate].
    destruct (IH _ H) as [r ->]. exists r. reflexivity.
Qed.

(** ** C4: how a path reaches a handler *)

(** C4, as the code has it. In astock_service.py the tests are substring
    tests taken in order: a path other than [/health] that contains
    [/index] reaches the index branch; one that contains [/concept] but
    neither [/index] nor [/stock/realtime/] reaches the concept branch; one
    that contains [/industry] and none of the three reaches the industry
    branch. In akshare_service.py the tests are prefix tests: a path that
    starts with [/stock/index/realtime], [/stock/concept] or
    [/stock/industry] reaches the index, concept or industry branch. *)
Theorem dispatch_by_design (lib : PyLib) (clk : Clock) (w : World) (req : Request) :
  (path req <> "/health" -> contains "/index" (path req) = true ->
   AstockService.do_GET lib clk w req = AstockService.index_handler lib clk w req) /\
  (contains "/concept" (path req) = true ->
   contains "/index" (path req) = false ->
   contains "/stock/realtime/" (path req) = false ->
   AstockService.do_GET lib clk w req = AstockService.concept_handler lib clk w req) /\
  (contains "/industry" (path req) = true ->
   contains "/index" (path req) = false ->
   contains "/stock/realtime/" (path req) = false ->
   contains "/concept" (path req) = false ->
   AstockService.do_GET lib clk w req = AstockService.industry_handler lib clk w req) /\
  (startswith (path req) "/stock/index/realtime" = true ->
   AkshareService.do_GET lib clk w req = AkshareService.index_handler lib clk w req) /\
  (startswith (path req) "/stock/concept" = true ->
   AkshareService.do_GET lib clk w req = AkshareService.concept_handler lib clk w req) /\
  (startswith (path req) "/stock/industry" = true ->
   AkshareService.do_GET lib clk w req = AkshareService.industry_handler lib clk w req).
Proof.
  unfold AstockService.do_GET, AkshareService.do_GET, startswith.
  destruct req as [line p]; cbn [path].
  repeat split.
  - intros Hp Hi. apply String.eqb_neq in Hp. rewrite Hp, Hi, orb_true_r. reflexivity.
  - intros Hc Hi Hr.
    destruct (String.eqb_spec p "/health") as [->|_]; [discriminate|].
    destruct (String.eqb_spec p "/stock/index/realtime") as [->|_]; [discriminate|].
    rewrite Hi, Hr, Hc, orb_true_r. reflexivity.
  - intros Hd Hi Hr Hc.
    destruct (String.eqb_spec p "/health") as [->|_]; [discriminate|].
    destruct (String.eqb_spec p "/stock/index/realtime") as [->|_]; [discriminate|].
    destruct (String.eqb_spec p "/stock/concept") as [->|_]; [discriminate|].
    rewrite Hi, Hr, Hc, Hd, orb_true_r. reflexivity.
  - intros H. destruct (prefix_app _ _ H) as [r ->]. rewrite H. reflexivity.
  - intros H. destruct (prefix_app _ _ H) as [r ->]. rewrite H. reflexivity.
  - intros H. destruct (prefix_app _ _ H) as [r ->]. rewrite H. reflexivity.
Qed.

(** One path for each of the six routes. *)
Lemma dispatch_by_design_witness :
  AstockService.do_GET Json.lib Fixture.clock_a Fixture.two_sources (Fixture.GET "/v1/index/concept")
  = AstockService.index_handler Json.lib Fixture.clock_a Fixture.two_sources
      (Fixture.GET "/v1/index/concept") /\
  AstockService.do_GET Json.lib Fixture.clock_a Fixture.two_sources (Fixture.GET "/v1/concept")
  = AstockService.concept_handler Json.lib Fixture.clock_a Fixture.two_sources
      (Fixture.GET "/v1/concept") /\
  AstockService.do_GET Json.lib Fixture.clock_a Fixture.two_sources (Fixture.GET "/v1/industry")
  = AstockService.industry_handler Json.lib Fixture.clock_a Fixture.two_sources
      (Fixture.GET "/v1/industry") /\
  AkshareService.do_GET Json.lib Fixture.clock_a Fixture.two_sources
    (Fixture.GET "/stock/index/realtime?x=1")
  = AkshareService.index_handler Json.lib Fixture.clock_a Fixture.two_sources
      (Fixture.GET "/stock/index/realtime?x=1") /\
  AkshareService.do_GET Json.lib Fixture.clock_a Fixture.two_sources (Fixture.GET "/stock/concepts")
  = AkshareService.concept_handler Json.lib Fixture.clock_a Fixture.two_sources
      (Fixture.GET "/stock/concepts") /\
  AkshareService.do_GET Json.lib Fixture.clock_a Fixture.two_sources (Fixture.GET "/stock/industry")
  = AkshareService.industry_handler Json.lib Fixture.clock_a Fixture.two_sources
      (Fixture.GET "/stock/industry").
Proof.
  refine (conj _ (conj _ (conj _ (conj _ (conj _ _))))).
  - apply (proj1 (dispatch_by_design Json.lib Fixture.clock_a Fixture.two_sources
                    (Fixture.GET "/v1/index/concept"))); [discriminate | reflexivity].
  - apply (proj1 (proj2 (dispatch_by_design Json.lib Fixture.clock_a Fixture.two_sources
                           (Fixture.GET "/v1/concept")))); reflexivity.
  - apply (proj1 (proj2 (proj2 (dispatch_by_design Json.lib Fixture.clock_a Fixture.two_sources
                                  (Fixture.GET "/v1/industry"))))); reflexivity.
  - apply (proj1 (proj2 (proj2 (proj2
             (dispatch_by_design Json.lib Fixture.clock_a Fixture.two_sources
                (Fixture.GET "/stock/index/realtime?x=1")))))); reflexivity.
  - apply (proj1 (proj2 (proj2 (proj2 (proj2
             (dispatch_by_design Json.lib Fixture.clock_a Fixture.two_sources
                (Fixture.GET "/stock/concepts"))))))); reflexivity.
  - apply (proj2 (proj2 (proj2 (proj2 (proj2
             (dispatch_by_design Json.lib Fixture.clock_a Fixture.two_sources
                (Fixture.GET "/stock/industry"))))))); reflexivity.
Defined.

(** C4, as stated, fails in both services. In akshare_service.py the path
    [/v1/concept] contains [/concept] and is answered as an unknown
    endpoint, with no call of the data library. In astock_service.py the
    path [/v1/index/concept] contains [/concept] and is answered by the
    index branch: the response is the index list, while the concept branch
    would have sent the board list. *)
Lemma concept_substring_not_dispatched :
  contains "/concept" "/v1/concept" = true /\
  trace (AkshareService.do_GET Json.lib Fixture.clock_a (Fixture.ak_world (inl (Fixture.boards 1)))
           (Fixture.GET "/v1/concept"))
  = [Stdout "[2026-03-02 10:00:00] GET /v1/concept HTTP/1.1";
     Response 404 (error_object "Unknown endpoint")] /\
  contains "/concept" "/v1/index/concept" = true /\
  responses (trace (AstockService.do_GET Json.lib Fixture.clock_a Fixture.two_sources
                      (Fixture.GET "/v1/index/concept")))
  = [(200, PList [PDict [("symbol", PStr "000001"); ("name", PStr "上证指数");
                         ("price", PFloat 3388.1); ("change", PFloat 0.5)]])] /\
  responses (trace (AstockService.concept_handler Json.lib Fixture.clock_a Fixture.two_sources
                      (Fixture.GET "/v1/index/concept")))
  = [(200, PList [PDict [("name", PStr "人工智能"); ("change", PFloat 3.25)]])].
Proof. repeat split; vm_compute; reflexivity. Qed.

(** ** Computations that leave no trace *)

Lemma bind_pure {A B} (m : M A) (k : A -> M B) :
  trace m = [] ->
  bind m k = match outcome m with inl a => k a | inr e => ([], inr e) end.
Proof.
  destruct m as [t [a|e]]; cbn; intros ->; [destruct (k a)|]; reflexivity.
Qed.

Lemma trace_bind_nil {A B} (m : M A) (k : A -> M B) :
  trace m = [] -> (forall a, trace (k a) = []) -> trace (bind m k) = [].
Proof.
  intros Hm Hk. rewrite (bind_pure _ _ Hm).
  destruct (outcome m); [apply Hk | reflexivity].
Qed.

Lemma trace_mapM_nil {A B} (f : A -> M B) (l : list A) :
  (forall a, trace (f a) = []) -> trace (mapM f l) = [].
Proof.
  intros Hf. induction l as [|a l IH]; [reflexivity|]. cbn [mapM].
  apply trace_bind_nil; [apply Hf|]. intros b.
  apply trace_bind_nil; [apply IH | reflexivity].
Qed.

Lemma trace_py_get (v : pyval) (k : string) (dflt : pyval) : trace (py_get v k dflt) = [].
Proof. destruct v; reflexivity. Qed.

Lemma trace_py_iter (v : pyval) : trace (py_iter v) = [].
Proof. destruct v; reflexivity. Qed.

Lemma trace_float_of_number (op : string) (n : Z + float) : trace (float_of_number op n) = [].
Proof. destruct n; cbn; [destruct (SF_is_finite _)|]; reflexivity. Qed.

Lemma trace_py_float (lib : PyLib) (v : pyval) : trace (py_float lib v) = [].
Proof.
  destruct v as [|b|z|f|text| |]; try reflexivity.
  - apply (trace_float_of_number "float" (inl (if b then 1 else 0))).
  - apply (trace_float_of_number "float" (inl z)).
  - cbn. destruct (float_of_str lib text); reflexivity.
Qed.

Lemma trace_py_int (lib : PyLib) (v : pyval) : trace (py_int lib v) = [].
Proof.
  destruct v as [| | |f|text| |]; cbn; try reflexivity.
  - destruct (trunc_SF _); [reflexivity|]. destruct (is_nan f); reflexivity.
  - destruct (int_of_str lib text); reflexivity.
Qed.

Lemma trace_py_truediv (a b : pyval) : trace (py_truediv a b) = [].
Proof.
  unfold py_truediv.
  destruct (as_number a) as [[x|x]|], (as_number b) as [[y|y]|]; try reflexivity.
  - destruct (y =? 0); [reflexivity|]. destruct (SF_is_finite _); reflexivity.
  - apply trace_bind_nil; [apply trace_float_of_number|]. intros fx.
    apply trace_bind_nil; [apply trace_float_of_number|]. intros fy.
    destruct (PrimFloat.eqb fy 0); reflexivity.
  - apply trace_bind_nil; [apply trace_float_of_number|]. intros fx.
    apply trace_bind_nil; [apply trace_float_of_number|]. intros fy.
    destruct (PrimFloat.eqb fy 0); reflexivity.
  - apply trace_bind_nil; [apply trace_float_of_number|]. intros fx.
    apply trace_bind_nil; [apply trace_float_of_number|]. intros fy.
    destruct (PrimFloat.eqb fy 0); reflexivity.
Qed.

Lemma trace_py_json_loads (lib : PyLib) (text : string) : trace (py_json_loads lib text) = [].
Proof. unfold py_json_loads. destruct (json_loads lib text); reflexivity. Qed.

Lemma trace_float_if (lib : PyLib) (v dflt : pyval) : trace (float_if lib v dflt) = [].
Proof.
  unfold float_if. destruct (truthy v); [|reflexivity].
  apply trace_bind_nil; [apply trace_py_float | reflexivity].
Qed.

Lemma trace_float_field (lib : PyLib) (r : row) (k : string) (dflt : pyval) :
  trace (float_field lib r k dflt) = [].
Proof.
  unfold float_field. destruct (truthy _); [|reflexivity].
  apply trace_bind_nil; [apply trace_py_float | reflexivity].
Qed.

Lemma trace_int_field (lib : PyLib) (r : row) (k : string) : trace (int_field lib r k) = [].
Proof.
  unfold int_field. destruct (truthy _); [|reflexivity].
  apply trace_bind_nil; [apply trace_py_int | reflexivity].
Qed.

Lemma trace_scaled (obj : pyval) (k : string) : trace (Astock.scaled obj k) = [].
Proof.
  unfold Astock.scaled. apply trace_bind_nil; [apply trace_py_get|]. intros test.
  destruct (truthy test); [|reflexivity].
  apply trace_bind_nil; [apply trace_py_get|]. intros x.
  apply trace_bind_nil; [apply trace_py_truediv | reflexivity].
Qed.

Create HintDb traceless.
#[local] Hint Resolve trace_py_get trace_py_iter trace_py_float trace_py_int
  trace_py_truediv trace_py_json_loads trace_float_if trace_float_field
  trace_int_field trace_scaled : traceless.

(** Closes [trace m = []] for a computation built from the operations above. *)
Ltac prove_traceless :=
  repeat first
    [ reflexivity
    | solve [auto with traceless]
    | apply trace_mapM_nil; intros
    | apply trace_bind_nil; [|intros] ].

Lemma trace_astock_index_record (item : pyval) : trace (Astock.index_record item) = [].
Proof. unfold Astock.index_record. prove_traceless. Qed.

Lemma trace_astock_board_record (item : pyval) : trace (Astock.board_record item) = [].
Proof. unfold Astock.board_record. prove_traceless. Qed.

Lemma trace_astock_stock_record (symbol : string) (obj : pyval) :
  trace (Astock.stock_record symbol obj) = [].
Proof. unfold Astock.stock_record. prove_traceless. Qed.

#[local] Hint Resolve trace_astock_index_record trace_astock_board_record
  trace_astock_stock_record : traceless.

Lemma trace_astock_board_records (obj : pyval) : trace (Astock.board_records obj) = [].
Proof. unfold Astock.board_records. prove_traceless. Qed.

#[local] Hint Resolve trace_astock_board_records : traceless.

(** ** Statuses of the responses of a run *)

Lemma responses_app (t t' : list event) :
  responses (t ++ t') = (responses t ++ responses t')%list.
Proof. apply flat_map_app. Qed.

Lemma all_status_traceless st {A} (m : M A) : trace m = [] -> all_status st m.
Proof. unfold all_status. intros ->. constructor. Qed.

Lemma all_status_bind st {A B} (m : M A) (k : A -> M B) :
  all_status st m -> (forall a, all_status st (k a)) -> all_status st (bind m k).
Proof.
  unfold all_status. destruct m as [t [a|e]]; cbn; intros Hm Hk; [|exact Hm].
  specialize (Hk a). destruct (k a) as [t' r]. cbn in *.
  rewrite responses_app. apply Forall_app. split; assumption.
Qed.

Lemma all_status_try st {A} (m : M A) (h : exn -> M A) :
  all_status st m -> (forall e, all_status st (h e)) -> all_status st (try_except m h).
Proof.
  unfold all_status. destruct m as [t [a|e]]; cbn; intros Hm Hh; [exact Hm|].
  specialize (Hh e). destruct (h e) as [t' r]. cbn in *.
  rewrite responses_app. apply Forall_app. split; assumption.
Qed.

Lemma all_status_send (clk : Clock) (req : Request) (v : pyval) (st : Z) :
  all_status st (send_json clk req v st).
Proof. unfold send_json. destruct (encodable v); repeat constructor. Qed.

Lemma all_status_service_curl st (lib : PyLib) (w : World) (url : string) :
  all_status st (AstockService.curl_get lib w url).
Proof.
  unfold all_status. destruct (service_curl_get_eq lib w url) as (log & -> & Hlog & _).
  cbn. fold (responses log). rewrite Hlog. constructor.
Qed.

(** Closes [all_status st m] for a handler of astock_service.py. *)
Ltac prove_all_status :=
  repeat first
    [ apply all_status_send
    | apply all_status_service_curl
    | apply all_status_traceless; solve [prove_traceless]
    | apply all_status_try; [|intros]
    | apply all_status_bind; [|intros]
    | match goal with |- all_status _ (if ?b then _ else _) => destruct b end ].

Lemma service_always_200 (lib : PyLib) (clk : Clock) (w : World) (req : Request) :
  all_status 200 (AstockService.do_GET lib clk w req).
Proof.
  unfold AstockService.do_GET.
  repeat match goal with |- all_status _ (if ?b then _ else _) => destruct b end.
  - apply all_status_send.
  - unfold AstockService.index_handler. prove_all_status.
  - unfold AstockService.stock_handler. prove_all_status.
  - unfold AstockService.concept_handler, AstockService.board_handler. prove_all_status.
  - unfold AstockService.industry_handler, AstockService.board_handler. prove_all_status.
  - apply all_status_send.
Qed.

(** ** The last segment of a path *)

Lemma split_no_sep (s : string) :
  contains "/" s = false -> split "/" s = [s].
Proof.
  induction s as [|c s IH]; [reflexivity|]. intros H.
  cbn [contains] in H. apply orb_false_elim in H. destruct H as [Hp Hc].
  cbn [split]. destruct (Ascii.eqb_spec c "/") as [->|Hne].
  - cbn in Hp. destruct s; discriminate.
  - rewrite (IH Hc). reflexivity.
Qed.

Lemma last_segment_realtime (s : string) :
  contains "/" s = false -> last_item (split "/" ("/stock/realtime/" ++ s)) = s.
Proof. intros H. cbn. rewrite (split_no_sep _ H). reflexivity. Qed.

Lemma prefix_same (a r : string) : String.prefix a (a ++ r) = true.
Proof.
  induction a as [|c a IH]; [destruct r; reflexivity|].
  cbn. destruct (ascii_dec c c); [exact IH | contradiction].
Qed.

(** ** Selecting the rows of a symbol *)

Lemma existsb_eqb_In (k : string) (l : list string) :
  In k l -> existsb (String.eqb k) l = true.
Proof.
  intros H. apply existsb_exists. exists k. split; [exact H | apply String.eqb_refl].
Qed.

Lemma filter_none {A} (f : A -> bool) (l : list A) :
  (forall a, In a l -> f a = false) -> filter f l = [].
Proof.
  induction l as [|a l IH]; [reflexivity|]. intros H. cbn.
  rewrite (H a (or_introl eq_refl)). apply IH. intros b Hb. apply H. right. exact Hb.
Qed.

Lemma select_eq_absent (df : DataFrame) (col s : string) :
  In col (df_columns df) ->
  (forall cells, In cells (df_rows df) ->
     cell_is s (row_get (combine (df_columns df) cells) col PNone) = false) ->
  select_eq df col s = ret {| df_columns := df_columns df; df_rows := [] |}.
Proof.
  intros Hcol Habsent. unfold select_eq.
  rewrite (existsb_eqb_In _ _ Hcol), (filter_none _ _ Habsent). reflexivity.
Qed.

Lemma ak_call_returns (w : World) (fn : string) (args : list string) (df : DataFrame) :
  ak w fn args = inl df -> ak_call w fn args = ([Ak fn args], inl df).
Proof. unfold ak_call. intros ->. reflexivity. Qed.

Lemma ak_call_raises (w : World) (fn : string) (args : list string) (e : exn) :
  ak w fn args = inr e -> ak_call w fn args = ([Ak fn args], inr e).
Proof. unfold ak_call. intros ->. reflexivity. Qed.

(** ** C1: a symbol that the snapshot does not have *)

(** C1, as the code has it. In akshare_service.py, for a symbol [s] with no
    [/] in it that does not start with [all]: when the snapshot call
    returns a table with a 代码 column in which no cell is [s], the request
    [GET /stock/realtime/s] is answered once, with status 404 and the object
    whose only field is [error]. astock_service.py has no such answer: every
    response it sends, to any request, has status 200. *)
Theorem absent_symbol_not_found (lib : PyLib) (clk : Clock) (w : World)
        (line s : string) (df : DataFrame) :
  contains "/" s = false ->
  startswith s "all" = false ->
  ak w "stock_zh_a_spot_em" [] = inl df ->
  In "代码" (df_columns df) ->
  (forall cells, In cells (df_rows df) ->
     cell_is s (row_get (combine (df_columns df) cells) "代码" PNone) = false) ->
  responses (trace (AkshareService.do_GET lib clk w
                      {| requestline := line; path := "/stock/realtime/" ++ s |}))
  = [(404, PDict [("error", PStr "股票未找到")])] /\
  forall req, all_status 200 (AstockService.do_GET lib clk w req).
Proof.
  intros Hslash Hall Hak Hcol Habsent. split; [|intros req; apply service_always_200].
  unfold AkshareService.do_GET, startswith in *. cbn [path].
  replace (String.prefix "/stock/realtime/all" ("/stock/realtime/" ++ s)) with false
    by (symmetry; exact Hall).
  rewrite (prefix_same "/stock/realtime/" s).
  change (("/stock/realtime/" ++ s =? "/health")%string) with false.
  change (String.prefix "/stock/index/realtime" ("/stock/realtime/" ++ s)) with false.
  change (String.prefix "/stock/news" ("/stock/realtime/" ++ s)) with false.
  change (String.prefix "/stock/concept" ("/stock/realtime/" ++ s)) with false.
  change (String.prefix "/stock/industry" ("/stock/realtime/" ++ s)) with false.
  cbv iota.
  unfold AkshareService.stock_handler. cbn [path].
  rewrite (last_segment_realtime _ Hslash).
  rewrite (ak_call_returns _ _ _ _ Hak). cbn [bind try_except].
  rewrite (select_eq_absent _ _ _ Hcol Habsent).
  unfold empty. cbn. destruct (df_columns df); reflexivity.
Qed.

(** The symbol 999999, which the snapshot of two stocks does not have. *)
Lemma absent_symbol_not_found_witness :
  responses (trace (AkshareService.do_GET Json.lib Fixture.clock_a
                      (Fixture.ak_world (inl Fixture.snapshot))
                      {| requestline := "GET /stock/realtime/999999 HTTP/1.1";
                         path := "/stock/realtime/" ++ "999999" |}))
  = [(404, PDict [("error", PStr "股票未找到")])] /\
  forall req, all_status 200 (AstockService.do_GET Json.lib Fixture.clock_a
                                (Fixture.ak_world (inl Fixture.snapshot)) req).
Proof.
  apply (absent_symbol_not_found Json.lib Fixture.clock_a
           (Fixture.ak_world (inl Fixture.snapshot))
           "GET /stock/realtime/999999 HTTP/1.1" "999999" Fixture.snapshot).
  - reflexivity.
  - reflexivity.
  - reflexivity.
  - left. reflexivity.
  - intros cells [<-|[<-|[]]]; reflexivity.
Defined.

(** C1, as stated, fails. astock_service.py, asked for a symbol the
    upstream does not know (its answer has [data] null), sends status 200
    and a quote record, the placeholder. akshare_service.py, asked for the
    symbol [all], which no row of the snapshot has, sends status 200 and
    the list of quotes. *)
Lemma absent_symbol_gets_a_quote :
  responses (trace (AstockService.do_GET Json.lib Fixture.clock_a
                      (Fixture.serving "{'rc':0,'rt':4,'data':null}")
                      (Fixture.GET "/stock/realtime/999999")))
  = [(200, PDict [("symbol", PStr "999999"); ("name", PStr "股票");
                  ("price", PFloat 10.0); ("change", PFloat 0.0)])] /\
  existsb (fun cells => cell_is "all" (row_get (combine (df_columns Fixture.snapshot) cells)
                                         "代码" PNone))
          (df_rows Fixture.snapshot) = false /\
  responses (trace (AkshareService.do_GET Json.lib Fixture.clock_a
                      (Fixture.ak_world (inl Fixture.snapshot))
                      (Fixture.GET "/stock/realtime/all")))
  = [(200, PList [PDict [("symbol", PStr "600000"); ("name", PStr "浦发银行");
                         ("price", PFloat 10.5); ("change", PFloat 1.2)];
                  PDict [("symbol", PStr "000001"); ("name", PStr "平安银行");
                         ("price", PInt 0); ("change", PInt 0)]])].
Proof. repeat split; vm_compute; reflexivity. Qed.

(** ** The records of a loop *)

Lemma mapM_length {A B} (f : A -> M B) (l : list A) (bs : list B) :
  outcome (mapM f l) = inl bs -> List.length bs = List.length l.
Proof.
  revert bs. induction l as [|a l IH]; cbn; intros bs H.
  - injection H as <-. reflexivity.
  - destruct (f a) as [t [b|e]]; cbn in H; [|discriminate].
    destruct (mapM f l) as [t' [bs'|e]]; cbn in H; [|discriminate].
    injection H as <-. cbn. f_equal. apply IH. reflexivity.
Qed.

Lemma mapM_ret {A B} (f : A -> M B) (g : A -> B) (l : list A) :
  (forall a, f a = ret (g a)) -> mapM f l = ret (map g l).
Proof.
  intros H. induction l as [|a l IH]; [reflexivity|]. cbn. rewrite H, IH. reflexivity.
Qed.

Lemma length_iterrows_head (n : nat) (df : DataFrame) :
  (List.length (iterrows (head n df)) <= n)%nat.
Proof.
  unfold iterrows, head. cbn. rewrite length_map. apply firstn_le_length.
Qed.

Lemma trace_akshare_quote_record lib r : trace (AkshareService.quote_record lib r) = [].
Proof. unfold AkshareService.quote_record. prove_traceless. Qed.

Lemma trace_akshare_board_record lib r : trace (AkshareService.board_record lib r) = [].
Proof. unfold AkshareService.board_record. prove_traceless. Qed.

Lemma trace_akshare_news_record lib r : trace (AkshareService.news_record lib r) = [].
Proof. reflexivity. Qed.

Lemma trace_akshare_stock_record lib symbol r :
  trace (AkshareService.stock_record lib symbol r) = [].
Proof. unfold AkshareService.stock_record. prove_traceless. Qed.

Lemma trace_dq_a_stock_record lib r : trace (DataQuery.a_stock_record lib r) = [].
Proof. unfold DataQuery.a_stock_record. prove_traceless. Qed.

Lemma trace_dq_kline_record lib r : trace (DataQuery.kline_record lib r) = [].
Proof. unfold DataQuery.kline_record. prove_traceless. Qed.

Lemma trace_dq_fund_flow_record lib r : trace (DataQuery.fund_flow_record lib r) = [].
Proof. unfold DataQuery.fund_flow_record. prove_traceless. Qed.

Lemma trace_dq_index_record lib r : trace (DataQuery.index_record lib r) = [].
Proof. unfold DataQuery.index_record. prove_traceless. Qed.

Lemma trace_dq_futures_record lib r : trace (DataQuery.futures_record lib r) = [].
Proof. unfold DataQuery.futures_record. prove_traceless. Qed.

Lemma trace_dq_etf_record lib r : trace (DataQuery.etf_record lib r) = [].
Proof. unfold DataQuery.etf_record. prove_traceless. Qed.

Lemma trace_dq_concept_record lib r : trace (DataQuery.concept_record lib r) = [].
Proof. unfold DataQuery.concept_record. prove_traceless. Qed.

Lemma trace_dq_industry_record lib r : trace (DataQuery.industry_record lib r) = [].
Proof. unfold DataQuery.industry_record. prove_traceless. Qed.

Lemma trace_dq_gdp_record lib r : trace (DataQuery.gdp_record lib r) = [].
Proof. unfold DataQuery.gdp_record. prove_traceless. Qed.

Lemma trace_dq_cpi_record lib r : trace (DataQuery.cpi_record lib r) = [].
Proof. unfold DataQuery.cpi_record. prove_traceless. Qed.

Lemma trace_dq_news_record lib r : trace (DataQuery.news_record lib r) = [].
Proof. reflexivity. Qed.

#[local] Hint Resolve trace_akshare_quote_record trace_akshare_board_record
  trace_akshare_news_record trace_akshare_stock_record trace_dq_a_stock_record
  trace_dq_kline_record trace_dq_fund_flow_record trace_dq_index_record
  trace_dq_futures_record trace_dq_etf_record trace_dq_concept_record
  trace_dq_industry_record trace_dq_gdp_record trace_dq_cpi_record
  trace_dq_news_record : traceless.

(** What a list branch of akshare_service.py does, by the outcome of the
    library call and of the loop. *)
(** The [except] branch of akshare_service.py when [str(e)] can be
    encoded, as it can for every exception of the interpreter. *)
Lemma on_error_sent lib clk req (e : exn) :
  str_encodable (exn_str lib e) = true ->
  AkshareService.on_error lib clk req e
  = ([Stdout ("[" ++ log_stamp clk ++ "] " ++ requestline req);
      Response 500 (error_object (exn_str lib e))], inl tt).
Proof.
  intros H. unfold AkshareService.on_error.
  apply send_json_sent. rewrite encodable_error_object. exact H.
Qed.

Lemma on_error_cut lib clk req (e : exn) :
  str_encodable (exn_str lib e) = false ->
  AkshareService.on_error lib clk req e
  = ([Stdout ("[" ++ log_stamp clk ++ "] " ++ requestline req); HeadersOnly 500],
     inr (UnicodeEncodeError (error_object (exn_str lib e)))).
Proof.
  intros H. unfold AkshareService.on_error.
  apply send_json_cut. rewrite encodable_error_object. exact H.
Qed.

Lemma on_error_unencodable lib clk req (v : pyval) :
  AkshareService.on_error lib clk req (UnicodeEncodeError v)
  = ([Stdout ("[" ++ log_stamp clk ++ "] " ++ requestline req);
      Response 500 (error_object (exn_str lib (UnicodeEncodeError v)))], inl tt).
Proof. apply on_error_sent. apply builtin_msg_encodable. Qed.

(** What a list branch of akshare_service.py does, by the outcome of the
    library call, of the loop and of the encoding of the list. *)
Lemma list_handler_cases lib clk w req fn limit record :
  (forall r, trace (record r) = []) ->
  AkshareService.list_handler lib clk w req fn limit record
  = match ak w fn [] with
    | inl df =>
        match outcome (mapM record (iterrows (head limit df))) with
        | inl records =>
            if encodable (PList records) then
              ([Ak fn []; Stdout ("[" ++ log_stamp clk ++ "] " ++ requestline req);
                Response 200 (PList records)], inl tt)
            else
              ([Ak fn []; Stdout ("[" ++ log_stamp clk ++ "] " ++ requestline req);
                HeadersOnly 200;
                Stdout ("[" ++ log_stamp clk ++ "] " ++ requestline req);
                Response 500 (error_object
                                (exn_str lib (UnicodeEncodeError (PList records))))],
               inl tt)
        | inr e => emit (Ak fn []) ;;; AkshareService.on_error lib clk req e
        end
    | inr e => emit (Ak fn []) ;;; AkshareService.on_error lib clk req e
    end.
Proof.
  intros Hrec. unfold AkshareService.list_handler.
  destruct (ak w fn []) as [df|e] eqn:Hak.
  - rewrite (ak_call_returns _ _ _ _ Hak). cbn [bind].
    pose proof (trace_mapM_nil record (iterrows (head limit df)) Hrec) as Ht.
    destruct (mapM record (iterrows (head limit df))) as [t [records|e]];
      cbn in Ht; subst t; cbn [outcome snd].
    + rewrite (bind_ret_l records). destruct (encodable (PList records)) eqn:He.
      * rewrite (send_json_sent _ _ _ _ He). reflexivity.
      * rewrite (send_json_cut _ _ _ _ He). cbn [try_except app].
        rewrite on_error_unencodable. reflexivity.
    + unfold bind, emit, try_except.
      destruct (AkshareService.on_error lib clk req e). reflexivity.
  - rewrite (ak_call_raises _ _ _ _ Hak). unfold bind, emit, try_except.
    destruct (AkshareService.on_error lib clk req e). reflexivity.
Qed.

(** The responses of a list branch whose library call or loop raised. *)
Lemma responses_after_call lib clk req fn (e : exn) :
  responses (trace (emit (Ak fn []) ;;; AkshareService.on_error lib clk req e))
  = if str_encodable (exn_str lib e) then [(500, error_object (exn_str lib e))] else [].
Proof.
  destruct (str_encodable (exn_str lib e)) eqn:He.
  - rewrite (on_error_sent _ _ _ _ He). reflexivity.
  - rewrite (on_error_cut _ _ _ _ He). reflexivity.
Qed.

Lemma list_handler_capped lib clk w req fn limit record :
  (forall r, trace (record r) = []) ->
  capped_response limit (trace (AkshareService.list_handler lib clk w req fn limit record)).
Proof.
  intros Hrec. rewrite (list_handler_cases _ _ _ _ _ _ _ Hrec).
  assert (Herr : forall e, capped_response limit
                   (trace (emit (Ak fn []) ;;; AkshareService.on_error lib clk req e))).
  { intros e. unfold capped_response. rewrite responses_after_call.
    destruct (str_encodable _); [right; left; eexists; reflexivity | right; right; reflexivity]. }
  destruct (ak w fn []) as [df|e]; [|apply Herr].
  destruct (outcome (mapM record (iterrows (head limit df)))) as [records|e] eqn:Hm;
    [|apply Herr].
  destruct (encodable (PList records)).
  - left. exists records. split; [reflexivity|].
    rewrite (mapM_length _ _ _ Hm). apply length_iterrows_head.
  - right. left. eexists. reflexivity.
Qed.

(** What a command of data_query.py returns, by the same two outcomes. *)
Lemma query_cases lib clk w fn args limit record :
  (forall r, trace (record r) = []) ->
  DataQuery.query lib clk w fn args limit record
  = ([Ak fn args],
     inl match ak w fn args with
         | inl df =>
             match outcome (mapM record (iterrows (match limit with
                                                   | Some n => head n df
                                                   | None => df
                                                   end))) with
             | inl result => DataQuery.success_response clk (PList result)
             | inr e => DataQuery.error_response clk ("获取失败: " ++ exn_str lib e)
             end
         | inr e => DataQuery.error_response clk ("获取失败: " ++ exn_str lib e)
         end).
Proof.
  intros Hrec. unfold DataQuery.query.
  destruct (ak w fn args) as [df|e] eqn:Hak.
  - rewrite (ak_call_returns _ _ _ _ Hak). cbn [bind].
    set (rows := iterrows _).
    pose proof (trace_mapM_nil record rows Hrec) as Ht.
    destruct (mapM record rows) as [t [result|e]]; cbn in Ht; subst t; reflexivity.
  - rewrite (ak_call_raises _ _ _ _ Hak). reflexivity.
Qed.

Lemma query_capped lib clk w fn args n record :
  (forall r, trace (record r) = []) ->
  capped_payload n clk (DataQuery.query lib clk w fn args (Some n) record).
Proof.
  intros Hrec. rewrite (query_cases _ _ _ _ _ _ _ Hrec). unfold capped_payload. cbn [outcome snd].
  destruct (ak w fn args) as [df|e].
  - destruct (outcome (mapM record (iterrows (head n df)))) as [result|e] eqn:Hm.
    + left. exists result. split; [reflexivity|].
      rewrite (mapM_length _ _ _ Hm). apply length_iterrows_head.
    + right. eexists. reflexivity.
  - right. eexists. reflexivity.
Qed.

(** A board item that is an object always gives its record. *)
Lemma board_record_of_dict (d : list (string * pyval)) :
  Astock.board_record (PDict d)
  = ret (PDict [("name", match lookup "f14" d with Some x => x | None => PStr "" end);
                ("change", match lookup "f3" d with Some x => x | None => PInt 0 end)]).
Proof. reflexivity. Qed.

Lemma board_records_of_dicts (items : list (list (string * pyval))) :
  mapM Astock.board_record (map PDict items) = ret (map board_of items).
Proof.
  induction items as [|d items IH]; [reflexivity|].
  cbn [map mapM]. rewrite board_record_of_dict, IH. reflexivity.
Qed.

(** A board branch of astock_service.py on a response that reads as an
    object whose [data.diff] is a list of objects, when the list of their
    records can be encoded: one record per item. *)
Lemma board_handler_all_items lib clk w req url placeholder text top d items :
  fetched_by_service w url = Some text ->
  (text =? "")%string = false ->
  json_loads lib text = Some (PDict top) ->
  lookup "data" top = Some (PDict d) ->
  lookup "diff" d = Some (PList (map PDict items)) ->
  encodable (PList (map board_of items)) = true ->
  responses (trace (AstockService.board_handler lib clk w req url placeholder))
  = [(200, PList (map board_of items))].
Proof.
  intros Hf Hne Hloads Hdata Hdiff Henc.
  unfold AstockService.board_handler.
  destruct (service_curl_get_eq lib w url) as (log & -> & Hlog & _).
  rewrite Hf. unfold bind at 1. cbn [no_data]. rewrite Hne.
  unfold py_json_loads, text_of. rewrite Hloads, bind_ret_l.
  unfold Astock.board_records. cbn [py_get]. rewrite Hdata, bind_ret_l. cbn [py_get].
  rewrite Hdiff, bind_ret_l. cbn [py_iter]. rewrite bind_ret_l, board_records_of_dicts.
  rewrite bind_ret_l, (send_json_sent _ _ _ _ Henc).
  cbn [try_except trace fst].
  change (responses ((Subprocess _ :: log) ++ ?t)) with (responses (log ++ t)).
  rewrite responses_app, Hlog. reflexivity.
Qed.

(** ** C2: how many records a handler emits *)




(** ** Runs that differ only in the clock *)

Lemma upstream_calls_app (t t' : list event) :
  upstream_calls (t ++ t') = (upstream_calls t ++ upstream_calls t')%list.
Proof. apply filter_app. Qed.

Lemma same_refl {A} (m : M A) : same_answers m m.
Proof. repeat split. Qed.

Lemma same_bind {A B} (m1 m2 : M A) (k1 k2 : A -> M B) :
  same_answers m1 m2 -> (forall a, same_answers (k1 a) (k2 a)) ->
  same_answers (bind m1 k1) (bind m2 k2).
Proof.
  unfold same_answers, outcome, trace, bind.
  destruct m1 as [t1 [a1|e1]], m2 as [t2 [a2|e2]]; cbn [fst snd];
    intros (Ho & Hr & Hu) Hk; try discriminate.
  - injection Ho as <-. specialize (Hk a1).
    destruct (k1 a1) as [t1' r1'], (k2 a1) as [t2' r2']. cbn [fst snd] in *.
    destruct Hk as (-> & Hr' & Hu').
    rewrite !responses_app, !upstream_calls_app, Hr, Hr', Hu, Hu'. repeat split.
  - injection Ho as <-. repeat split; assumption.
Qed.

Lemma same_try {A} (m1 m2 : M A) (h1 h2 : exn -> M A) :
  same_answers m1 m2 -> (forall e, same_answers (h1 e) (h2 e)) ->
  same_answers (try_except m1 h1) (try_except m2 h2).
Proof.
  unfold same_answers, outcome, trace, try_except.
  destruct m1 as [t1 [a1|e1]], m2 as [t2 [a2|e2]]; cbn [fst snd];
    intros (Ho & Hr & Hu) Hh; try discriminate.
  - repeat split; assumption.
  - injection Ho as <-. specialize (Hh e1).
    destruct (h1 e1) as [t1' r1'], (h2 e1) as [t2' r2']. cbn [fst snd] in *.
    destruct Hh as (-> & Hr' & Hu').
    rewrite !responses_app, !upstream_calls_app, Hr, Hr', Hu, Hu'. repeat split.
Qed.

Lemma same_send (clk1 clk2 : Clock) (req : Request) (v : pyval) (st : Z) :
  same_answers (send_json clk1 req v st) (send_json clk2 req v st).
Proof. unfold send_json. destruct (encodable v); repeat split. Qed.

(** Closes [same_answers] for one handler run under two clocks. *)
Ltac prove_same_answers :=
  repeat first
    [ apply same_send
    | apply same_refl
    | apply same_try; [|intros]
    | apply same_bind; [|intros]
    | match goal with
      | |- same_answers (if ?b then _ else _) _ => destruct b
      | |- same_answers (match ?x with _ => _ end) _ => destruct x
      end ].

Lemma service_same_answers lib clk1 clk2 w req :
  same_answers (AstockService.do_GET lib clk1 w req) (AstockService.do_GET lib clk2 w req).
Proof.
  unfold AstockService.do_GET.
  repeat match goal with |- same_answers (if ?b then _ else _) _ => destruct b end.
  - apply same_send.
  - unfold AstockService.index_handler. prove_same_answers.
  - unfold AstockService.stock_handler. prove_same_answers.
  - unfold AstockService.concept_handler, AstockService.board_handler. prove_same_answers.
  - unfold AstockService.industry_handler, AstockService.board_handler. prove_same_answers.
  - apply same_send.
Qed.

Lemma akshare_same_answers lib clk1 clk2 w req :
  same_answers (AkshareService.do_GET lib clk1 w req) (AkshareService.do_GET lib clk2 w req).
Proof.
  unfold AkshareService.do_GET.
  repeat match goal with |- same_answers (if ?b then _ else _) _ => destruct b end.
  - apply same_send.
  - unfold AkshareService.realtime_all_handler, AkshareService.list_handler. prove_same_answers.
  - unfold AkshareService.index_handler, AkshareService.list_handler. prove_same_answers.
  - unfold AkshareService.news_handler, AkshareService.list_handler. prove_same_answers.
  - unfold AkshareService.concept_handler, AkshareService.list_handler. prove_same_answers.
  - unfold AkshareService.industry_handler, AkshareService.list_handler. prove_same_answers.
  - unfold AkshareService.stock_handler. prove_same_answers.
  - apply same_send.
Qed.

Lemma query_same_payload lib clk1 clk2 w fn args limit record :
  (forall r, trace (record r) = []) ->
  same_payload (DataQuery.query lib clk1 w fn args limit record)
               (DataQuery.query lib clk2 w fn args limit record).
Proof.
  intros Hrec. rewrite !(query_cases _ _ _ _ _ _ _ Hrec).
  do 3 eexists. split; [reflexivity|]. split; [reflexivity|].
  destruct (ak w fn args) as [df|e]; [|reflexivity].
  destruct (outcome (mapM record _)); reflexivity.
Qed.

Lemma response_same_payload lib clk1 clk2 w argv :
  days_ago clk1 30 = days_ago clk2 30 ->
  same_payload (DataQuery.response lib clk1 w argv) (DataQuery.response lib clk2 w argv).
Proof.
  intros Hdays. unfold DataQuery.response.
  repeat match goal with |- same_payload (if ?b then _ else _) _ => destruct b end;
    try (apply query_same_payload; prove_traceless).
  - unfold DataQuery.get_a_stock_kline. rewrite Hdays.
    apply query_same_payload. prove_traceless.
  - unfold DataQuery.get_futures_realtime.
    destruct (negb _); apply query_same_payload; prove_traceless.
  - exists [], DataQuery.help_object, DataQuery.help_object. repeat split.
Qed.

(** The runs of astock.py in two worlds whose transfer tool gives the same
    results print the same payloads. *)
Lemma astock_main_by_fetched lib w w' argv :
  (forall url, fetched w url = fetched w' url) ->
  printed (trace (Astock.main lib w argv)) = printed (trace (Astock.main lib w' argv)).
Proof.
  intros H. unfold Astock.main.
  repeat match goal with |- context [if ?b then _ else _] => destruct b end;
    unfold Astock.get_index, Astock.get_stock, Astock.get_concept, Astock.get_industry,
      Astock.get_board;
    rewrite ?astock_curl_get_eq, ?H; reflexivity.
Qed.

(** ** C3: the same request twice *)

(** C3, as the code has it. Two runs on the same request and the same
    upstream that differ only in the reading of the clock: both services
    send the same responses and make the same upstream calls; data_query.py
    prints payloads that are equal once the [timestamp] field, the clock
    reading it puts in every payload, is left out (the [kline] command
    sends a start date taken from the clock to the library, so the two runs
    are taken to fall on the same day); astock.py reads no clock, and its
    payloads are the same in any two worlds whose transfer tool gives the
    same results. *)
Theorem payloads_repeatable (lib : PyLib) (w w' : World) (clk1 clk2 : Clock)
        (req : Request) (argv argv' : list string) :
  days_ago clk1 30 = days_ago clk2 30 ->
  (forall url, fetched w url = fetched w' url) ->
  same_answers (AstockService.do_GET lib clk1 w req) (AstockService.do_GET lib clk2 w req) /\
  same_answers (AkshareService.do_GET lib clk1 w req) (AkshareService.do_GET lib clk2 w req) /\
  map without_timestamp (printed (trace (DataQuery.main lib clk1 w argv)))
  = map without_timestamp (printed (trace (DataQuery.main lib clk2 w argv))) /\
  upstream_calls (trace (DataQuery.main lib clk1 w argv))
  = upstream_calls (trace (DataQuery.main lib clk2 w argv)) /\
  printed (trace (Astock.main lib w argv')) = printed (trace (Astock.main lib w' argv')).
Proof.
  intros Hdays Hw.
  split; [apply service_same_answers|].
  split; [apply akshare_same_answers|].
  destruct (response_same_payload lib clk1 clk2 w argv Hdays) as (t & p1 & p2 & H1 & H2 & Hp).
  unfold DataQuery.main. rewrite H1, H2. unfold print_json, emit, bind, trace. cbn [fst].
  unfold printed, upstream_calls. rewrite !flat_map_app, !filter_app. cbn [flat_map filter app map].
  rewrite !map_app. cbn [map]. rewrite Hp.
  split; [reflexivity|]. split; [reflexivity|].
  apply astock_main_by_fetched. exact Hw.
Qed.

(** Two runs one second apart, and two worlds with the same transfer tool. *)
Lemma payloads_repeatable_witness :
  same_answers
    (AstockService.do_GET Json.lib Fixture.clock_a Fixture.two_sources (Fixture.GET "/stock/concept"))
    (AstockService.do_GET Json.lib Fixture.clock_b Fixture.two_sources (Fixture.GET "/stock/concept")) /\
  same_answers
    (AkshareService.do_GET Json.lib Fixture.clock_a Fixture.two_sources (Fixture.GET "/stock/concept"))
    (AkshareService.do_GET Json.lib Fixture.clock_b Fixture.two_sources (Fixture.GET "/stock/concept")) /\
  map without_timestamp
    (printed (trace (DataQuery.main Json.lib Fixture.clock_a Fixture.two_sources
                       ["data_query.py"; "kline"; "600000"])))
  = map without_timestamp
      (printed (trace (DataQuery.main Json.lib Fixture.clock_b Fixture.two_sources
                         ["data_query.py"; "kline"; "600000"]))) /\
  upstream_calls (trace (DataQuery.main Json.lib Fixture.clock_a Fixture.two_sources
                           ["data_query.py"; "kline"; "600000"]))
  = upstream_calls (trace (DataQuery.main Json.lib Fixture.clock_b Fixture.two_sources
                             ["data_query.py"; "kline"; "600000"])) /\
  printed (trace (Astock.main Json.lib Fixture.two_sources ["astock.py"; "concept"]))
  = printed (trace (Astock.main Json.lib
                      (Fixture.with_library Fixture.two_sources (inl Fixture.snapshot))
                      ["astock.py"; "concept"])).
Proof.
  apply (payloads_repeatable Json.lib Fixture.two_sources
           (Fixture.with_library Fixture.two_sources (inl Fixture.snapshot))
           Fixture.clock_a Fixture.clock_b (Fixture.GET "/stock/concept")
           ["data_query.py"; "kline"; "600000"] ["astock.py"; "concept"]).
  - reflexivity.
  - intros url. reflexivity.
Defined.

(** C3, as stated, fails for data_query.py: the same command on the same
    upstream, run at two moments one second apart, prints two payloads that
    differ in their [timestamp] field. *)
Lemma timestamp_differs_between_runs :
  map (field "timestamp")
      (printed (trace (DataQuery.main Json.lib Fixture.clock_a
                         (Fixture.ak_world (inl (Fixture.boards 1)))
                         ["data_query.py"; "concept"])))
  = [Some (PStr "2026-03-02T10:00:00.000001")] /\
  map (field "timestamp")
      (printed (trace (DataQuery.main Json.lib Fixture.clock_b
                         (Fixture.ak_world (inl (Fixture.boards 1)))
                         ["data_query.py"; "concept"])))
  = [Some (PStr "2026-03-02T10:00:01.000001")] /\
  printed (trace (DataQuery.main Json.lib Fixture.clock_a
                    (Fixture.ak_world (inl (Fixture.boards 1)))
                    ["data_query.py"; "concept"]))
  <> printed (trace (DataQuery.main Json.lib Fixture.clock_b
                       (Fixture.ak_world (inl (Fixture.boards 1)))
                       ["data_query.py"; "concept"])).
Proof.
  split; [reflexivity|]. split; [reflexivity|].
  intros H. apply (f_equal (map (field "timestamp"))) in H. discriminate H.
Qed.

(** ** Runs that print one payload *)

Lemma printed_app (t t' : list event) :
  printed (t ++ t') = (printed t ++ printed t')%list.
Proof. apply flat_map_app. Qed.

Lemma prints_once_print (v : pyval) : prints_once (print_json v).
Proof. exists v. split; reflexivity. Qed.

Lemma prints_or_raises_print (v : pyval) : prints_or_raises (print_json v).
Proof. left. apply prints_once_print. Qed.

Lemma prints_or_raises_print_raw (v : pyval) : prints_or_raises (print_json_raw v).
Proof.
  unfold print_json_raw. destruct (encodable v).
  - left. exists v. split; reflexivity.
  - right. split; [reflexivity | eexists; reflexivity].
Qed.

Lemma prints_or_raises_bind {A} (m : M A) (k : A -> M unit) :
  trace m = [] -> (forall a, prints_or_raises (k a)) -> prints_or_raises (bind m k).
Proof.
  intros Hm Hk. rewrite (bind_pure _ _ Hm).
  destruct (outcome m) as [a|e]; [apply Hk|].
  right. split; [reflexivity | exists e; reflexivity].
Qed.

Lemma prints_once_try (m : M unit) (h : exn -> M unit) :
  prints_or_raises m -> (forall e, prints_once (h e)) -> prints_once (try_except m h).
Proof.
  unfold prints_or_raises, prints_once, outcome, trace, try_except.
  destruct m as [t [[]|e]]; cbn [fst snd]; intros [(p & Hp & Ho)|(Hp & e' & Ho)] Hh;
    try discriminate.
  - exists p. split; [exact Hp | reflexivity].
  - specialize (Hh e). destruct (h e) as [t' r]. cbn [fst snd] in *.
    destruct Hh as (p & Hp' & ->). exists p.
    rewrite printed_app, Hp, Hp'. split; reflexivity.
Qed.

Lemma prints_once_after_fetch (w : World) (url : string) (k : option string -> M unit) :
  prints_once (k (fetched w url)) -> prints_once (bind (Astock.curl_get w url) k).
Proof.
  rewrite astock_curl_get_eq. unfold prints_once, bind, trace, outcome.
  destruct (k (fetched w url)) as [t r]. cbn [fst snd].
  intros (p & Hp & ->). exists p. split; [exact Hp | reflexivity].
Qed.

(** Closes [prints_once] and [prints_or_raises] for a command of astock.py. *)
Ltac prove_prints_once :=
  repeat first
    [ apply prints_once_print
    | apply prints_or_raises_print
    | apply prints_or_raises_print_raw
    | apply prints_once_after_fetch
    | apply prints_once_try; [|intros]
    | apply prints_or_raises_bind; [solve [prove_traceless]|intros]
    | match goal with |- prints_once (if ?b then _ else _) => destruct b end ].

Lemma get_index_prints_once lib w : prints_once (Astock.get_index lib w).
Proof. unfold Astock.get_index. prove_prints_once. Qed.

Lemma get_stock_prints_once lib w symbol : prints_once (Astock.get_stock lib w symbol).
Proof. unfold Astock.get_stock. prove_prints_once. Qed.

Lemma get_board_prints_once lib w url placeholder :
  prints_once (Astock.get_board lib w url placeholder).
Proof. unfold Astock.get_board. prove_prints_once. Qed.

Lemma astock_main_exits_zero lib w argv : exit_code (Astock.main lib w argv) = 0.
Proof.
  unfold Astock.main.
  repeat match goal with |- context [if ?b then _ else _] => destruct b end;
    try reflexivity.
  - destruct (get_index_prints_once lib w) as (p & _ & Ho).
    unfold exit_code. rewrite Ho. reflexivity.
  - destruct (get_stock_prints_once lib w (argv_or argv 2 "")) as (p & _ & Ho).
    unfold exit_code. rewrite Ho. reflexivity.
  - destruct (get_board_prints_once lib w Astock.concept_url Astock.concept_placeholder)
      as (p & _ & Ho).
    unfold exit_code, Astock.get_concept. rewrite Ho. reflexivity.
  - destruct (get_board_prints_once lib w Astock.industry_url Astock.industry_placeholder)
      as (p & _ & Ho).
    unfold exit_code, Astock.get_industry. rewrite Ho. reflexivity.
Qed.

(** What astock.py prints when the fetch gave no data. *)
Lemma get_index_no_data lib w :
  no_data (fetched w Astock.index_url) = true ->
  printed (trace (Astock.get_index lib w)) = [PList [error_object "获取数据失败"]].
Proof.
  intros H. unfold Astock.get_index. rewrite astock_curl_get_eq.
  unfold bind at 1. rewrite H. reflexivity.
Qed.

Lemma get_stock_no_data lib w symbol :
  no_data (fetched w (Astock.stock_url symbol)) = true ->
  printed (trace (Astock.get_stock lib w symbol)) = [error_object "获取数据失败"].
Proof.
  intros H. unfold Astock.get_stock. rewrite astock_curl_get_eq.
  unfold bind at 1. rewrite H. reflexivity.
Qed.

Lemma get_board_no_data lib w url placeholder :
  no_data (fetched w url) = true ->
  printed (trace (Astock.get_board lib w url placeholder)) = [placeholder].
Proof.
  intros H. unfold Astock.get_board. rewrite astock_curl_get_eq.
  unfold bind at 1. rewrite H. reflexivity.
Qed.

(** What astock.py prints when the text fetched is not JSON. *)
Lemma get_index_unreadable lib w text :
  fetched w Astock.index_url = Some text -> (text =? "")%string = false ->
  json_loads lib text = None ->
  printed (trace (Astock.get_index lib w)) = [PList [error_object "解析数据失败"]].
Proof.
  intros Hf Hne Hl. unfold Astock.get_index. rewrite astock_curl_get_eq, Hf.
  unfold bind at 1. cbn [no_data]. rewrite Hne.
  unfold py_json_loads, text_of. rewrite Hl. reflexivity.
Qed.

Lemma get_stock_unreadable lib w symbol text :
  fetched w (Astock.stock_url symbol) = Some text -> (text =? "")%string = false ->
  json_loads lib text = None ->
  printed (trace (Astock.get_stock lib w symbol)) = [error_object "解析数据失败"].
Proof.
  intros Hf Hne Hl. unfold Astock.get_stock. rewrite astock_curl_get_eq, Hf.
  unfold bind at 1. cbn [no_data]. rewrite Hne.
  unfold py_json_loads, text_of. rewrite Hl. reflexivity.
Qed.

Lemma get_board_unreadable lib w url placeholder text :
  fetched w url = Some text -> (text =? "")%string = false ->
  json_loads lib text = None ->
  printed (trace (Astock.get_board lib w url placeholder)) = [placeholder].
Proof.
  intros Hf Hne Hl. unfold Astock.get_board. rewrite astock_curl_get_eq, Hf.
  unfold bind at 1. cbn [no_data]. rewrite Hne.
  unfold py_json_loads, text_of. rewrite Hl. reflexivity.
Qed.

Lemma query_shape lib clk w fn args limit record :
  (forall r, trace (record r) = []) ->
  exists t p, DataQuery.query lib clk w fn args limit record = (t, inl p) /\
              payload_of_call lib clk w t p.
Proof.
  intros Hrec. rewrite (query_cases _ _ _ _ _ _ _ Hrec).
  do 2 eexists. split; [reflexivity|]. right. exists fn, args. split; [reflexivity|].
  destruct (ak w fn args) as [df|e]; [|reflexivity].
  destruct (outcome (mapM record _)) as [result|e].
  - left. exists result. reflexivity.
  - right. eexists. reflexivity.
Qed.

Lemma response_shape lib clk w argv :
  exists t p, DataQuery.response lib clk w argv = (t, inl p) /\
              payload_of_call lib clk w t p.
Proof.
  unfold DataQuery.response.
  repeat match goal with |- context [if ?b then _ else _] => destruct b end;
    try (apply query_shape; prove_traceless).
  - unfold DataQuery.get_futures_realtime.
    destruct (negb _); apply query_shape; prove_traceless.
  - exists [], DataQuery.help_object. split; [reflexivity|]. left. split; reflexivity.
Qed.

(** ** C6: exit code and payload of a command-line run *)

(** C6, as the code has it. Every run of either script ends with exit code
    0, whatever the arguments and the upstream. data_query.py prints exactly
    one payload: the help object, an object with [success] true and the
    data, or an object with [success] false and an [error] field; the last
    one whenever the library call raised. astock.py prints exactly one
    payload for each of its four commands; when the fetch gave no data or
    the text is not JSON, that payload carries an [error] field for [index]
    and [stock], and is the list of placeholder boards, with no error
    field, for [concept] and [industry]. *)
Theorem cli_exit_and_payload (lib : PyLib) (clk : Clock) (w : World)
        (argv : list string) (prog symbol : string) :
  exit_code (DataQuery.main lib clk w argv) = 0 /\
  (exists p, printed (trace (DataQuery.main lib clk w argv)) = [p] /\
             (p = DataQuery.help_object \/
              (exists l, p = DataQuery.success_response clk (PList l)) \/
              (exists msg, p = DataQuery.error_response clk msg))) /\
  (forall fn args e,
      In (Ak fn args) (trace (DataQuery.main lib clk w argv)) ->
      ak w fn args = inr e ->
      printed (trace (DataQuery.main lib clk w argv))
      = [DataQuery.error_response clk ("获取失败: " ++ exn_str lib e)]) /\
  exit_code (Astock.main lib w argv) = 0 /\
  prints_once (Astock.main lib w [prog; "index"]) /\
  prints_once (Astock.main lib w [prog; "stock"; symbol]) /\
  prints_once (Astock.main lib w [prog; "concept"]) /\
  prints_once (Astock.main lib w [prog; "industry"]) /\
  (forall text,
      no_data (fetched w Astock.index_url) = true \/
      (fetched w Astock.index_url = Some text /\ (text =? "")%string = false /\
       json_loads lib text = None) ->
      exists msg, printed (trace (Astock.main lib w [prog; "index"]))
                  = [PList [error_object msg]]) /\
  (forall text,
      no_data (fetched w (Astock.stock_url symbol)) = true \/
      (fetched w (Astock.stock_url symbol) = Some text /\ (text =? "")%string = false /\
       json_loads lib text = None) ->
      exists msg, printed (trace (Astock.main lib w [prog; "stock"; symbol]))
                  = [error_object msg]) /\
  (forall text,
      no_data (fetched w Astock.concept_url) = true \/
      (fetched w Astock.concept_url = Some text /\ (text =? "")%string = false /\
       json_loads lib text = None) ->
      printed (trace (Astock.main lib w [prog; "concept"])) = [Astock.concept_placeholder]) /\
  (forall text,
      no_data (fetched w Astock.industry_url) = true \/
      (fetched w Astock.industry_url = Some text /\ (text =? "")%string = false /\
       json_loads lib text = None) ->
      printed (trace (Astock.main lib w [prog; "industry"])) = [Astock.industry_placeholder]).
Proof.
  destruct (response_shape lib clk w argv) as (t & p & Hresp & Hshape).
  assert (Hmain : DataQuery.main lib clk w argv = ((t ++ [PrintJson p])%list, inl tt)).
  { unfold DataQuery.main. rewrite Hresp. reflexivity. }
  assert (Hprinted : printed (trace (DataQuery.main lib clk w argv)) = [p]).
  { rewrite Hmain. cbn [trace fst]. rewrite printed_app.
    destruct Hshape as [[-> _]|(fn & args & -> & _)]; reflexivity. }
  split; [rewrite Hmain; reflexivity|].
  split.
  { exists p. split; [exact Hprinted|].
    destruct Hshape as [[_ ->]|(fn & args & _ & H)]; [left; reflexivity|].
    right. destruct (ak w fn args); [exact H|]. right. eexists. exact H. }
  split.
  { intros fn args e Hin Hak. rewrite Hprinted. rewrite Hmain in Hin. cbn [trace fst] in Hin.
    destruct Hshape as [[-> _]|(fn' & args' & -> & H)].
    - destruct Hin as [Hin|[]]. discriminate Hin.
    - destruct Hin as [Hin|[Hin|[]]]; [|discriminate Hin].
      injection Hin as -> ->. rewrite Hak in H. rewrite H. reflexivity. }
  split; [apply astock_main_exits_zero|].
  split; [apply get_index_prints_once|].
  split; [apply get_stock_prints_once|].
  split; [apply get_board_prints_once|].
  split; [apply get_board_prints_once|].
  split.
  { intros text [H|(Hf & Hne & Hl)]; eexists.
    - exact (get_index_no_data lib w H).
    - exact (get_index_unreadable lib w text Hf Hne Hl). }
  split.
  { intros text [H|(Hf & Hne & Hl)]; eexists.
    - exact (get_stock_no_data lib w symbol H).
    - exact (get_stock_unreadable lib w symbol text Hf Hne Hl). }
  split.
  { intros text [H|(Hf & Hne & Hl)].
    - exact (get_board_no_data lib w _ _ H).
    - exact (get_board_unreadable lib w _ _ text Hf Hne Hl). }
  intros text [H|(Hf & Hne & Hl)].
  - exact (get_board_no_data lib w _ _ H).
  - exact (get_board_unreadable lib w _ _ text Hf Hne Hl).
Qed.

(** The failures of the two scripts: the library and the transfer tool out
    of reach, and a body cut short. *)
Lemma cli_exit_and_payload_witness :
  printed (trace (DataQuery.main Json.lib Fixture.clock_a Fixture.unreachable
                    ["data_query.py"; "stock"]))
  = [DataQuery.error_response Fixture.clock_a ("获取失败: " ++ "Connection aborted.")] /\
  (exists msg, printed (trace (Astock.main Json.lib Fixture.unreachable ["astock.py"; "index"]))
               = [PList [error_object msg]]) /\
  (exists msg, printed (trace (Astock.main Json.lib Fixture.cut_short
                                 ["astock.py"; "stock"; "600000"]))
               = [error_object msg]) /\
  printed (trace (Astock.main Json.lib Fixture.unreachable ["astock.py"; "concept"]))
  = [Astock.concept_placeholder] /\
  printed (trace (Astock.main Json.lib Fixture.cut_short ["astock.py"; "industry"]))
  = [Astock.industry_placeholder].
Proof.
  destruct (cli_exit_and_payload Json.lib Fixture.clock_a Fixture.unreachable
              ["data_query.py"; "stock"] "astock.py" "600000")
    as (_ & _ & Hdq & _ & _ & _ & _ & _ & Hindex & _ & Hconcept & _).
  destruct (cli_exit_and_payload Json.lib Fixture.clock_a Fixture.cut_short
              ["data_query.py"; "stock"] "astock.py" "600000")
    as (_ & _ & _ & _ & _ & _ & _ & _ & _ & Hstock & _ & Hindustry).
  split.
  { apply (Hdq "stock_zh_a_spot_em" [] (RaisedBy "akshare" "Connection aborted."));
      [left; reflexivity | reflexivity]. }
  split.
  { apply (Hindex ""). left. reflexivity. }
  split.
  { apply (Hstock Fixture.partial_body). right. repeat split. }
  split.
  { apply (Hconcept ""). left. reflexivity. }
  apply (Hindustry Fixture.partial_body). right. repeat split.
Defined.

(** C6, as stated, fails for astock.py. With the transfer tool out of
    reach, the [concept] command ends with exit code 0 and prints the two
    placeholder boards, in which nothing tells the failure: neither the
    payload nor its records have an [error] or a [success] field. And an
    unrecognised subcommand ends with exit code 0 having printed nothing. *)
Lemma cli_failure_not_reported :
  exit_code (Astock.main Json.lib Fixture.unreachable ["astock.py"; "concept"]) = 0 /\
  printed (trace (Astock.main Json.lib Fixture.unreachable ["astock.py"; "concept"]))
  = [PList [PDict [("name", PStr "人工智能"); ("change", PFloat 3.25)];
            PDict [("name", PStr "芯片概念"); ("change", PFloat 2.18)]]] /\
  map (has_field "error")
      [PList [PDict [("name", PStr "人工智能"); ("change", PFloat 3.25)];
              PDict [("name", PStr "芯片概念"); ("change", PFloat 2.18)]];
       PDict [("name", PStr "人工智能"); ("change", PFloat 3.25)];
       PDict [("name", PStr "芯片概念"); ("change", PFloat 2.18)]]
  = [false; false; false] /\
  map (has_field "success")
      [PList [PDict [("name", PStr "人工智能"); ("change", PFloat 3.25)];
              PDict [("name", PStr "芯片概念"); ("change", PFloat 2.18)]];
       PDict [("name", PStr "人工智能"); ("change", PFloat 3.25)];
       PDict [("name", PStr "芯片概念"); ("change", PFloat 2.18)]]
  = [false; false; false] /\
  exit_code (Astock.main Json.lib Fixture.unreachable ["astock.py"; "quote"]) = 0 /\
  printed (trace (Astock.main Json.lib Fixture.unreachable ["astock.py"; "quote"])) = [].
Proof. repeat split. Qed.

(** ** Fields with a default *)

Lemma bind_outcome_inv {A B} (m : M A) (k : A -> M B) (b : B) :
  outcome (bind m k) = inl b ->
  exists a, outcome m = inl a /\ outcome (k a) = inl b.
Proof.
  unfold outcome, bind. destruct m as [t [a|e]]; cbn [snd]; [|discriminate].
  intros H. exists a. split; [reflexivity|]. destruct (k a). exact H.
Qed.

Lemma float_if_falsy lib v dflt : truthy v = false -> float_if lib v dflt = ret dflt.
Proof. unfold float_if. intros ->. reflexivity. Qed.

Lemma float_field_falsy lib r k dflt :
  truthy (row_get r k PNone) = false -> float_field lib r k dflt = ret dflt.
Proof. unfold float_field. intros ->. reflexivity. Qed.

(** Takes the record computation [H] apart, the price first. *)
Ltac price_first H Hfalsy :=
  let x := fresh "x" in
  let Hx := fresh "Hx" in
  apply bind_outcome_inv in H; destruct H as (x & Hx & H);
  first [ rewrite (float_field_falsy _ _ _ _ Hfalsy) in Hx
        | rewrite (float_if_falsy _ _ _ Hfalsy) in Hx ];
  injection Hx as <-;
  repeat (apply bind_outcome_inv in H; destruct H as (? & _ & H));
  injection H as <-; reflexivity.

Lemma scaled_falsy (d : list (string * pyval)) (k : string) :
  truthy (match lookup k d with Some v => v | None => PNone end) = false ->
  Astock.scaled (PDict d) k = ret (PInt 0).
Proof.
  intros H. unfold Astock.scaled. cbn [py_get]. rewrite bind_ret_l, H. reflexivity.
Qed.

(** ** C7: the price of a record whose upstream price is missing *)

(** C7, as the code has it. Where the price is coerced, a price that is
    absent or falsy upstream gives the default: the price expression
    returns it without raising, and every record emitted has it, 0 in the
    records of akshare_service.py and in the single quote of astock.py and
    astock_service.py, null in the records of data_query.py. The index
    lists of astock.py and astock_service.py do not coerce: their price is 0
    when the field is absent, and otherwise the upstream value as it is. *)
Theorem falsy_price_defaults (lib : PyLib) (r : row) (symbol : string)
        (d : list (string * pyval)) :
  truthy (row_get r "最新价" PNone) = false ->
  truthy (match lookup "f43" d with Some v => v | None => PNone end) = false ->
  float_if lib (row_get r "最新价" PNone) (PInt 0) = ret (PInt 0) /\
  float_field lib r "最新价" (PInt 0) = ret (PInt 0) /\
  float_field lib r "最新价" PNone = ret PNone /\
  Astock.scaled (PDict d) "f43" = ret (PInt 0) /\
  (forall q, outcome (AkshareService.quote_record lib r) = inl q ->
             field "price" q = Some (PInt 0)) /\
  (forall q, outcome (AkshareService.stock_record lib symbol r) = inl q ->
             field "price" q = Some (PInt 0)) /\
  (forall q, outcome (DataQuery.a_stock_record lib r) = inl q ->
             field "price" q = Some PNone) /\
  (forall q, outcome (DataQuery.index_record lib r) = inl q ->
             field "price" q = Some PNone) /\
  (forall q, outcome (DataQuery.etf_record lib r) = inl q ->
             field "price" q = Some PNone) /\
  (forall q, outcome (DataQuery.futures_record lib r) = inl q ->
             field "latest_price" q = Some PNone) /\
  (forall q, outcome (Astock.stock_record symbol (PDict d)) = inl q ->
             field "price" q = Some (PInt 0)) /\
  (exists q, Astock.index_record (PDict d) = ret q /\
             field "price" q
             = Some (match lookup "f2" d with Some v => v | None => PInt 0 end)).
Proof.
  intros Hrow Hobj.
  split. { apply float_if_falsy, Hrow. }
  split. { apply float_field_falsy, Hrow. }
  split. { apply float_field_falsy, Hrow. }
  split. { apply scaled_falsy, Hobj. }
  split. { intros q H. unfold AkshareService.quote_record in H. price_first H Hrow. }
  split. { intros q H. unfold AkshareService.stock_record in H. price_first H Hrow. }
  split. { intros q H. unfold DataQuery.a_stock_record in H. price_first H Hrow. }
  split. { intros q H. unfold DataQuery.index_record in H. price_first H Hrow. }
  split. { intros q H. unfold DataQuery.etf_record in H. price_first H Hrow. }
  split. { intros q H. unfold DataQuery.futures_record in H. price_first H Hrow. }
  split.
  { intros q H. unfold Astock.stock_record in H.
    apply bind_outcome_inv in H. destruct H as (name & _ & H).
    rewrite (scaled_falsy _ _ Hobj), bind_ret_l in H.
    apply bind_outcome_inv in H. destruct H as (change & _ & H).
    injection H as <-. reflexivity. }
  eexists. split; reflexivity.
Qed.

(** A snapshot row whose price is 0.0, and a response object whose [f43]
    is the empty str. *)
Lemma falsy_price_defaults_witness :
  field "price" (PDict [("symbol", PStr "000001"); ("name", PStr "平安银行");
                        ("price", PInt 0); ("change", PInt 0)])
  = Some (PInt 0) /\
  field "price" (PDict [("symbol", PStr "000001"); ("name", PStr "平安银行");
                        ("price", PNone); ("change", PInt 0);
                        ("volume", PNone); ("amount", PStr "")])
  = Some PNone /\
  field "price" (PDict [("symbol", PStr "600000"); ("name", PStr "x");
                        ("price", PInt 0); ("change", PFloat 0.5)])
  = Some (PInt 0).
Proof.
  destruct (falsy_price_defaults Json.lib
              (combine (df_columns Fixture.snapshot)
                       [PStr "000001"; PStr "平安银行"; PFloat 0; PStr ""; PNone])
              "600000" [("f58", PStr "x"); ("f43", PStr ""); ("f170", PInt 50)]
              eq_refl eq_refl)
    as (_ & _ & _ & _ & Hquote & _ & _ & Hindex & _ & _ & Hstock & _).
  split; [apply Hquote; reflexivity|].
  split; [apply Hindex; reflexivity|].
  apply Hstock. reflexivity.
Defined.

(** C7, as stated, fails in the index lists fed over HTTP: the upstream
    item has the falsy price [""], and the record printed by astock.py and
    the record sent by astock_service.py have that empty str as price,
    which is neither null nor 0. *)
Lemma empty_price_passes_through :
  truthy (PStr "") = false /\
  printed (trace (Astock.main Json.lib
                    (Fixture.serving "{'data':[{'f12':'000001','f14':'上证指数','f2':'','f3':0.5}]}")
                    ["astock.py"; "index"]))
  = [PList [PDict [("symbol", PStr "000001"); ("name", PStr "上证指数");
                   ("price", PStr ""); ("change", PFloat 0.5)]]] /\
  responses (trace (AstockService.do_GET Json.lib Fixture.clock_a
                      (Fixture.serving "{'data':[{'f12':'000001','f14':'上证指数','f2':'','f3':0.5}]}")
                      (Fixture.GET "/stock/index/realtime")))
  = [(200, PList [PDict [("symbol", PStr "000001"); ("name", PStr "上证指数");
                         ("price", PStr ""); ("change", PFloat 0.5)]])].
Proof. repeat split; vm_compute; reflexivity. Qed.

(** ** The rescaled fields of the single quote *)

Lemma truediv_hundredth (v : pyval) (q : float) :
  hundredth v = Some q -> py_truediv v (PInt 100) = ret q.
Proof.
  unfold hundredth, py_truediv. cbn [as_number].
  destruct (as_number v) as [[z|f]|]; [| |discriminate].
  - change (100 =? 0) with false. cbv iota.
    destruct (SF_is_finite (SF_div_Z z 100)); [|discriminate].
    intros [= <-]. reflexivity.
  - intros [= <-]. reflexivity.
Qed.

Lemma truediv_no_hundredth (v : pyval) :
  hundredth v = None -> exists e, py_truediv v (PInt 100) = raise e.
Proof.
  unfold hundredth, py_truediv. cbn [as_number].
  destruct (as_number v) as [[z|f]|]; [| |eexists; reflexivity].
  - change (100 =? 0) with false. cbv iota.
    destruct (SF_is_finite (SF_div_Z z 100)); [discriminate|].
    eexists. reflexivity.
  - discriminate.
Qed.

(** The code's rescaling of a field is the claim's. *)
Lemma scaled_rescaled (d : list (string * pyval)) (k : string) (x : pyval) :
  rescaled (lookup k d) = Some x -> Astock.scaled (PDict d) k = ret x.
Proof.
  unfold rescaled, Astock.scaled. cbn [py_get]. rewrite bind_ret_l.
  destruct (lookup k d) as [v|]; [|intros [= <-]; reflexivity].
  destruct (truthy v); [|intros [= <-]; reflexivity].
  rewrite bind_ret_l.
  destruct (hundredth v) as [q|] eqn:Hq; [|discriminate].
  intros [= <-]. rewrite (truediv_hundredth _ _ Hq), bind_ret_l. reflexivity.
Qed.

Lemma scaled_not_rescaled (d : list (string * pyval)) (k : string) :
  rescaled (lookup k d) = None -> exists e, Astock.scaled (PDict d) k = raise e.
Proof.
  unfold rescaled, Astock.scaled. cbn [py_get]. rewrite bind_ret_l.
  destruct (lookup k d) as [v|]; [|discriminate].
  destruct (truthy v); [|discriminate].
  rewrite bind_ret_l.
  destruct (hundredth v) as [q|] eqn:Hq; [discriminate|]. intros _.
  destruct (truediv_no_hundredth _ Hq) as [e ->]. exists e. reflexivity.
Qed.

(** The quote built from the [data] object [d] of the response. *)
Lemma stock_record_rescaled symbol d price change :
  rescaled (lookup "f43" d) = Some price ->
  rescaled (lookup "f170" d) = Some change ->
  Astock.stock_record symbol (PDict d)
  = ret (PDict [("symbol", PStr symbol);
                ("name", match lookup "f58" d with Some x => x | None => PStr "" end);
                ("price", price); ("change", change)]).
Proof.
  intros Hp Hc. unfold Astock.stock_record. cbn [py_get].
  rewrite bind_ret_l, (scaled_rescaled _ _ _ Hp), bind_ret_l.
  rewrite (scaled_rescaled _ _ _ Hc), bind_ret_l. reflexivity.
Qed.

Lemma stock_record_not_rescaled symbol d :
  rescaled (lookup "f43" d) = None \/ rescaled (lookup "f170" d) = None ->
  exists e, Astock.stock_record symbol (PDict d) = raise e.
Proof.
  intros H. unfold Astock.stock_record. cbn [py_get]. rewrite bind_ret_l.
  destruct (rescaled (lookup "f43" d)) as [price|] eqn:Hp.
  - destruct H as [H|H]; [discriminate|].
    rewrite (scaled_rescaled _ _ _ Hp), bind_ret_l.
    destruct (scaled_not_rescaled _ _ H) as [e ->]. exists e. reflexivity.
  - destruct (scaled_not_rescaled _ _ Hp) as [e ->]. exists e. reflexivity.
Qed.

(** The single-quote handlers once the response is read as an object whose
    [data] is the object [d]. *)
Lemma get_stock_on_object lib w symbol text top d :
  (text =? "")%string = false ->
  json_loads lib text = Some (PDict top) ->
  lookup "data" top = Some (PDict d) ->
  fetched w (Astock.stock_url symbol) = Some text ->
  printed (trace (Astock.get_stock lib w symbol))
  = printed (trace (try_except
                      (record <- Astock.stock_record symbol (PDict d) ;;
                       print_json_raw record)
                      (fun _ => print_json (error_object "解析数据失败")))).
Proof.
  intros Hne Hloads Hdata Hf. unfold Astock.get_stock.
  rewrite astock_curl_get_eq, Hf. unfold bind at 1. cbn [no_data]. rewrite Hne.
  unfold py_json_loads, text_of. rewrite Hloads, bind_ret_l. cbn [py_get].
  rewrite Hdata, bind_ret_l.
  destruct (try_except _ _) as [t r]. reflexivity.
Qed.

Lemma stock_handler_on_object lib clk w req text top d :
  (text =? "")%string = false ->
  json_loads lib text = Some (PDict top) ->
  lookup "data" top = Some (PDict d) ->
  fetched_by_service w (AstockService.stock_url (last_item (split "/" (path req)))) = Some text ->
  responses (trace (AstockService.stock_handler lib clk w req))
  = responses (trace (try_except
                        (record <- Astock.stock_record (last_item (split "/" (path req)))
                                     (PDict d) ;;
                         send_json clk req record 200)
                        (fun _ => send_json clk req
                                    (AstockService.stock_placeholder
                                       (last_item (split "/" (path req)))) 200))).
Proof.
  intros Hne Hloads Hdata Hf. unfold AstockService.stock_handler. cbv zeta.
  destruct (service_curl_get_eq lib w
              (AstockService.stock_url (last_item (split "/" (path req)))))
    as (log & -> & Hlog & _).
  rewrite Hf. unfold bind at 1. cbn [no_data]. rewrite Hne.
  unfold py_json_loads, text_of. rewrite Hloads, bind_ret_l. cbn [py_get].
  rewrite Hdata, bind_ret_l.
  destruct (try_except _ _) as [t r]. cbn [trace fst].
  change (responses ((Subprocess _ :: log) ++ t)) with (responses (log ++ t)).
  rewrite responses_app, Hlog. reflexivity.
Qed.

(** ** C10: the rescaling in the single-quote handlers *)




(** * Further properties of the scripts *)

(** ** Selecting rows leaves no trace *)

Lemma trace_select_eq (df : DataFrame) (col symbol : string) :
  trace (select_eq df col symbol) = [].
Proof. unfold select_eq. destruct (existsb _ _); reflexivity. Qed.

(** ** No request calls the upstream twice *)

Lemma calls_le_traceless {A} (m : M A) : trace m = [] -> calls_le 0 m.
Proof. unfold calls_le. intros ->. constructor. Qed.

Lemma calls_le_weaken {A} (m : M A) : calls_le 0 m -> calls_le 1 m.
Proof. unfold calls_le. intros H. apply Nat.le_trans with 0%nat; [exact H | repeat constructor]. Qed.

Lemma calls_le_bind (a b : nat) {A B} (m : M A) (k : A -> M B) :
  calls_le a m -> (forall x, calls_le b (k x)) -> calls_le (a + b) (bind m k).
Proof.
  unfold calls_le, trace, bind. destruct m as [t [x|e]]; cbn [fst]; intros Hm Hk.
  - specialize (Hk x). destruct (k x) as [t' r]. cbn [fst] in *.
    rewrite upstream_calls_app, length_app. apply Nat.add_le_mono; assumption.
  - apply Nat.le_trans with a; [exact Hm | apply Nat.le_add_r].
Qed.

Lemma calls_le_try (a b : nat) {A} (m : M A) (h : exn -> M A) :
  calls_le a m -> (forall e, calls_le b (h e)) -> calls_le (a + b) (try_except m h).
Proof.
  unfold calls_le, trace, try_except. destruct m as [t [x|e]]; cbn [fst]; intros Hm Hh.
  - apply Nat.le_trans with a; [exact Hm | apply Nat.le_add_r].
  - specialize (Hh e). destruct (h e) as [t' r]. cbn [fst] in *.
    rewrite upstream_calls_app, length_app. apply Nat.add_le_mono; assumption.
Qed.

Lemma calls_le_send clk req v st : calls_le 0 (send_json clk req v st).
Proof. unfold send_json. destruct (encodable v); repeat constructor. Qed.

Lemma calls_le_print v : calls_le 0 (print_json v).
Proof. repeat constructor. Qed.

Lemma calls_le_print_raw v : calls_le 0 (print_json_raw v).
Proof. unfold print_json_raw. destruct (encodable v); repeat constructor. Qed.

Lemma calls_le_astock_curl w url : calls_le 1 (Astock.curl_get w url).
Proof. rewrite astock_curl_get_eq. repeat constructor. Qed.

Lemma calls_le_service_curl lib w url : calls_le 1 (AstockService.curl_get lib w url).
Proof.
  destruct (service_curl_get_eq lib w url) as (log & -> & _ & Hlog & _).
  unfold calls_le. cbn [trace fst upstream_calls filter]. fold (upstream_calls log).
  rewrite Hlog. repeat constructor.
Qed.

Lemma calls_le_ak_call w fn args : calls_le 1 (ak_call w fn args).
Proof. unfold ak_call. destruct (ak w fn args); repeat constructor. Qed.

(** Closes [calls_le 0 m] for what follows the upstream call. *)
Ltac prove_no_call :=
  repeat first
    [ apply calls_le_send
    | apply calls_le_print
    | apply calls_le_print_raw
    | apply calls_le_traceless; first [apply trace_select_eq | solve [prove_traceless]]
    | apply (calls_le_try 0 0); [|intros]
    | apply (calls_le_bind 0 0); [|intros]
    | match goal with
      | |- calls_le 0 (if ?b then _ else _) => destruct b
      | |- calls_le 0 (match ?x with _ => _ end) => destruct x
      end ].

(** Closes [calls_le 1 m] for a handler or a command. *)
Ltac prove_one_call :=
  first
    [ apply calls_le_weaken; solve [prove_no_call]
    | apply (calls_le_bind 1 0);
        [ first [apply calls_le_astock_curl | apply calls_le_service_curl] | intros; prove_no_call ]
    | apply (calls_le_try 1 0);
        [ apply (calls_le_bind 1 0); [apply calls_le_ak_call | intros; prove_no_call]
        | intros; prove_no_call ] ].

Lemma query_one_call lib clk w fn args limit record :
  (forall r, trace (record r) = []) ->
  calls_le 1 (DataQuery.query lib clk w fn args limit record).
Proof.
  intros Hrec. rewrite (query_cases _ _ _ _ _ _ _ Hrec). repeat constructor.
Qed.

(** X2. No retry and no second source: handling one request, or running one
    command, calls the upstream at most once, in all four scripts and for
    every upstream outcome. *)
Theorem at_most_one_upstream_call (lib : PyLib) (clk : Clock) (w : World)
        (req : Request) (argv : list string) :
  calls_le 1 (AstockService.do_GET lib clk w req) /\
  calls_le 1 (AkshareService.do_GET lib clk w req) /\
  calls_le 1 (Astock.main lib w argv) /\
  calls_le 1 (DataQuery.main lib clk w argv).
Proof.
  split; [|split; [|split]].
  - unfold AstockService.do_GET.
    repeat match goal with |- calls_le _ (if ?b then _ else _) => destruct b end;
      unfold AstockService.health_handler, AstockService.index_handler,
        AstockService.stock_handler, AstockService.concept_handler,
        AstockService.industry_handler, AstockService.board_handler,
        AstockService.unknown_handler;
      prove_one_call.
  - unfold AkshareService.do_GET.
    repeat match goal with |- calls_le _ (if ?b then _ else _) => destruct b end;
      unfold AkshareService.health_handler, AkshareService.realtime_all_handler,
        AkshareService.index_handler, AkshareService.news_handler,
        AkshareService.concept_handler, AkshareService.industry_handler,
        AkshareService.list_handler, AkshareService.stock_handler,
        AkshareService.unknown_handler, AkshareService.on_error;
      prove_one_call.
  - unfold Astock.main.
    repeat match goal with |- calls_le _ (if ?b then _ else _) => destruct b end;
      unfold Astock.get_index, Astock.get_stock, Astock.get_concept,
        Astock.get_industry, Astock.get_board;
      prove_one_call.
  - unfold DataQuery.main. apply (calls_le_bind 1 0); [|intros; apply calls_le_print].
    unfold DataQuery.response.
    repeat match goal with |- calls_le _ (if ?b then _ else _) => destruct b end;
      try (apply query_one_call; prove_traceless).
    + unfold DataQuery.get_futures_realtime.
      destruct (negb _); apply query_one_call; prove_traceless.
    + apply calls_le_weaken, calls_le_traceless. reflexivity.
Qed.

(** ** Paths that no branch takes *)

(** X3. A path that no test of the dispatcher accepts is answered with the
    object [{"error": "Unknown endpoint"}] and no upstream call: with status
    200 by astock_service.py (a path other than [/health] that contains none
    of [/index], [/stock/realtime/], [/concept], [/industry]), with status
    404 by akshare_service.py (a path other than [/health] that starts with
    none of its five prefixes). *)
Theorem unknown_endpoint (lib : PyLib) (clk : Clock) (w : World) (req : Request) :
  (path req <> "/health" ->
   contains "/index" (path req) = false ->
   contains "/stock/realtime/" (path req) = false ->
   contains "/concept" (path req) = false ->
   contains "/industry" (path req) = false ->
   trace (AstockService.do_GET lib clk w req)
   = [Stdout ("[" ++ log_stamp clk ++ "] " ++ requestline req);
      Response 200 (PDict [("error", PStr "Unknown endpoint")])]) /\
  (path req <> "/health" ->
   startswith (path req) "/stock/realtime/" = false ->
   startswith (path req) "/stock/index/realtime" = false ->
   startswith (path req) "/stock/news" = false ->
   startswith (path req) "/stock/concept" = false ->
   startswith (path req) "/stock/industry" = false ->
   trace (AkshareService.do_GET lib clk w req)
   = [Stdout ("[" ++ log_stamp clk ++ "] " ++ requestline req);
      Response 404 (PDict [("error", PStr "Unknown endpoint")])]).
Proof.
  unfold AstockService.do_GET, AkshareService.do_GET, startswith.
  destruct req as [line p]; cbn [path requestline]. split.
  - intros Hp Hi Hr Hc Hd. apply String.eqb_neq in Hp. rewrite Hp, Hi, Hr, Hc, Hd.
    destruct (String.eqb_spec p "/stock/index/realtime") as [->|_]; [discriminate|].
    destruct (String.eqb_spec p "/stock/concept") as [->|_]; [discriminate|].
    destruct (String.eqb_spec p "/stock/industry") as [->|_]; [discriminate|].
    reflexivity.
  - intros Hp Hr Hi Hn Hc Hd. apply String.eqb_neq in Hp. rewrite Hp, Hr, Hi, Hn, Hc, Hd.
    destruct (String.prefix "/stock/realtime/all" p) eqn:Hall; [|reflexivity].
    destruct (prefix_app _ _ Hall) as [r ->]. discriminate Hr.
Qed.

(** The path [/v1/quotes] at both services. *)
Lemma unknown_endpoint_witness :
  trace (AstockService.do_GET Json.lib Fixture.clock_a Fixture.two_sources
           (Fixture.GET "/v1/quotes"))
  = [Stdout ("[" ++ "2026-03-02 10:00:00" ++ "] " ++ "GET /v1/quotes HTTP/1.1");
     Response 200 (PDict [("error", PStr "Unknown endpoint")])] /\
  trace (AkshareService.do_GET Json.lib Fixture.clock_a Fixture.two_sources
           (Fixture.GET "/v1/quotes"))
  = [Stdout ("[" ++ "2026-03-02 10:00:00" ++ "] " ++ "GET /v1/quotes HTTP/1.1");
     Response 404 (PDict [("error", PStr "Unknown endpoint")])].
Proof.
  split.
  - apply (proj1 (unknown_endpoint Json.lib Fixture.clock_a Fixture.two_sources
                    (Fixture.GET "/v1/quotes"))); [discriminate | reflexivity ..].
  - apply (proj2 (unknown_endpoint Json.lib Fixture.clock_a Fixture.two_sources
                    (Fixture.GET "/v1/quotes"))); [discriminate | reflexivity ..].
Defined.

(** ** Placeholders of astock_service.py *)

Lemma responses_after_service_curl argv log t :
  responses log = [] -> responses ((Subprocess argv :: log) ++ t) = responses t.
Proof.
  intros H. change (responses ((Subprocess argv :: log) ++ t)) with (responses (log ++ t)).
  rewrite responses_app, H. reflexivity.
Qed.

(** A branch of astock_service.py whose fetch failed sends its placeholder. *)
Lemma service_branch_falls_back lib clk w req url placeholder (k : pyval -> M unit) :
  encodable placeholder = true ->
  service_fetch_failed lib w url ->
  responses (trace (data <- AstockService.curl_get lib w url ;;
                    if no_data data then send_json clk req placeholder 200
                    else try_except (obj <- py_json_loads lib (text_of data) ;; k obj)
                                    (fun _ => send_json clk req placeholder 200)))
  = [(200, placeholder)].
Proof.
  intros Henc Hfail.
  destruct (service_curl_get_eq lib w url) as (log & -> & Hlog & _).
  unfold bind at 1.
  destruct Hfail as [Hnd|(text & Hf & Hne & Hl)].
  - rewrite Hnd, (send_json_sent _ _ _ _ Henc). cbn [trace fst].
    rewrite (responses_after_service_curl _ _ _ Hlog). reflexivity.
  - rewrite Hf. cbn [no_data text_of]. rewrite Hne.
    unfold py_json_loads. rewrite Hl, raise_bind. cbn [raise try_except app].
    rewrite (send_json_sent _ _ _ _ Henc). cbn [trace fst].
    etransitivity; [apply (responses_after_service_curl _ _ _ Hlog) | reflexivity].
Qed.

(** X4. When the fetch failed (the transfer tool raised, wrote nothing, or
    wrote a text that is not JSON), each data endpoint of astock_service.py
    answers with status 200 and its placeholder, not with an error: the one
    index 上证指数, the quote 股票 at price 10.0 for the symbol asked (a
    symbol that UTF-8 can encode, as every part of a request path is), the
    two boards of [/stock/concept], the two of [/stock/industry]. *)
Theorem service_falls_back (lib : PyLib) (clk : Clock) (w : World)
        (line : string) (req : Request) :
  (service_fetch_failed lib w AstockService.index_url ->
   responses (trace (AstockService.do_GET lib clk w
                       {| requestline := line; path := "/stock/index/realtime" |}))
   = [(200, PList [PDict [("symbol", PStr "000001"); ("name", PStr "上证指数");
                          ("price", PInt 3388); ("change", PFloat 0.5)]])]) /\
  (service_fetch_failed lib w
     (AstockService.stock_url (last_item (split "/" (path req)))) ->
   str_encodable (last_item (split "/" (path req))) = true ->
   responses (trace (AstockService.stock_handler lib clk w req))
   = [(200, PDict [("symbol", PStr (last_item (split "/" (path req))));
                   ("name", PStr "股票");
                   ("price", PFloat 10.0); ("change", PFloat 0.0)])]) /\
  (service_fetch_failed lib w AstockService.concept_url ->
   responses (trace (AstockService.do_GET lib clk w
                       {| requestline := line; path := "/stock/concept" |}))
   = [(200, PList [PDict [("name", PStr "人工智能"); ("change", PFloat 3.25)];
                   PDict [("name", PStr "芯片概念"); ("change", PFloat 2.18)]])]) /\
  (service_fetch_failed lib w AstockService.industry_url ->
   responses (trace (AstockService.do_GET lib clk w
                       {| requestline := line; path := "/stock/industry" |}))
   = [(200, PList [PDict [("name", PStr "电子元件"); ("change", PFloat 1.85)];
                   PDict [("name", PStr "软件服务"); ("change", PFloat 1.62)]])]).
Proof.
  refine (conj _ (conj _ (conj _ _))); intros Hfail.
  - change (AstockService.do_GET lib clk w {| requestline := line; path := "/stock/index/realtime" |})
      with (AstockService.index_handler lib clk w
              {| requestline := line; path := "/stock/index/realtime" |}).
    unfold AstockService.index_handler.
    apply (service_branch_falls_back lib clk w _ _ AstockService.index_placeholder _
             eq_refl Hfail).
  - intros Hsym. unfold AstockService.stock_handler. cbv zeta.
    apply (service_branch_falls_back lib clk w req _
             (AstockService.stock_placeholder (last_item (split "/" (path req)))) _);
      [rewrite encodable_stock_placeholder; exact Hsym | exact Hfail].
  - change (AstockService.do_GET lib clk w {| requestline := line; path := "/stock/concept" |})
      with (AstockService.board_handler lib clk w
              {| requestline := line; path := "/stock/concept" |}
              AstockService.concept_url AstockService.concept_placeholder).
    unfold AstockService.board_handler.
    apply (service_branch_falls_back lib clk w _ _ AstockService.concept_placeholder _
             eq_refl Hfail).
  - change (AstockService.do_GET lib clk w {| requestline := line; path := "/stock/industry" |})
      with (AstockService.board_handler lib clk w
              {| requestline := line; path := "/stock/industry" |}
              AstockService.industry_url AstockService.industry_placeholder).
    unfold AstockService.board_handler.
    apply (service_branch_falls_back lib clk w _ _ AstockService.industry_placeholder _
             eq_refl Hfail).
Qed.

(** The transfer tool out of reach, and a body cut short. *)
Lemma service_falls_back_witness :
  responses (trace (AstockService.do_GET Json.lib Fixture.clock_a Fixture.unreachable
                      {| requestline := "GET /stock/index/realtime HTTP/1.1";
                         path := "/stock/index/realtime" |}))
  = [(200, PList [PDict [("symbol", PStr "000001"); ("name", PStr "上证指数");
                         ("price", PInt 3388); ("change", PFloat 0.5)]])] /\
  responses (trace (AstockService.stock_handler Json.lib Fixture.clock_a Fixture.cut_short
                      (Fixture.GET "/stock/realtime/600000")))
  = [(200, PDict [("symbol", PStr (last_item (split "/" "/stock/realtime/600000")));
                  ("name", PStr "股票");
                  ("price", PFloat 10.0); ("change", PFloat 0.0)])].
Proof.
  split.
  - apply (proj1 (service_falls_back Json.lib Fixture.clock_a Fixture.unreachable
                    "GET /stock/index/realtime HTTP/1.1" (Fixture.GET "/"))).
    left. reflexivity.
  - apply (proj1 (proj2 (service_falls_back Json.lib Fixture.clock_a Fixture.cut_short
                           "GET / HTTP/1.1" (Fixture.GET "/stock/realtime/600000"))));
      [|reflexivity].
    right. exists Fixture.partial_body. repeat split.
Defined.

(** ** The data library out of reach *)

Lemma list_handler_library_raises lib clk w req fn limit record e :
  ak w fn [] = inr e ->
  plain lib e ->
  responses (trace (AkshareService.list_handler lib clk w req fn limit record))
  = [(500, error_object (exn_str lib e))].
Proof.
  intros Hak He. unfold AkshareService.list_handler.
  rewrite (ak_call_raises _ _ _ _ Hak). cbn [bind try_except].
  rewrite (on_error_sent _ _ _ _ He). reflexivity.
Qed.

Lemma stock_handler_library_raises lib clk w req e :
  ak w "stock_zh_a_spot_em" [] = inr e ->
  plain lib e ->
  responses (trace (AkshareService.stock_handler lib clk w req))
  = [(500, error_object (exn_str lib e))].
Proof.
  intros Hak He. unfold AkshareService.stock_handler.
  rewrite (ak_call_raises _ _ _ _ Hak). cbn [bind try_except].
  rewrite (on_error_sent _ _ _ _ He). reflexivity.
Qed.

(** X5. When every call of the data library raises the exception [e],
    akshare_service.py answers each of its data endpoints (a path under one
    of its five prefixes) with status 500 and the object whose [error]
    field is [str(e)], a text taken to be one that UTF-8 can encode: no
    placeholder data and no partial list. *)
Theorem library_failure_is_500 (lib : PyLib) (clk : Clock) (w : World)
        (req : Request) (e : exn) :
  (forall fn args, ak w fn args = inr e) ->
  str_encodable (exn_str lib e) = true ->
  startswith (path req) "/stock/realtime/" = true \/
  startswith (path req) "/stock/index/realtime" = true \/
  startswith (path req) "/stock/news" = true \/
  startswith (path req) "/stock/concept" = true \/
  startswith (path req) "/stock/industry" = true ->
  responses (trace (AkshareService.do_GET lib clk w req))
  = [(500, PDict [("error", PStr (exn_str lib e))])].
Proof.
  intros Hdown Hplain Hpath. unfold AkshareService.do_GET, startswith in *.
  destruct (String.eqb_spec (path req) "/health") as [Heq|_].
  { rewrite Heq in Hpath. destruct Hpath as [H|[H|[H|[H|H]]]]; discriminate H. }
  destruct (String.prefix "/stock/realtime/all" (path req));
    [apply list_handler_library_raises; [apply Hdown | exact Hplain]|].
  destruct (String.prefix "/stock/index/realtime" (path req)) eqn:Hi;
    [apply list_handler_library_raises; [apply Hdown | exact Hplain]|].
  destruct (String.prefix "/stock/news" (path req)) eqn:Hn;
    [apply list_handler_library_raises; [apply Hdown | exact Hplain]|].
  destruct (String.prefix "/stock/concept" (path req)) eqn:Hc;
    [apply list_handler_library_raises; [apply Hdown | exact Hplain]|].
  destruct (String.prefix "/stock/industry" (path req)) eqn:Hd;
    [apply list_handler_library_raises; [apply Hdown | exact Hplain]|].
  destruct (String.prefix "/stock/realtime/" (path req)) eqn:Hr;
    [apply stock_handler_library_raises; [apply Hdown | exact Hplain]|].
  destruct Hpath as [H|[H|[H|[H|H]]]]; discriminate H.
Qed.

(** The news endpoint and a single quote with the library down. *)
Lemma library_failure_is_500_witness :
  responses (trace (AkshareService.do_GET Json.lib Fixture.clock_a Sample.library_down
                      (Fixture.GET "/stock/news")))
  = [(500, PDict [("error", PStr (exn_str Json.lib
                                    (RaisedBy "akshare" "Connection aborted.")))])] /\
  responses (trace (AkshareService.do_GET Json.lib Fixture.clock_a Sample.library_down
                      (Fixture.GET "/stock/realtime/600000")))
  = [(500, PDict [("error", PStr (exn_str Json.lib
                                    (RaisedBy "akshare" "Connection aborted.")))])].
Proof.
  split.
  - apply (library_failure_is_500 Json.lib Fixture.clock_a Sample.library_down
             (Fixture.GET "/stock/news") (RaisedBy "akshare" "Connection aborted."));
      [intros fn args; reflexivity | reflexivity | right; right; left; reflexivity].
  - apply (library_failure_is_500 Json.lib Fixture.clock_a Sample.library_down
             (Fixture.GET "/stock/realtime/600000") (RaisedBy "akshare" "Connection aborted."));
      [intros fn args; reflexivity | reflexivity | left; reflexivity].
Defined.

(** ** Exceptions of the interpreter *)

Lemma builtin_plain (lib : PyLib) (e : exn) : builtin e -> plain lib e.
Proof. destruct e; intros H; try apply builtin_msg_encodable. destruct H. Qed.

Lemma builtin_only_ret {A} (a : A) : builtin_only (ret a).
Proof. intros e H. discriminate H. Qed.

Lemma builtin_only_raise {A} (e : exn) : builtin e -> builtin_only (@raise A e).
Proof. intros He e' H. injection H as <-. exact He. Qed.

Lemma builtin_only_bind {A B} (m : M A) (k : A -> M B) :
  builtin_only m -> (forall a, builtin_only (k a)) -> builtin_only (bind m k).
Proof.
  unfold builtin_only, outcome, bind. destruct m as [t [a|e]]; cbn [snd]; intros Hm Hk e' H.
  - specialize (Hk a). destruct (k a) as [t' r]. apply Hk. exact H.
  - injection H as <-. apply Hm. reflexivity.
Qed.

Lemma builtin_only_mapM {A B} (f : A -> M B) (l : list A) :
  (forall a, builtin_only (f a)) -> builtin_only (mapM f l).
Proof.
  intros Hf. induction l as [|a l IH]; [apply builtin_only_ret|]. cbn [mapM].
  apply builtin_only_bind; [apply Hf|]. intros b.
  apply builtin_only_bind; [apply IH|]. intros bs. apply builtin_only_ret.
Qed.

Lemma builtin_only_float_of_number op n : builtin_only (float_of_number op n).
Proof.
  destruct n as [z|f]; cbn; [|apply builtin_only_ret].
  destruct (SF_is_finite _); [apply builtin_only_ret | apply builtin_only_raise; exact I].
Qed.

Lemma builtin_only_py_float lib v : builtin_only (py_float lib v).
Proof.
  destruct v as [|b|z|f|text|l|d]; cbn;
    try (apply builtin_only_raise; exact I); try apply builtin_only_ret.
  - apply (builtin_only_float_of_number "float" (inl (if b then 1 else 0))).
  - apply (builtin_only_float_of_number "float" (inl z)).
  - destruct (float_of_str lib text); [apply builtin_only_ret | apply builtin_only_raise; exact I].
Qed.

Lemma builtin_only_float_if lib v dflt : builtin_only (float_if lib v dflt).
Proof.
  unfold float_if. destruct (truthy v); [|apply builtin_only_ret].
  apply builtin_only_bind; [apply builtin_only_py_float | intros; apply builtin_only_ret].
Qed.

Lemma builtin_only_float_field lib r k dflt : builtin_only (float_field lib r k dflt).
Proof.
  unfold float_field. destruct (truthy _); [|apply builtin_only_ret].
  apply builtin_only_bind; [apply builtin_only_py_float | intros; apply builtin_only_ret].
Qed.

Lemma builtin_only_select_eq df col symbol : builtin_only (select_eq df col symbol).
Proof.
  unfold select_eq. destruct (existsb _ _);
    [apply builtin_only_ret | apply builtin_only_raise; exact I].
Qed.

(** Closes [builtin_only m] for a record of akshare_service.py. *)
Ltac prove_builtin_only :=
  repeat first
    [ apply builtin_only_ret
    | apply builtin_only_float_if
    | apply builtin_only_float_field
    | apply builtin_only_select_eq
    | apply builtin_only_mapM; intros
    | apply builtin_only_bind; [|intros] ].

Lemma builtin_only_quote_record lib r : builtin_only (AkshareService.quote_record lib r).
Proof. unfold AkshareService.quote_record. prove_builtin_only. Qed.

Lemma builtin_only_board_record lib r : builtin_only (AkshareService.board_record lib r).
Proof. unfold AkshareService.board_record. prove_builtin_only. Qed.

Lemma builtin_only_news_record lib r : builtin_only (AkshareService.news_record lib r).
Proof. unfold AkshareService.news_record. prove_builtin_only. Qed.

Lemma builtin_only_stock_record lib symbol r :
  builtin_only (AkshareService.stock_record lib symbol r).
Proof. unfold AkshareService.stock_record. prove_builtin_only. Qed.

Lemma status_lines_app (t t' : list event) :
  status_lines (t ++ t') = (status_lines t ++ status_lines t')%list.
Proof. apply flat_map_app. Qed.

(** ** The single quote of akshare_service.py *)

Lemma existsb_eqb_not_In (k : string) (l : list string) :
  ~ In k l -> existsb (String.eqb k) l = false.
Proof.
  intros H. destruct (existsb (String.eqb k) l) eqn:E; [|reflexivity].
  apply existsb_exists in E. destruct E as (x & Hx & Heq).
  apply String.eqb_eq in Heq. subst x. contradiction.
Qed.

(** X6. The single-quote branch of akshare_service.py, once the snapshot
    call returned a table, for the symbol [s] that ends the path. A table
    without a 代码 column is answered with status 500 (the [KeyError]), not
    404. When rows have the code [s], the quote is built from the first of
    them; it is sent with status 200 if UTF-8 can encode it; if it cannot
    (a name with a lone surrogate), the status line 200 and the headers
    have gone out when the encoding raises, and a second answer follows,
    status 500 with the text of that exception; and if building the quote
    raises (a cell that [float] rejects) the one answer is status 500 with
    that exception. *)
Theorem single_quote_from_snapshot (lib : PyLib) (clk : Clock) (w : World)
        (req : Request) (df : DataFrame) :
  ak w "stock_zh_a_spot_em" [] = inl df ->
  (~ In "代码" (df_columns df) ->
   responses (trace (AkshareService.stock_handler lib clk w req))
   = [(500, PDict [("error", PStr (exn_str lib (KeyError "代码")))])]) /\
  (forall cells rest,
      In "代码" (df_columns df) ->
      filter (fun cells =>
                cell_is (last_item (split "/" (path req)))
                        (row_get (combine (df_columns df) cells) "代码" PNone))
             (df_rows df) = cells :: rest ->
      responses (trace (AkshareService.stock_handler lib clk w req))
      = [match outcome (AkshareService.stock_record lib (last_item (split "/" (path req)))
                          (combine (df_columns df) cells)) with
         | inl quote =>
             if encodable quote then (200, quote)
             else (500, PDict [("error", PStr (exn_str lib (UnicodeEncodeError quote)))])
         | inr e => (500, PDict [("error", PStr (exn_str lib e))])
         end] /\
      status_lines (trace (AkshareService.stock_handler lib clk w req))
      = match outcome (AkshareService.stock_record lib (last_item (split "/" (path req)))
                         (combine (df_columns df) cells)) with
        | inl quote => if encodable quote then [200] else [200; 500]
        | inr _ => [500]
        end).
Proof.
  intros Hak. unfold AkshareService.stock_handler. cbv zeta.
  rewrite (ak_call_returns _ _ _ _ Hak). cbn [bind]. unfold select_eq. split.
  - intros Hcol. rewrite (existsb_eqb_not_In _ _ Hcol), raise_bind.
    cbn [raise try_except app].
    rewrite on_error_sent by apply builtin_msg_encodable. reflexivity.
  - intros cells rest Hcol Hrows. rewrite (existsb_eqb_In _ _ Hcol), Hrows, bind_ret_l.
    unfold empty, iterrows. cbn [df_columns df_rows map].
    destruct (df_columns df) as [|c cols] eqn:Hc; [destruct Hcol|].
    rewrite (bind_pure _ _ (trace_akshare_stock_record lib _ (combine (c :: cols) cells))).
    pose proof (builtin_only_stock_record lib (last_item (split "/" (path req)))
                  (combine (c :: cols) cells)) as Hb.
    destruct (outcome (AkshareService.stock_record lib _ (combine (c :: cols) cells)))
      as [quote|e] eqn:Ho.
    + destruct (encodable quote) eqn:Henc.
      * rewrite (send_json_sent _ _ _ _ Henc). split; reflexivity.
      * rewrite (send_json_cut _ _ _ _ Henc). cbn [try_except app].
        rewrite on_error_unencodable. split; reflexivity.
    + cbn [try_except app].
      rewrite on_error_sent by exact (builtin_plain lib e (Hb e Ho)).
      split; reflexivity.
Qed.

(** The snapshot of two stocks asked for 600000, a table without the code
    column, and a snapshot whose name for 600000 holds a lone surrogate:
    two status lines, 200 and then 500. *)
Lemma single_quote_from_snapshot_witness :
  responses (trace (AkshareService.stock_handler Json.lib Fixture.clock_a
                      (Fixture.ak_world (inl Fixture.snapshot))
                      (Fixture.GET "/stock/realtime/600000")))
  = [(200, PDict [("symbol", PStr "600000"); ("name", PStr "浦发银行");
                  ("price", PFloat 10.5); ("change", PFloat 1.2);
                  ("volume", PFloat 1000)])] /\
  responses (trace (AkshareService.stock_handler Json.lib Fixture.clock_a
                      (Fixture.ak_world (inl Sample.unlabelled))
                      (Fixture.GET "/stock/realtime/600000")))
  = [(500, PDict [("error", PStr (exn_str Json.lib (KeyError "代码")))])] /\
  status_lines (trace (AkshareService.stock_handler Json.lib Fixture.clock_a
                         (Fixture.ak_world (inl Sample.garbled))
                         (Fixture.GET "/stock/realtime/600000")))
  = [200; 500].
Proof.
  refine (conj _ (conj _ _)).
  - apply (proj1 (proj2 (single_quote_from_snapshot Json.lib Fixture.clock_a
                           (Fixture.ak_world (inl Fixture.snapshot))
                           (Fixture.GET "/stock/realtime/600000") Fixture.snapshot eq_refl)
                    [PStr "600000"; PStr "浦发银行"; PFloat 10.5; PFloat 1.2; PFloat 1000] []
                    (or_introl eq_refl) eq_refl)).
  - apply (proj1 (single_quote_from_snapshot Json.lib Fixture.clock_a
                    (Fixture.ak_world (inl Sample.unlabelled))
                    (Fixture.GET "/stock/realtime/600000") Sample.unlabelled eq_refl)).
    intros [H|[H|[]]]; discriminate H.
  - apply (proj2 (proj2 (single_quote_from_snapshot Json.lib Fixture.clock_a
                           (Fixture.ak_world (inl Sample.garbled))
                           (Fixture.GET "/stock/realtime/600000") Sample.garbled eq_refl)
                    [PStr "600000"; PStr Sample.lone_surrogate; PFloat 10.5; PFloat 1.2;
                     PFloat 1000] []
                    (or_introl eq_refl) eq_refl)).
Defined.

(** ** The records of a list are those of the first rows, in order *)

Lemma mapM_Forall2 {A B} (f : A -> M B) (l : list A) (bs : list B) :
  outcome (mapM f l) = inl bs ->
  Forall2 (fun a b => outcome (f a) = inl b) l bs.
Proof.
  revert bs. induction l as [|a l IH]; cbn [mapM]; intros bs H.
  - injection H as <-. constructor.
  - apply bind_outcome_inv in H. destruct H as (b & Hb & H).
    apply bind_outcome_inv in H. destruct H as (bs' & Hbs & H).
    injection H as <-. constructor; [exact Hb | apply IH, Hbs].
Qed.

Lemma iterrows_head (n : nat) (df : DataFrame) :
  iterrows (head n df) = firstn n (iterrows df).
Proof. unfold iterrows, head. cbn [df_columns df_rows]. symmetry. apply firstn_map. Qed.

Lemma length_firstn_iterrows (n : nat) (df : DataFrame) :
  List.length (firstn n (iterrows df)) = Nat.min n (List.length (df_rows df)).
Proof. unfold iterrows. rewrite length_firstn, length_map. reflexivity. Qed.

(** X7. The quote lists keep the upstream order and drop nothing but the
    tail: when [/stock/realtime/all] of akshare_service.py answers with a
    list, or the [stock] command of data_query.py returns a data list, its
    records are, one for one and in order, the records of the first 100
    rows of the snapshot, so there are [min 100 rows] of them. *)
Theorem quote_list_follows_rows (lib : PyLib) (clk : Clock) (w : World)
        (line prog : string) (df : DataFrame) (l : list pyval) :
  ak w "stock_zh_a_spot_em" [] = inl df ->
  (responses (trace (AkshareService.do_GET lib clk w
                       {| requestline := line; path := "/stock/realtime/all" |}))
   = [(200, PList l)] ->
   Forall2 (fun r q => outcome (AkshareService.quote_record lib r) = inl q)
           (firstn 100 (iterrows df)) l /\
   List.length l = Nat.min 100 (List.length (df_rows df))) /\
  (outcome (DataQuery.response lib clk w [prog; "stock"])
   = inl (DataQuery.success_response clk (PList l)) ->
   Forall2 (fun r q => outcome (DataQuery.a_stock_record lib r) = inl q)
           (firstn 100 (iterrows df)) l /\
   List.length l = Nat.min 100 (List.length (df_rows df))).
Proof.
  intros Hak. split.
  - change (AkshareService.do_GET lib clk w {| requestline := line; path := "/stock/realtime/all" |})
      with (AkshareService.list_handler lib clk w
              {| requestline := line; path := "/stock/realtime/all" |}
              "stock_zh_a_spot_em" 100 (AkshareService.quote_record lib)).
    rewrite (list_handler_cases _ _ _ _ _ _ _ (trace_akshare_quote_record lib)), Hak.
    rewrite iterrows_head.
    destruct (outcome (mapM _ _)) as [records|e] eqn:Hm.
    + destruct (encodable (PList records)); intros H; [|discriminate H].
      injection H as <-. apply mapM_Forall2 in Hm. split; [exact Hm|].
      rewrite <- (Forall2_length Hm). apply length_firstn_iterrows.
    + rewrite responses_after_call. destruct (str_encodable _); intros H; discriminate H.
  - change (DataQuery.response lib clk w [prog; "stock"])
      with (DataQuery.query lib clk w "stock_zh_a_spot_em" [] (Some 100%nat)
              (DataQuery.a_stock_record lib)).
    rewrite (query_cases _ _ _ _ _ _ _ (trace_dq_a_stock_record lib)), Hak.
    rewrite iterrows_head. cbn [outcome snd].
    destruct (outcome (mapM _ _)) as [records|e] eqn:Hm; intros H; [|discriminate H].
    injection H as <-. apply mapM_Forall2 in Hm. split; [exact Hm|].
    rewrite <- (Forall2_length Hm). apply length_firstn_iterrows.
Qed.

(** The snapshot of two stocks at both handlers. *)
Lemma quote_list_follows_rows_witness :
  (Forall2 (fun r q => outcome (AkshareService.quote_record Json.lib r) = inl q)
           (firstn 100 (iterrows Fixture.snapshot))
           [PDict [("symbol", PStr "600000"); ("name", PStr "浦发银行");
                   ("price", PFloat 10.5); ("change", PFloat 1.2)];
            PDict [("symbol", PStr "000001"); ("name", PStr "平安银行");
                   ("price", PInt 0); ("change", PInt 0)]] /\
   List.length
     [PDict [("symbol", PStr "600000"); ("name", PStr "浦发银行");
             ("price", PFloat 10.5); ("change", PFloat 1.2)];
      PDict [("symbol", PStr "000001"); ("name", PStr "平安银行");
             ("price", PInt 0); ("change", PInt 0)]]
   = Nat.min 100 (List.length (df_rows Fixture.snapshot))).
Proof.
  apply (proj1 (quote_list_follows_rows Json.lib Fixture.clock_a
                  (Fixture.ak_world (inl Fixture.snapshot))
                  "GET /stock/realtime/all HTTP/1.1" "data_query.py" Fixture.snapshot
                  _ eq_refl)).
  reflexivity.
Defined.

(** ** News *)

(** X8. The news handlers coerce no cell to a number, so building the
    items cannot fail once the library has answered: there is one item for
    each of the first 10 rows in akshare_service.py and for each of the
    first 20 in data_query.py, a missing title or source being the empty
    str and the time [str] of the cell. The [news] command of data_query.py
    always returns the success payload of these items. akshare_service.py
    answers [/stock/news] with status 200 and the items when UTF-8 can
    encode them; when it cannot (a title with a lone surrogate), the status
    line 200 has gone out alone and a second answer follows, status 500
    with the text of the encoding error. *)
Theorem news_items_follow_rows (lib : PyLib) (clk : Clock) (w : World)
        (line prog : string) (df : DataFrame) :
  let items :=
    PList (map (fun r =>
                  PDict [("title", row_get r "新闻标题" (PStr ""));
                         ("datetime", PStr (py_str lib (row_get r "发布时间" (PStr ""))))])
               (firstn 10 (iterrows df))) in
  ak w "stock_news_em" [] = inl df ->
  responses (trace (AkshareService.do_GET lib clk w
                      {| requestline := line; path := "/stock/news" |}))
  = [if encodable items then (200, items)
     else (500, error_object (exn_str lib (UnicodeEncodeError items)))] /\
  status_lines (trace (AkshareService.do_GET lib clk w
                         {| requestline := line; path := "/stock/news" |}))
  = (if encodable items then [200] else [200; 500]) /\
  outcome (DataQuery.response lib clk w [prog; "news"])
  = inl (PDict [("success", PBool true);
                ("data",
                 PList (map (fun r =>
                               PDict [("title", row_get r "新闻标题" (PStr ""));
                                      ("datetime",
                                       PStr (py_str lib (row_get r "发布时间" (PStr ""))));
                                      ("source", row_get r "文章来源" (PStr ""))])
                            (firstn 20 (iterrows df))));
                ("timestamp", PStr (isoformat clk));
                ("source", PStr "akshare")]).
Proof.
  intros items Hak.
  assert (Hsvc : AkshareService.do_GET lib clk w {| requestline := line; path := "/stock/news" |}
                 = if encodable items then
                     ([Ak "stock_news_em" []; Stdout ("[" ++ log_stamp clk ++ "] " ++ line);
                       Response 200 items], inl tt)
                   else
                     ([Ak "stock_news_em" []; Stdout ("[" ++ log_stamp clk ++ "] " ++ line);
                       HeadersOnly 200; Stdout ("[" ++ log_stamp clk ++ "] " ++ line);
                       Response 500 (error_object (exn_str lib (UnicodeEncodeError items)))],
                      inl tt)).
  { change (AkshareService.do_GET lib clk w {| requestline := line; path := "/stock/news" |})
      with (AkshareService.list_handler lib clk w
              {| requestline := line; path := "/stock/news" |}
              "stock_news_em" 10 (AkshareService.news_record lib)).
    rewrite (list_handler_cases _ _ _ _ _ _ _ (trace_akshare_news_record lib)), Hak.
    rewrite iterrows_head.
    rewrite (mapM_ret (AkshareService.news_record lib) _ _ (fun r => eq_refl)).
    reflexivity. }
  split; [|split].
  - rewrite Hsvc. destruct (encodable items); reflexivity.
  - rewrite Hsvc. destruct (encodable items); reflexivity.
  - change (DataQuery.response lib clk w [prog; "news"])
      with (DataQuery.query lib clk w "stock_news_em" [] (Some 20%nat)
              (DataQuery.news_record lib)).
    rewrite (query_cases _ _ _ _ _ _ _ (trace_dq_news_record lib)), Hak.
    rewrite iterrows_head.
    rewrite (mapM_ret (DataQuery.news_record lib) _ _ (fun r => eq_refl)).
    reflexivity.
Qed.

(** A news table of 25 items: 10 are sent, 20 are returned. And a table
    whose title holds a lone surrogate: two status lines, 200 and then 500. *)
Lemma news_items_follow_rows_witness :
  List.length
    (flat_map (fun r => match snd r with PList l => l | _ => [] end)
       (responses (trace (AkshareService.do_GET Json.lib Fixture.clock_a
                            (Fixture.ak_world (inl (Sample.news 25)))
                            {| requestline := "GET /stock/news HTTP/1.1";
                               path := "/stock/news" |})))) = 10%nat /\
  option_map (fun data => match data with PList l => List.length l | _ => 0%nat end)
    (match outcome (DataQuery.response Json.lib Fixture.clock_a
                      (Fixture.ak_world (inl (Sample.news 25)))
                      ["data_query.py"; "news"]) with
     | inl p => field "data" p
     | inr _ => None
     end) = Some 20%nat /\
  status_lines (trace (AkshareService.do_GET Json.lib Fixture.clock_a
                         (Fixture.ak_world (inl Sample.garbled_news))
                         {| requestline := "GET /stock/news HTTP/1.1";
                            path := "/stock/news" |}))
  = [200; 500].
Proof.
  destruct (news_items_follow_rows Json.lib Fixture.clock_a
              (Fixture.ak_world (inl (Sample.news 25)))
              "GET /stock/news HTTP/1.1" "data_query.py" (Sample.news 25) eq_refl)
    as (-> & _ & ->).
  destruct (news_items_follow_rows Json.lib Fixture.clock_a
              (Fixture.ak_world (inl Sample.garbled_news))
              "GET /stock/news HTTP/1.1" "data_query.py" Sample.garbled_news eq_refl)
    as (_ & -> & _).
  refine (conj _ (conj _ _)); reflexivity.
Defined.

(** ** The other commands of data_query.py *)

Lemma query_uncapped lib clk w fn args record df l :
  (forall r, trace (record r) = []) ->
  ak w fn args = inl df ->
  outcome (DataQuery.query lib clk w fn args None record)
  = inl (DataQuery.success_response clk (PList l)) ->
  List.length l = List.length (df_rows df).
Proof.
  intros Hrec Hak. rewrite (query_cases _ _ _ _ _ _ _ Hrec), Hak. cbn [outcome snd].
  destruct (outcome (mapM record (iterrows df))) as [result|e] eqn:Hm; intros H;
    [|discriminate H].
  injection H as <-. rewrite (mapM_length _ _ _ Hm). unfold iterrows. apply length_map.
Qed.

(** X9. The commands of data_query.py that C2 leaves out. [fundflow]
    returns at most 10 records, [futures] (with or without a symbol) at most
    20 and [etf] at most 30, or the error object. [kline], [gdp] and [cpi]
    have no limit: a success payload has exactly one record per row of the
    table the library returned. *)
Theorem other_commands_counts (lib : PyLib) (clk : Clock) (w : World)
        (prog a1 a2 : string) (df : DataFrame) (l : list pyval) :
  capped_payload 10 clk (DataQuery.response lib clk w [prog; "fundflow"; a1]) /\
  capped_payload 20 clk (DataQuery.response lib clk w [prog; "futures"; a1]) /\
  capped_payload 30 clk (DataQuery.response lib clk w [prog; "etf"]) /\
  (ak w "stock_zh_a_hist"
      [DataQuery.str_or a1 "000001"; DataQuery.str_or a2 "daily"; days_ago clk 30; "qfq"]
   = inl df ->
   outcome (DataQuery.response lib clk w [prog; "kline"; a1; a2])
   = inl (DataQuery.success_response clk (PList l)) ->
   List.length l = List.length (df_rows df)) /\
  (ak w "macro_china_gdp" [] = inl df ->
   outcome (DataQuery.response lib clk w [prog; "gdp"])
   = inl (DataQuery.success_response clk (PList l)) ->
   List.length l = List.length (df_rows df)) /\
  (ak w "macro_china_cpi" [] = inl df ->
   outcome (DataQuery.response lib clk w [prog; "cpi"])
   = inl (DataQuery.success_response clk (PList l)) ->
   List.length l = List.length (df_rows df)).
Proof.
  refine (conj _ (conj _ (conj _ (conj _ (conj _ _))))).
  - apply query_capped. prove_traceless.
  - change (DataQuery.response lib clk w [prog; "futures"; a1])
      with (DataQuery.get_futures_realtime lib clk w a1).
    unfold DataQuery.get_futures_realtime.
    destruct (negb _); apply query_capped; prove_traceless.
  - apply query_capped. prove_traceless.
  - apply query_uncapped. prove_traceless.
  - apply query_uncapped. prove_traceless.
  - apply query_uncapped. prove_traceless.
Qed.

(** A table of 40 quarters read by [gdp]. *)
Lemma other_commands_counts_witness :
  List.length (repeat (PDict [("quarter", PStr "2025年第4季度"); ("gdp", PFloat 1400000);
                              ("gdp_yoy", PFloat 5.0)]) 40)
  = List.length (df_rows (Sample.gdp 40)).
Proof.
  apply (proj1 (proj2 (proj2 (proj2 (proj2
           (other_commands_counts Json.lib Fixture.clock_a
              (Fixture.ak_world (inl (Sample.gdp 40)))
              "data_query.py" "" "" (Sample.gdp 40)
              (repeat (PDict [("quarter", PStr "2025年第4季度"); ("gdp", PFloat 1400000);
                              ("gdp_yoy", PFloat 5.0)]) 40))))))); reflexivity.
Defined.

(** ** The two spellings of a coerced field *)

(** [float(row.get(k, 0)) if row.get(k) else d] and
    [v = row.get(k)], [float(v) if v else d] compute the same. *)
Lemma float_field_is_float_if lib (r : row) (k : string) (d : pyval) :
  float_field lib r k d = float_if lib (row_get r k PNone) d.
Proof.
  unfold float_field, float_if, row_get. destruct (lookup k r); reflexivity.
Qed.

Lemma float_if_truthy_default lib v d d' :
  truthy v = true -> float_if lib v d = float_if lib v d'.
Proof. unfold float_if. intros ->. reflexivity. Qed.

(** X10. The two services of the same snapshot agree row by row: whenever
    akshare_service.py and the [stock] command of data_query.py both build a
    quote from a row, the two quotes have the same symbol, name and change,
    and the same price if the price cell is truthy; if it is falsy the
    first has price 0 and the second price null. *)
Theorem quotes_agree_across_scripts (lib : PyLib) (r : row) (q q' : pyval) :
  outcome (AkshareService.quote_record lib r) = inl q ->
  outcome (DataQuery.a_stock_record lib r) = inl q' ->
  field "symbol" q = field "symbol" q' /\
  field "name" q = field "name" q' /\
  field "change" q = field "change" q' /\
  (if truthy (row_get r "最新价" PNone)
   then field "price" q = field "price" q'
   else field "price" q = Some (PInt 0) /\ field "price" q' = Some PNone).
Proof.
  intros H H'. unfold AkshareService.quote_record in H. cbv zeta in H.
  unfold DataQuery.a_stock_record in H'.
  apply bind_outcome_inv in H. destruct H as (p & Hp & H).
  apply bind_outcome_inv in H. destruct H as (c & Hc & H). injection H as <-.
  apply bind_outcome_inv in H'. destruct H' as (p' & Hp' & H').
  apply bind_outcome_inv in H'. destruct H' as (c' & Hc' & H').
  repeat (apply bind_outcome_inv in H'; destruct H' as (? & _ & H')).
  injection H' as <-.
  rewrite float_field_is_float_if in Hp', Hc'.
  rewrite Hc in Hc'. injection Hc' as <-.
  cbn [field lookup String.eqb Ascii.eqb Bool.eqb].
  repeat split.
  destruct (truthy (row_get r "最新价" PNone)) eqn:Ht.
  - rewrite (float_if_truthy_default lib _ PNone (PInt 0) Ht) in Hp'.
    congruence.
  - rewrite (float_if_falsy lib _ (PInt 0) Ht) in Hp.
    rewrite (float_if_falsy lib _ PNone Ht) in Hp'.
    injection Hp as <-. injection Hp' as <-. split; reflexivity.
Qed.

(** The two rows of the snapshot, one with a price and one with price 0.0. *)
Lemma quotes_agree_across_scripts_witness :
  (field "price" (PDict [("symbol", PStr "600000"); ("name", PStr "浦发银行");
                         ("price", PFloat 10.5); ("change", PFloat 1.2)])
   = field "price" (PDict [("symbol", PStr "600000"); ("name", PStr "浦发银行");
                           ("price", PFloat 10.5); ("change", PFloat 1.2);
                           ("volume", PFloat 1000); ("amount", PStr "");
                           ("amplitude", PInt 0); ("high", PNone); ("low", PNone);
                           ("open", PNone); ("close", PNone)])) /\
  (field "price" (PDict [("symbol", PStr "000001"); ("name", PStr "平安银行");
                         ("price", PInt 0); ("change", PInt 0)]) = Some (PInt 0) /\
   field "price" (PDict [("symbol", PStr "000001"); ("name", PStr "平安银行");
                         ("price", PNone); ("change", PInt 0);
                         ("volume", PNone); ("amount", PStr "");
                         ("amplitude", PInt 0); ("high", PNone); ("low", PNone);
                         ("open", PNone); ("close", PNone)]) = Some PNone).
Proof.
  split.
  - exact (proj2 (proj2 (proj2
             (quotes_agree_across_scripts Json.lib
                (combine (df_columns Fixture.snapshot)
                         [PStr "600000"; PStr "浦发银行"; PFloat 10.5; PFloat 1.2; PFloat 1000])
                _ _ eq_refl eq_refl)))).
  - exact (proj2 (proj2 (proj2
             (quotes_agree_across_scripts Json.lib
                (combine (df_columns Fixture.snapshot)
                         [PStr "000001"; PStr "平安银行"; PFloat 0; PStr ""; PNone])
                _ _ eq_refl eq_refl)))).
Defined.

(** ** One cell that is no number *)

Lemma mapM_fails {A B} (f : A -> M B) (l : list A) (a : A) :
  In a l -> (exists e, outcome (f a) = inr e) -> exists e, outcome (mapM f l) = inr e.
Proof.
  intros Hin Hbad. induction l as [|x l IH]; [destruct Hin|]. cbn [mapM].
  unfold outcome, bind in *.
  destruct (f x) as [t [b|e]] eqn:Hx; cbn [snd]; [|exists e; reflexivity].
  destruct Hin as [->|Hin].
  - rewrite Hx in Hbad. destruct Hbad as [e He]. discriminate He.
  - destruct (IH Hin) as [e He]. destruct (mapM f l) as [t' [bs|e']]; cbn [snd] in *.
    + discriminate He.
    + exists e'. reflexivity.
Qed.

Lemma float_field_bad_str lib (r : row) (k s : string) (d : pyval) :
  row_get r k PNone = PStr s -> (s =? "")%string = false -> float_of_str lib s = None ->
  float_field lib r k d = raise (ValueError "float" (PStr s)).
Proof.
  intros Hcell Hne Hbad. rewrite float_field_is_float_if, Hcell.
  unfold float_if, py_float. cbn [truthy]. rewrite Hne, Hbad. reflexivity.
Qed.

(** X11. No partial list: if, among the first 100 rows of the snapshot, one
    price cell is a non-empty str that [float] rejects (the upstream's
    ["-"], say), the whole answer is the error: status 500 from
    [/stock/realtime/all] of akshare_service.py and a [success: false]
    payload from the [stock] command of data_query.py, however many good
    rows there are. *)
Theorem one_bad_cell_fails_the_list (lib : PyLib) (clk : Clock) (w : World)
        (line prog : string) (df : DataFrame) (r : row) (s : string) :
  ak w "stock_zh_a_spot_em" [] = inl df ->
  In r (firstn 100 (iterrows df)) ->
  row_get r "最新价" PNone = PStr s ->
  (s =? "")%string = false ->
  float_of_str lib s = None ->
  (exists msg,
      responses (trace (AkshareService.do_GET lib clk w
                          {| requestline := line; path := "/stock/realtime/all" |}))
      = [(500, PDict [("error", PStr msg)])]) /\
  (exists msg,
      outcome (DataQuery.response lib clk w [prog; "stock"])
      = inl (PDict [("success", PBool false); ("error", PStr msg);
                    ("timestamp", PStr (isoformat clk))])).
Proof.
  intros Hak Hin Hcell Hne Hbad. split.
  - change (AkshareService.do_GET lib clk w {| requestline := line; path := "/stock/realtime/all" |})
      with (AkshareService.list_handler lib clk w
              {| requestline := line; path := "/stock/realtime/all" |}
              "stock_zh_a_spot_em" 100 (AkshareService.quote_record lib)).
    rewrite (list_handler_cases _ _ _ _ _ _ _ (trace_akshare_quote_record lib)), Hak.
    rewrite iterrows_head.
    destruct (mapM_fails (AkshareService.quote_record lib) _ r Hin) as [e He].
    + exists (ValueError "float" (PStr s)).
      unfold AkshareService.quote_record. cbv zeta.
      rewrite <- float_field_is_float_if, (float_field_bad_str _ _ _ _ _ Hcell Hne Hbad).
      reflexivity.
    + rewrite He, responses_after_call.
      pose proof (builtin_only_mapM _ _ (builtin_only_quote_record lib) e He) as Hb.
      apply (builtin_plain lib) in Hb. unfold plain in Hb. rewrite Hb.
      eexists. reflexivity.
  - change (DataQuery.response lib clk w [prog; "stock"])
      with (DataQuery.query lib clk w "stock_zh_a_spot_em" [] (Some 100%nat)
              (DataQuery.a_stock_record lib)).
    rewrite (query_cases _ _ _ _ _ _ _ (trace_dq_a_stock_record lib)), Hak.
    rewrite iterrows_head. cbn [outcome snd].
    destruct (mapM_fails (DataQuery.a_stock_record lib) _ r Hin) as [e ->].
    + exists (ValueError "float" (PStr s)).
      unfold DataQuery.a_stock_record.
      rewrite (float_field_bad_str _ _ _ _ _ Hcell Hne Hbad). reflexivity.
    + eexists. reflexivity.
Qed.

(** A snapshot whose second row has the price ["-"]. *)
Lemma one_bad_cell_fails_the_list_witness :
  (exists msg,
      responses (trace (AkshareService.do_GET Json.lib Fixture.clock_a
                          (Fixture.ak_world (inl Sample.gaps))
                          {| requestline := "GET /stock/realtime/all HTTP/1.1";
                             path := "/stock/realtime/all" |}))
      = [(500, PDict [("error", PStr msg)])]) /\
  (exists msg,
      outcome (DataQuery.response Json.lib Fixture.clock_a
                 (Fixture.ak_world (inl Sample.gaps)) ["data_query.py"; "stock"])
      = inl (PDict [("success", PBool false); ("error", PStr msg);
                    ("timestamp", PStr (isoformat Fixture.clock_a))])).
Proof.
  apply (one_bad_cell_fails_the_list Json.lib Fixture.clock_a
           (Fixture.ak_world (inl Sample.gaps))
           "GET /stock/realtime/all HTTP/1.1" "data_query.py" Sample.gaps
           (combine (df_columns Sample.gaps)
                    [PStr "000001"; PStr "平安银行"; PStr "-"; PFloat 0.3]) "-").
  - reflexivity.
  - right. left. reflexivity.
  - reflexivity.
  - reflexivity.
  - reflexivity.
Defined.

(** ** The board lists of the command line and of the service *)

Lemma boards_agree lib clk w req url url' placeholder :
  encodable placeholder = true ->
  fetched w url = fetched_by_service w url' ->
  responses (trace (AstockService.board_handler lib clk w req url' placeholder))
  = map (fun payload => (200, payload))
        (printed (trace (Astock.get_board lib w url placeholder))).
Proof.
  intros Henc Hsame. unfold AstockService.board_handler, Astock.get_board.
  destruct (service_curl_get_eq lib w url') as (log & -> & Hlog & _).
  rewrite astock_curl_get_eq, Hsame.
  unfold bind at 1. unfold bind at 3.
  destruct (no_data (fetched_by_service w url')).
  { rewrite (send_json_sent _ _ _ _ Henc). cbn [trace fst].
    rewrite (responses_after_service_curl _ _ _ Hlog). reflexivity. }
  unfold py_json_loads.
  destruct (json_loads lib (text_of (fetched_by_service w url'))) as [obj|].
  - rewrite !bind_ret_l.
    rewrite !(bind_pure _ _ (trace_astock_board_records obj)).
    destruct (outcome (Astock.board_records obj)) as [records|e].
    + destruct (encodable (PList records)) eqn:Hr.
      * rewrite (send_json_sent _ _ _ _ Hr), (print_json_raw_printed _ Hr).
        cbn [try_except trace fst].
        rewrite (responses_after_service_curl _ _ _ Hlog). reflexivity.
      * rewrite (send_json_cut _ _ _ _ Hr), (print_json_raw_refused _ Hr).
        cbn [try_except]. rewrite (send_json_sent _ _ _ _ Henc). cbn [trace fst].
        rewrite (responses_after_service_curl _ _ _ Hlog). reflexivity.
    + cbn [try_except]. rewrite (send_json_sent _ _ _ _ Henc). cbn [trace fst].
      rewrite (responses_after_service_curl _ _ _ Hlog). reflexivity.
  - rewrite !raise_bind. cbn [raise try_except].
    rewrite (send_json_sent _ _ _ _ Henc). cbn [trace fst].
    rewrite (responses_after_service_curl _ _ _ Hlog). reflexivity.
Qed.



(** ** Responses without the expected fields *)

(** The commands of astock.py once the text fetched is read as the object
    [top]. *)
Ltac cli_on_object Hf Hne Hloads :=
  rewrite astock_curl_get_eq, Hf; unfold bind at 1; cbn [no_data]; rewrite Hne;
  unfold py_json_loads, text_of; rewrite Hloads, bind_ret_l; cbn [py_get].

(** The branches of astock_service.py in the same case. *)
Ltac service_on_object lib w url Hf Hne Hloads :=
  let log := fresh "log" in
  let Hlog := fresh "Hlog" in
  destruct (service_curl_get_eq lib w url) as (log & -> & Hlog & _);
  rewrite Hf; unfold bind at 1; cbn [no_data]; rewrite Hne;
  unfold py_json_loads, text_of; rewrite Hloads, bind_ret_l; cbn [py_get].

(** X13. A response that is a JSON object without a [data] field is not a
    failure for the handlers fed over HTTP: the index and board handlers of
    astock.py and astock_service.py give the empty list (not an error and
    not the placeholder), and the single quote of astock.py, for a symbol
    that UTF-8 can encode, has the empty name and price and change 0. *)
Theorem missing_data_is_empty (lib : PyLib) (clk : Clock) (w : World)
        (line prog symbol text : string) (top : list (string * pyval)) :
  (text =? "")%string = false ->
  json_loads lib text = Some (PDict top) ->
  lookup "data" top = None ->
  (fetched w Astock.index_url = Some text ->
   printed (trace (Astock.main lib w [prog; "index"])) = [PList []]) /\
  (fetched w Astock.concept_url = Some text ->
   printed (trace (Astock.main lib w [prog; "concept"])) = [PList []]) /\
  (fetched w (Astock.stock_url symbol) = Some text ->
   str_encodable symbol = true ->
   printed (trace (Astock.main lib w [prog; "stock"; symbol]))
   = [PDict [("symbol", PStr symbol); ("name", PStr "");
             ("price", PInt 0); ("change", PInt 0)]]) /\
  (fetched_by_service w AstockService.index_url = Some text ->
   responses (trace (AstockService.do_GET lib clk w
                       {| requestline := line; path := "/stock/index/realtime" |}))
   = [(200, PList [])]) /\
  (fetched_by_service w AstockService.industry_url = Some text ->
   responses (trace (AstockService.do_GET lib clk w
                       {| requestline := line; path := "/stock/industry" |}))
   = [(200, PList [])]).
Proof.
  intros Hne Hloads Hdata.
  refine (conj _ (conj _ (conj _ (conj _ _)))); intros Hf.
  - change (Astock.main lib w [prog; "index"]) with (Astock.get_index lib w).
    unfold Astock.get_index. cli_on_object Hf Hne Hloads. rewrite Hdata. reflexivity.
  - change (Astock.main lib w [prog; "concept"])
      with (Astock.get_board lib w Astock.concept_url Astock.concept_placeholder).
    unfold Astock.get_board, Astock.board_records.
    cli_on_object Hf Hne Hloads. rewrite Hdata. reflexivity.
  - intros Hsym.
    change (Astock.main lib w [prog; "stock"; symbol]) with (Astock.get_stock lib w symbol).
    unfold Astock.get_stock. cli_on_object Hf Hne Hloads. rewrite Hdata, bind_ret_l.
    change (Astock.stock_record symbol (PDict []))
      with (ret (PDict [("symbol", PStr symbol); ("name", PStr "");
                        ("price", PInt 0); ("change", PInt 0)])).
    rewrite bind_ret_l, print_json_raw_printed; [reflexivity|].
    cbn [encodable forallb]. rewrite Hsym. reflexivity.
  - change (AstockService.do_GET lib clk w
              {| requestline := line; path := "/stock/index/realtime" |})
      with (AstockService.index_handler lib clk w
              {| requestline := line; path := "/stock/index/realtime" |}).
    unfold AstockService.index_handler.
    service_on_object lib w AstockService.index_url Hf Hne Hloads. rewrite Hdata.
    cbn. fold (responses log). rewrite responses_app, Hlog. reflexivity.
  - change (AstockService.do_GET lib clk w {| requestline := line; path := "/stock/industry" |})
      with (AstockService.board_handler lib clk w
              {| requestline := line; path := "/stock/industry" |}
              AstockService.industry_url AstockService.industry_placeholder).
    unfold AstockService.board_handler, Astock.board_records.
    service_on_object lib w AstockService.industry_url Hf Hne Hloads. rewrite Hdata.
    cbn. fold (responses log). rewrite responses_app, Hlog. reflexivity.
Qed.

(** The upstream answers every URL with [{"rc":102}]. *)
Lemma missing_data_is_empty_witness :
  printed (trace (Astock.main Json.lib (Fixture.serving "{'rc':102}") ["astock.py"; "index"]))
  = [PList []] /\
  printed (trace (Astock.main Json.lib (Fixture.serving "{'rc':102}")
                    ["astock.py"; "stock"; "600000"]))
  = [PDict [("symbol", PStr "600000"); ("name", PStr "");
            ("price", PInt 0); ("change", PInt 0)]].
Proof.
  destruct (missing_data_is_empty Json.lib Fixture.clock_a (Fixture.serving "{'rc':102}")
              "GET / HTTP/1.1" "astock.py" "600000" (Json.text "{'rc':102}")
              [("rc", PInt 102)] eq_refl eq_refl eq_refl)
    as (Hindex & _ & Hstock & _).
  split; [apply Hindex | apply Hstock]; reflexivity.
Defined.

(** X14. The index handlers read [data] as a list. When [data] is a
    non-empty object instead (the shape the board responses have, with the
    items under [diff]), the loop draws its keys and fails on the first:
    astock.py prints the parse-error list and astock_service.py sends the
    index placeholder. *)
Theorem index_rejects_object_data (lib : PyLib) (clk : Clock) (w : World)
        (line prog text : string) (top d : list (string * pyval)) (kv : string * pyval) :
  (text =? "")%string = false ->
  json_loads lib text = Some (PDict top) ->
  lookup "data" top = Some (PDict (kv :: d)) ->
  (fetched w Astock.index_url = Some text ->
   printed (trace (Astock.main lib w [prog; "index"]))
   = [PList [PDict [("error", PStr "解析数据失败")]]]) /\
  (fetched_by_service w AstockService.index_url = Some text ->
   responses (trace (AstockService.do_GET lib clk w
                       {| requestline := line; path := "/stock/index/realtime" |}))
   = [(200, PList [PDict [("symbol", PStr "000001"); ("name", PStr "上证指数");
                          ("price", PInt 3388); ("change", PFloat 0.5)]])]).
Proof.
  intros Hne Hloads Hdata. split; intros Hf.
  - change (Astock.main lib w [prog; "index"]) with (Astock.get_index lib w).
    unfold Astock.get_index. cli_on_object Hf Hne Hloads. rewrite Hdata. reflexivity.
  - change (AstockService.do_GET lib clk w
              {| requestline := line; path := "/stock/index/realtime" |})
      with (AstockService.index_handler lib clk w
              {| requestline := line; path := "/stock/index/realtime" |}).
    unfold AstockService.index_handler.
    service_on_object lib w AstockService.index_url Hf Hne Hloads. rewrite Hdata.
    rewrite (send_json_sent clk _ AstockService.index_placeholder 200 eq_refl).
    cbn. fold (responses log). rewrite responses_app, Hlog. reflexivity.
Qed.

(** The index URL answered in the shape of a board response. *)
Lemma index_rejects_object_data_witness :
  printed (trace (Astock.main Json.lib
                    (Fixture.serving "{'data':{'total':1,'diff':[{'f12':'000001','f2':3388.1}]}}")
                    ["astock.py"; "index"]))
  = [PList [PDict [("error", PStr "解析数据失败")]]].
Proof.
  apply (proj1 (index_rejects_object_data Json.lib Fixture.clock_a
                  (Fixture.serving "{'data':{'total':1,'diff':[{'f12':'000001','f2':3388.1}]}}")
                  "GET / HTTP/1.1" "astock.py"
                  (Json.text "{'data':{'total':1,'diff':[{'f12':'000001','f2':3388.1}]}}")
                  [("data", PDict [("total", PInt 1);
                                   ("diff", PList [PDict [("f12", PStr "000001");
                                                          ("f2", PFloat 3388.1)]])])]
                  [("diff", PList [PDict [("f12", PStr "000001"); ("f2", PFloat 3388.1)]])]
                  ("total", PInt 1) eq_refl eq_refl eq_refl)).
  reflexivity.
Defined.

(** ** The symbol taken from a path *)

Lemma split_cons (s : string) : exists w ws, split "/" s = w :: ws.
Proof.
  destruct s as [|c s]; cbn [split]; [eauto|].
  destruct (Ascii.eqb c "/"); [eauto|]. destruct (split "/" s); eauto.
Qed.

Lemma join_split (s : string) : String.concat "/" (split "/" s) = s.
Proof.
  induction s as [|c s IH]; [reflexivity|]. cbn [split].
  destruct (split_cons s) as (w & ws & Hs). rewrite Hs in *.
  destruct (Ascii.eqb_spec c "/") as [->|_].
  - cbn [String.concat]. cbn [String.concat] in IH. rewrite IH. reflexivity.
  - destruct ws; rewrite <- IH; reflexivity.
Qed.

Lemma contains_slash_cons (c : ascii) (s : string) :
  c <> "/"%char -> contains "/" s = false -> contains "/" (String c s) = false.
Proof.
  intros Hc Hs. cbn [contains]. rewrite Hs, orb_false_r.
  change (String.prefix "/" (String c s))
    with (if ascii_dec "/"%char c then String.prefix "" s else false).
  destruct (ascii_dec "/" c) as [E|_]; [symmetry in E; contradiction | reflexivity].
Qed.

Lemma segments_have_no_slash (s : string) :
  Forall (fun w => contains "/" w = false) (split "/" s).
Proof.
  induction s as [|c s IH]; [repeat constructor|]. cbn [split].
  destruct (Ascii.eqb_spec c "/") as [->|Hc]; [constructor; [reflexivity | exact IH]|].
  destruct (split "/" s) as [|w ws]; [repeat constructor; apply contains_slash_cons; auto|].
  inversion IH as [|? ? Hw Hws]; subst.
  constructor; [apply contains_slash_cons; assumption | exact Hws].
Qed.

Lemma last_item_In (l : list string) : l <> [] -> In (last_item l) l.
Proof.
  unfold last_item. induction l as [|x l IH]; [contradiction|]. intros _.
  destruct l as [|y l]; [left; reflexivity|]. right. apply IH. discriminate.
Qed.

Lemma string_app_assoc (a b c : string) : ((a ++ b) ++ c = a ++ (b ++ c))%string.
Proof. induction a as [|x a IH]; [reflexivity|]. cbn [append]. rewrite IH. reflexivity. Qed.

Lemma concat_ends_with_last (l : list string) :
  l <> [] -> exists pre, String.concat "/" l = pre ++ last_item l.
Proof.
  unfold last_item. induction l as [|x l IH]; [contradiction|]. intros _.
  destruct l as [|y l]; [exists ""; reflexivity|].
  destruct IH as [pre Hpre]; [discriminate|].
  exists (x ++ "/" ++ pre).
  change (String.concat "/" (x :: y :: l)) with (x ++ "/" ++ String.concat "/" (y :: l)).
  rewrite Hpre. change (List.last (x :: y :: l) "") with (List.last (y :: l) "").
  rewrite !string_app_assoc. reflexivity.
Qed.

Lemma upstream_calls_none {A} (m : M A) : calls_le 0 m -> upstream_calls (trace m) = [].
Proof.
  unfold calls_le. destruct (upstream_calls (trace m)); [reflexivity|].
  cbn. intros H. inversion H.
Qed.

Lemma trace_ak_call w fn args : trace (ak_call w fn args) = [Ak fn args].
Proof. unfold ak_call. destruct (ak w fn args); reflexivity. Qed.

(** A guarded block that starts with the one upstream call [ev]. *)
Lemma one_call_then_none {A} (first : M A) (k : A -> M unit) (h : exn -> M unit) ev :
  trace first = [ev] -> upstream_calls [ev] = [ev] ->
  (forall a, calls_le 0 (k a)) -> (forall e, calls_le 0 (h e)) ->
  upstream_calls (trace (try_except (bind first k) h)) = [ev].
Proof.
  intros Ht Hev Hk Hh. destruct first as [t [a|e]]; cbn [trace fst] in Ht; subst t.
  - specialize (Hk a). apply upstream_calls_none in Hk.
    unfold bind. destruct (k a) as [t' [[]|e]]; cbn [trace fst try_except] in *.
    + rewrite upstream_calls_app, Hev, Hk. reflexivity.
    + specialize (Hh e). apply upstream_calls_none in Hh.
      destruct (h e) as [t'' r]. cbn [trace fst] in *.
      rewrite !upstream_calls_app, Hev, Hk, Hh. reflexivity.
  - specialize (Hh e). apply upstream_calls_none in Hh.
    unfold bind, try_except. destruct (h e) as [t'' r]. cbn [trace fst] in *.
    rewrite upstream_calls_app, Hev, Hh. reflexivity.
Qed.

(** X15. The symbol of a single-quote request is [path.split('/')[-1]]:
    splitting loses nothing (joining the segments with [/] gives the path
    back), the symbol is the segment the path ends with and has no [/] in
    it, and astock_service.py puts it as it is, unescaped, into the one URL
    it fetches, while akshare_service.py asks the library for the whole
    snapshot whatever the symbol. *)
Theorem symbol_is_last_segment (lib : PyLib) (clk : Clock) (w : World) (req : Request) :
  String.concat "/" (split "/" (path req)) = path req /\
  contains "/" (last_item (split "/" (path req))) = false /\
  (exists pre, path req = pre ++ last_item (split "/" (path req))) /\
  upstream_calls (trace (AstockService.stock_handler lib clk w req))
  = [Subprocess ["curl"; "-s"; "-m"; "10"; "--noproxy"; "*";
                 "https://push2.eastmoney.com/api/qt/stock/get?secid=1."
                 ++ last_item (split "/" (path req))
                 ++ "&fields=f43,f44,f45,f46,f47,f48,f58,f170"]] /\
  upstream_calls (trace (AkshareService.stock_handler lib clk w req))
  = [Ak "stock_zh_a_spot_em" []].
Proof.
  assert (Hne : split "/" (path req) <> []).
  { destruct (split_cons (path req)) as (x & xs & ->). discriminate. }
  split; [apply join_split|].
  split.
  { pose proof (segments_have_no_slash (path req)) as Hall.
    rewrite Forall_forall in Hall. apply Hall, last_item_In, Hne. }
  split.
  { destruct (concat_ends_with_last _ Hne) as [pre Hpre].
    exists pre. rewrite <- Hpre. symmetry. apply join_split. }
  split.
  - unfold AstockService.stock_handler. cbv zeta.
    destruct (service_curl_get_eq lib w
                (AstockService.stock_url (last_item (split "/" (path req)))))
      as (log & -> & _ & Hlog & _).
    unfold bind at 1.
    match goal with |- context [let (t', r) := ?k in _] =>
      assert (Hk : calls_le 0 k) by prove_no_call;
      apply upstream_calls_none in Hk; destruct k as [t r] end.
    cbn [trace fst] in *. rewrite upstream_calls_app, Hk, app_nil_r.
    cbn [upstream_calls filter]. fold (upstream_calls log). rewrite Hlog. reflexivity.
  - unfold AkshareService.stock_handler. cbv zeta.
    apply one_call_then_none; [apply trace_ak_call | reflexivity | |];
      intros; unfold AkshareService.on_error; prove_no_call.
Qed.

(** ** A float cell *)

Lemma float_field_of_float lib (r : row) (k : string) (d : pyval) (f : float) :
  row_get r k PNone = PFloat f -> PrimFloat.eqb f 0 = false ->
  float_field lib r k d = ret (PFloat f).
Proof.
  intros Hcell Hnz. rewrite float_field_is_float_if, Hcell.
  unfold float_if. cbn [truthy]. rewrite Hnz. reflexivity.
Qed.

(** X16. A price cell that is a float other than zero is emitted as it is,
    never replaced by the default. This holds for NaN too, the value a
    table of the library has where a number is missing: NaN is truthy, so
    the quote of akshare_service.py and the records of data_query.py carry
    NaN, not 0 or null. *)
Theorem float_price_passes_through (lib : PyLib) (r : row) (f : float) :
  row_get r "最新价" PNone = PFloat f ->
  PrimFloat.eqb f 0 = false ->
  float_field lib r "最新价" PNone = ret (PFloat f) /\
  (forall q, outcome (AkshareService.quote_record lib r) = inl q ->
             field "price" q = Some (PFloat f)) /\
  (forall q, outcome (DataQuery.a_stock_record lib r) = inl q ->
             field "price" q = Some (PFloat f)) /\
  (forall q, outcome (DataQuery.index_record lib r) = inl q ->
             field "price" q = Some (PFloat f)) /\
  (forall q, outcome (DataQuery.etf_record lib r) = inl q ->
             field "price" q = Some (PFloat f)).
Proof.
  intros Hcell Hnz.
  split; [apply float_field_of_float; assumption|].
  split.
  { intros q H. unfold AkshareService.quote_record in H. cbv zeta in H.
    rewrite <- !float_field_is_float_if in H.
    rewrite (float_field_of_float lib r _ _ f Hcell Hnz), bind_ret_l in H.
    apply bind_outcome_inv in H. destruct H as (c & _ & H). injection H as <-. reflexivity. }
  split.
  { intros q H. unfold DataQuery.a_stock_record in H.
    rewrite (float_field_of_float lib r _ _ f Hcell Hnz), bind_ret_l in H.
    repeat (apply bind_outcome_inv in H; destruct H as (? & _ & H)).
    injection H as <-. reflexivity. }
  split.
  { intros q H. unfold DataQuery.index_record in H.
    rewrite (float_field_of_float lib r _ _ f Hcell Hnz), bind_ret_l in H.
    repeat (apply bind_outcome_inv in H; destruct H as (? & _ & H)).
    injection H as <-. reflexivity. }
  intros q H. unfold DataQuery.etf_record in H.
  rewrite (float_field_of_float lib r _ _ f Hcell Hnz), bind_ret_l in H.
  repeat (apply bind_outcome_inv in H; destruct H as (? & _ & H)).
  injection H as <-. reflexivity.
Qed.

(** The row of the sample table whose price is NaN. *)
Lemma float_price_passes_through_witness :
  field "price" (PDict [("symbol", PStr "600000"); ("name", PStr "浦发银行");
                        ("price", PFloat nan); ("change", PFloat 1.2)])
  = Some (PFloat nan).
Proof.
  apply (proj1 (proj2 (float_price_passes_through Json.lib
                         (combine (df_columns Sample.gaps)
                                  [PStr "600000"; PStr "浦发银行"; PFloat nan; PFloat 1.2])
                         nan eq_refl eq_refl))).
  reflexivity.
Defined.

(** ** From the arguments to the library call *)

Lemma main_calls_of_query lib clk w argv fn args limit record :
  (forall r, trace (record r) = []) ->
  DataQuery.response lib clk w argv = DataQuery.query lib clk w fn args limit record ->
  upstream_calls (trace (DataQuery.main lib clk w argv)) = [Ak fn args].
Proof.
  intros Hrec Hresp. unfold DataQuery.main.
  rewrite Hresp, (query_cases _ _ _ _ _ _ _ Hrec). reflexivity.
Qed.

(** X17. How data_query.py turns its arguments into the one library call.
    [kline] asks for the history of the symbol and period given, adjusted
    ["qfq"], from 30 days back; a symbol or period that is absent or empty
    is replaced by ["000001"] and ["daily"]. [fundflow] asks for the symbol
    (["000001"] if absent) always on the market ["sh"]. [futures] asks for
    the one contract given, and for all contracts when none is given. *)
Theorem commands_to_library_calls (lib : PyLib) (clk : Clock) (w : World)
        (prog a1 a2 : string) :
  upstream_calls (trace (DataQuery.main lib clk w [prog; "kline"]))
  = [Ak "stock_zh_a_hist" ["000001"; "daily"; days_ago clk 30; "qfq"]] /\
  upstream_calls (trace (DataQuery.main lib clk w [prog; "kline"; ""; ""]))
  = [Ak "stock_zh_a_hist" ["000001"; "daily"; days_ago clk 30; "qfq"]] /\
  ((a1 =? "")%string = false -> (a2 =? "")%string = false ->
   upstream_calls (trace (DataQuery.main lib clk w [prog; "kline"; a1; a2]))
   = [Ak "stock_zh_a_hist" [a1; a2; days_ago clk 30; "qfq"]]) /\
  upstream_calls (trace (DataQuery.main lib clk w [prog; "fundflow"]))
  = [Ak "stock_individual_fund_flow" ["000001"; "sh"]] /\
  ((a1 =? "")%string = false ->
   upstream_calls (trace (DataQuery.main lib clk w [prog; "fundflow"; a1]))
   = [Ak "stock_individual_fund_flow" [a1; "sh"]]) /\
  upstream_calls (trace (DataQuery.main lib clk w [prog; "futures"]))
  = [Ak "futures_zh_realtime_all" []] /\
  ((a1 =? "")%string = false ->
   upstream_calls (trace (DataQuery.main lib clk w [prog; "futures"; a1]))
   = [Ak "futures_zh_realtime" [a1]]).
Proof.
  refine (conj _ (conj _ (conj _ (conj _ (conj _ (conj _ _)))))).
  - apply (main_calls_of_query lib clk w _ _ _ None (DataQuery.kline_record lib));
      [prove_traceless | reflexivity].
  - apply (main_calls_of_query lib clk w _ _ _ None (DataQuery.kline_record lib));
      [prove_traceless | reflexivity].
  - intros H1 H2.
    apply (main_calls_of_query lib clk w _ _ _ None (DataQuery.kline_record lib));
      [prove_traceless|].
    change (DataQuery.response lib clk w [prog; "kline"; a1; a2])
      with (DataQuery.get_a_stock_kline lib clk w (DataQuery.str_or a1 "000001")
              (DataQuery.str_or a2 "daily") 30).
    unfold DataQuery.str_or. rewrite H1, H2. reflexivity.
  - apply (main_calls_of_query lib clk w _ _ _ (Some 10%nat) (DataQuery.fund_flow_record lib));
      [prove_traceless | reflexivity].
  - intros H1.
    apply (main_calls_of_query lib clk w _ _ _ (Some 10%nat) (DataQuery.fund_flow_record lib));
      [prove_traceless|].
    change (DataQuery.response lib clk w [prog; "fundflow"; a1])
      with (DataQuery.get_fund_flow lib clk w (DataQuery.str_or a1 "000001")).
    unfold DataQuery.str_or. rewrite H1. reflexivity.
  - apply (main_calls_of_query lib clk w _ _ _ (Some 20%nat) (DataQuery.futures_record lib));
      [prove_traceless | reflexivity].
  - intros H1.
    apply (main_calls_of_query lib clk w _ _ _ (Some 20%nat) (DataQuery.futures_record lib));
      [prove_traceless|].
    change (DataQuery.response lib clk w [prog; "futures"; a1])
      with (DataQuery.get_futures_realtime lib clk w a1).
    unfold DataQuery.get_futures_realtime. rewrite H1. reflexivity.
Qed.

(** The weekly history of 600519 and the contract IF2606. *)
Lemma commands_to_library_calls_witness :
  upstream_calls (trace (DataQuery.main Json.lib Fixture.clock_a Sample.library_down
                           ["data_query.py"; "kline"; "600519"; "weekly"]))
  = [Ak "stock_zh_a_hist" ["600519"; "weekly"; days_ago Fixture.clock_a 30; "qfq"]] /\
  upstream_calls (trace (DataQuery.main Json.lib Fixture.clock_a Sample.library_down
                           ["data_query.py"; "futures"; "IF2606"]))
  = [Ak "futures_zh_realtime" ["IF2606"]].
Proof.
  split.
  - apply (proj1 (proj2 (proj2
             (commands_to_library_calls Json.lib Fixture.clock_a Sample.library_down
                "data_query.py" "600519" "weekly")))); reflexivity.
  - apply (proj2 (proj2 (proj2 (proj2 (proj2 (proj2
             (commands_to_library_calls Json.lib Fixture.clock_a Sample.library_down
                "data_query.py" "IF2606" ""))))))); reflexivity.
Defined.

(** ** The counts of a concept board *)

Lemma row_get_present (r : row) (k : string) (v d : pyval) :
  row_get r k PNone = v -> v <> PNone -> row_get r k d = v.
Proof.
  unfold row_get. destruct (lookup k r); [auto|]. intros <- H. contradiction.
Qed.

Lemma int_field_not_integral lib (r : row) (k : string) (f : float) :
  row_get r k PNone = PFloat f -> PrimFloat.eqb f 0 = false ->
  trunc_SF (Prim2SF f) = None ->
  exists e, int_field lib r k = raise e.
Proof.
  intros Hcell Hnz Htrunc. unfold int_field.
  rewrite (row_get_present r k (PFloat f) (PInt 0) Hcell) by discriminate.
  rewrite Hcell. cbn [truthy py_int]. rewrite Hnz, Htrunc. cbn [negb].
  destruct (is_nan f); eexists; reflexivity.
Qed.

(** X18. The [concept] command of data_query.py turns the 上涨 cell into an
    int. A float there that has no integer part (NaN, the missing value of
    a table, or an infinity) makes [int] raise, so one such cell among the
    first 30 rows turns the whole answer into the [success: false]
    payload. *)
Theorem concept_count_must_be_integral (lib : PyLib) (clk : Clock) (w : World)
        (prog : string) (df : DataFrame) (r : row) (f : float) :
  ak w "stock_board_concept_name_em" [] = inl df ->
  In r (firstn 30 (iterrows df)) ->
  row_get r "上涨" PNone = PFloat f ->
  PrimFloat.eqb f 0 = false ->
  trunc_SF (Prim2SF f) = None ->
  exists msg,
    outcome (DataQuery.response lib clk w [prog; "concept"])
    = inl (PDict [("success", PBool false); ("error", PStr msg);
                  ("timestamp", PStr (isoformat clk))]).
Proof.
  intros Hak Hin Hcell Hnz Htrunc.
  change (DataQuery.response lib clk w [prog; "concept"])
    with (DataQuery.query lib clk w "stock_board_concept_name_em" [] (Some 30%nat)
            (DataQuery.concept_record lib)).
  rewrite (query_cases _ _ _ _ _ _ _ (trace_dq_concept_record lib)), Hak.
  rewrite iterrows_head. cbn [outcome snd].
  destruct (mapM_fails (DataQuery.concept_record lib) _ r Hin) as [e ->].
  - unfold DataQuery.concept_record.
    rewrite (bind_pure _ _ (trace_float_field lib r "涨跌幅" (PInt 0))).
    destruct (outcome (float_field lib r "涨跌幅" (PInt 0))) as [c|e];
      [|exists e; reflexivity].
    destruct (int_field_not_integral lib r "上涨" f Hcell Hnz Htrunc) as [e ->].
    exists e. reflexivity.
  - eexists. reflexivity.
Qed.

(** A board table whose up-count is NaN. *)
Lemma concept_count_must_be_integral_witness :
  exists msg,
    outcome (DataQuery.response Json.lib Fixture.clock_a
               (Fixture.ak_world
                  (inl {| df_columns := ["板块名称"; "涨跌幅"; "上涨"; "下跌"];
                          df_rows := [[PStr "人工智能"; PFloat nan; PFloat nan; PInt 2]] |}))
               ["data_query.py"; "concept"])
    = inl (PDict [("success", PBool false); ("error", PStr msg);
                  ("timestamp", PStr (isoformat Fixture.clock_a))]).
Proof.
  apply (concept_count_must_be_integral Json.lib Fixture.clock_a _ "data_query.py"
           {| df_columns := ["板块名称"; "涨跌幅"; "上涨"; "下跌"];
              df_rows := [[PStr "人工智能"; PFloat nan; PFloat nan; PInt 2]] |}
           (combine ["板块名称"; "涨跌幅"; "上涨"; "下跌"]
                    [PStr "人工智能"; PFloat nan; PFloat nan; PInt 2]) nan).
  - reflexivity.
  - left. reflexivity.
  - reflexivity.
  - reflexivity.
  - reflexivity.
Defined.

(** ** Subcommands that are none of the commands *)

(** X19. What the two command-line scripts do without a command of theirs.
    data_query.py, given no subcommand or one that is not exactly one of
    its eleven names, prints the help object and calls nothing. astock.py,
    given no subcommand, runs [index]; given one that is none of its four
    names, it prints nothing, calls nothing and ends with exit code 0. *)
Theorem commands_not_recognised (lib : PyLib) (clk : Clock) (w : World)
        (prog cmd : string) (rest : list string) :
  DataQuery.main lib clk w [prog] = ([PrintJson DataQuery.help_object], inl tt) /\
  Astock.main lib w [prog] = Astock.get_index lib w /\
  (~ In cmd ["stock"; "kline"; "fundflow"; "index"; "futures"; "etf"; "concept";
             "industry"; "gdp"; "cpi"; "news"] ->
   DataQuery.main lib clk w (prog :: cmd :: rest)
   = ([PrintJson DataQuery.help_object], inl tt)) /\
  (~ In cmd ["index"; "stock"; "concept"; "industry"] ->
   Astock.main lib w (prog :: cmd :: rest) = ([], inl tt)).
Proof.
  split; [reflexivity|]. split; [reflexivity|]. split.
  - intros Hnot. unfold DataQuery.main, DataQuery.response. cbn [argv_or nth].
    repeat match goal with
           | |- context [(cmd =? ?name)%string] =>
               destruct (String.eqb_spec cmd name) as [->|_];
               [exfalso; apply Hnot; cbn; tauto|]
           end.
    reflexivity.
  - intros Hnot. unfold Astock.main. cbn [argv_or nth].
    repeat match goal with
           | |- context [(cmd =? ?name)%string] =>
               destruct (String.eqb_spec cmd name) as [->|_];
               [exfalso; apply Hnot; cbn; tauto|]
           end.
    reflexivity.
Qed.

(** The subcommand [Stock], with a capital, at both scripts. *)
Lemma commands_not_recognised_witness :
  DataQuery.main Json.lib Fixture.clock_a Sample.library_down ["data_query.py"; "Stock"]
  = ([PrintJson DataQuery.help_object], inl tt) /\
  Astock.main Json.lib Sample.library_down ["astock.py"; "Stock"; "600000"] = ([], inl tt).
Proof.
  split.
  - apply (proj1 (proj2 (proj2
             (commands_not_recognised Json.lib Fixture.clock_a Sample.library_down
                "data_query.py" "Stock" [])))).
    cbn. intros H. repeat (destruct H as [H|H]; [discriminate H|]). exact H.
  - apply (proj2 (proj2 (proj2
             (commands_not_recognised Json.lib Fixture.clock_a Sample.library_down
                "astock.py" "Stock" ["600000"])))).
    cbn. intros H. repeat (destruct H as [H|H]; [discriminate H|]). exact H.
Defined.

(** ** Every request is answered *)

Lemma status_lines_responses (t : list event) : status_lines t = [] -> responses t = [].
Proof.
  induction t as [|ev t IH]; [reflexivity|]. intros H.
  destruct ev; cbn in *; try discriminate H; apply IH; exact H.
Qed.

Lemma str_encodable_suffix (a b : string) :
  str_encodable (a ++ b) = true -> str_encodable b = true.
Proof.
  induction a as [|c a IH]; intros H; [exact H|].
  apply IH. cbn [append] in H. destruct (a ++ b)%string as [|d r]; [reflexivity|].
  cbn [str_encodable] in H. apply andb_prop in H. exact (proj2 H).
Qed.

(** The symbol of a path that UTF-8 can encode can be encoded. *)
Lemma symbol_encodable (p : string) :
  str_encodable p = true -> str_encodable (last_item (split "/" p)) = true.
Proof.
  intros Hp. destruct (split_cons p) as (w & ws & Hs).
  destruct (concat_ends_with_last (split "/" p)) as [pre Hpre];
    [rewrite Hs; discriminate|].
  rewrite join_split in Hpre. rewrite Hpre in Hp.
  exact (str_encodable_suffix _ _ Hp).
Qed.

Lemma answers_at_once_send (P : Z -> Prop) clk req v st :
  P st -> encodable v = true -> answers_at_once P (send_json clk req v st).
Proof.
  intros HP Hv. rewrite (send_json_sent _ _ _ _ Hv). exists st, v.
  split; [reflexivity|]. split; [exact HP|]. split; reflexivity.
Qed.

Lemma answers_or_fails_send_200 (P : Z -> Prop) (E : exn -> Prop) clk req v :
  P 200 -> E (UnicodeEncodeError v) -> answers_or_fails P E (send_json clk req v 200).
Proof.
  intros HP HE. destruct (encodable v) eqn:Hv.
  - left. apply answers_at_once_send; assumption.
  - right. rewrite (send_json_cut _ _ _ _ Hv). exists (UnicodeEncodeError v).
    split; [reflexivity|]. split; [exact HE|]. split; [reflexivity|]. right. reflexivity.
Qed.

Lemma answers_or_fails_raise (P : Z -> Prop) (E : exn -> Prop) (e : exn) :
  E e -> answers_or_fails P E (raise e).
Proof.
  intros HE. right. exists e.
  split; [reflexivity|]. split; [exact HE|]. split; [reflexivity|]. left. reflexivity.
Qed.

Lemma answers_or_fails_bind (P : Z -> Prop) (E : exn -> Prop) {A}
      (m : M A) (k : A -> M unit) :
  fails_within E m -> (forall a, answers_or_fails P E (k a)) ->
  answers_or_fails P E (bind m k).
Proof.
  unfold fails_within, answers_or_fails, answers_at_once, outcome, trace, bind.
  destruct m as [t [a|e]]; cbn [fst snd]; intros [Ht HE] Hk.
  - pose proof (status_lines_responses _ Ht) as Hr.
    specialize (Hk a). destruct (k a) as [t' r]. cbn [fst snd] in *.
    rewrite responses_app, status_lines_app, Ht, Hr. exact Hk.
  - right. exists e. split; [reflexivity|]. split; [apply HE; reflexivity|].
    split; [apply status_lines_responses, Ht | left; exact Ht].
Qed.

Lemma answered_at_once (P : Z -> Prop) (m : M unit) : answers_at_once P m -> answered P m.
Proof.
  intros (st & body & Hr & HP & Ho & Hs). exists st, body.
  split; [exact Hr|]. split; [exact HP|]. split; [exact Ho|]. left. exact Hs.
Qed.

Lemma answered_try (P : Z -> Prop) (E : exn -> Prop) (m : M unit) (h : exn -> M unit) :
  answers_or_fails P E m -> (forall e, E e -> answers_at_once P (h e)) ->
  answered P (try_except m h).
Proof.
  unfold answers_or_fails, answers_at_once, answered, outcome, trace, try_except.
  destruct m as [t [[]|e]]; cbn [fst snd];
    intros [(st & body & Hr & HP & Ho & Hs)|(e' & Ho & HE & Hr & Hs)] Hh;
    try discriminate.
  - exists st, body. split; [exact Hr|]. split; [exact HP|]. split; [reflexivity|].
    left. exact Hs.
  - injection Ho as <-. specialize (Hh e HE). destruct (h e) as [t' r]. cbn [fst snd] in *.
    destruct Hh as (st & body & Hr' & HP & -> & Hs'). exists st, body.
    rewrite responses_app, status_lines_app, Hr, Hr', Hs'.
    split; [reflexivity|]. split; [exact HP|]. split; [reflexivity|].
    destruct Hs as [-> | ->]; [left | right]; reflexivity.
Qed.

Lemma status_lines_service_curl lib w url :
  status_lines (trace (AstockService.curl_get lib w url)) = [].
Proof.
  unfold AstockService.curl_get. cbv zeta.
  destruct (subprocess_run w _ (Some 15)); reflexivity.
Qed.

Lemma answered_after_curl (P : Z -> Prop) lib w url (k : option string -> M unit) :
  (forall data, answered P (k data)) ->
  answered P (bind (AstockService.curl_get lib w url) k).
Proof.
  intros Hk. pose proof (status_lines_service_curl lib w url) as Hs.
  destruct (service_curl_get_eq lib w url) as (log & Heq & _).
  rewrite Heq in *. cbn [trace fst] in Hs.
  pose proof (status_lines_responses _ Hs) as Hr.
  specialize (Hk (fetched_by_service w url)).
  unfold answered, bind, trace, outcome in *.
  destruct (k (fetched_by_service w url)) as [t r]. cbn [fst snd] in *.
  destruct Hk as (st & body & Hr' & HP & -> & Hs'). exists st, body.
  rewrite responses_app, status_lines_app, Hr, Hs.
  split; [exact Hr'|]. split; [exact HP|]. split; [reflexivity | exact Hs'].
Qed.

Lemma fails_within_traceless (E : exn -> Prop) {A} (m : M A) :
  trace m = [] -> (forall e, outcome m = inr e -> E e) -> fails_within E m.
Proof. intros Ht HE. split; [rewrite Ht; reflexivity | exact HE]. Qed.

Lemma fails_within_ak_call lib w fn args :
  plain_failures lib w -> fails_within (plain lib) (ak_call w fn args).
Proof.
  intros Hw. unfold ak_call. destruct (ak w fn args) as [df|e] eqn:Hak.
  - split; [reflexivity | intros e H; discriminate H].
  - split; [reflexivity|]. intros e' H. injection H as <-. exact (Hw _ _ _ Hak).
Qed.

Lemma fails_within_builtin lib {A} (m : M A) :
  trace m = [] -> builtin_only m -> fails_within (plain lib) m.
Proof.
  intros Ht Hb. apply fails_within_traceless; [exact Ht|].
  intros e He. apply builtin_plain, (Hb e He).
Qed.

(** A branch of astock_service.py: the fetch, then the placeholder or
    what [k] sends from the response, inside the [try]. *)
Lemma service_branch_answered lib clk w req url placeholder (k : pyval -> M unit) :
  encodable placeholder = true ->
  (forall obj, answers_or_fails (fun st => st = 200) (fun _ => True) (k obj)) ->
  answered (fun st => st = 200)
    (data <- AstockService.curl_get lib w url ;;
     if no_data data then send_json clk req placeholder 200
     else try_except (obj <- py_json_loads lib (text_of data) ;; k obj)
                     (fun _ => send_json clk req placeholder 200)).
Proof.
  intros Henc Hk. apply answered_after_curl. intros data.
  destruct (no_data data).
  - apply answered_at_once, answers_at_once_send; [reflexivity | exact Henc].
  - apply (answered_try _ (fun _ => True)).
    + apply answers_or_fails_bind; [|exact Hk].
      apply fails_within_traceless; [apply trace_py_json_loads | auto].
    + intros e _. apply answers_at_once_send; [reflexivity | exact Henc].
Qed.

(** Closes [answers_or_fails] for what a branch of astock_service.py does
    with the response. *)
Ltac prove_sends_200 :=
  repeat first
    [ apply answers_or_fails_send_200; [reflexivity | exact I]
    | apply answers_or_fails_bind;
        [ apply fails_within_traceless; [solve [prove_traceless] | auto] | intros ] ].

(** A list branch of akshare_service.py. *)
Lemma list_handler_answered lib clk w req fn limit record :
  plain_failures lib w ->
  (forall r, trace (record r) = []) ->
  (forall r, builtin_only (record r)) ->
  answered library_status (AkshareService.list_handler lib clk w req fn limit record).
Proof.
  intros Hw Ht Hb. unfold AkshareService.list_handler.
  apply (answered_try _ (plain lib)).
  - apply answers_or_fails_bind; [apply fails_within_ak_call, Hw|]. intros df.
    apply answers_or_fails_bind.
    { apply fails_within_builtin; [apply trace_mapM_nil, Ht | apply builtin_only_mapM, Hb]. }
    intros records. apply answers_or_fails_send_200.
    + left. reflexivity.
    + apply builtin_plain. exact I.
  - intros e He. rewrite (on_error_sent _ _ _ _ He). exists 500, (error_object (exn_str lib e)).
    split; [reflexivity|]. split; [right; right; reflexivity|]. split; reflexivity.
Qed.

(** X1. Every request is answered, and [do_GET] returns without an
    exception, whatever the upstream hands back. astock_service.py, for a
    path that UTF-8 can encode (every path the HTTP server reads is such),
    sends exactly one response whole, with status 200. akshare_service.py,
    when [str(e)] of the exceptions of the data library can be encoded,
    sends exactly one response whole, with status 200, 404 or 500. In both,
    at most one status line has gone out before that response with no body
    after it, with status 200: this is the answer whose payload, built from
    the upstream data, could not be encoded. *)
Theorem every_request_answered (lib : PyLib) (clk : Clock) (w : World) (req : Request) :
  (str_encodable (path req) = true ->
   answered (fun st => st = 200) (AstockService.do_GET lib clk w req)) /\
  (plain_failures lib w ->
   answered library_status (AkshareService.do_GET lib clk w req)).
Proof.
  split.
  - intros Hpath. unfold AstockService.do_GET.
    repeat match goal with |- answered _ (if ?b then _ else _) => destruct b end.
    + apply answered_at_once, answers_at_once_send; reflexivity.
    + apply service_branch_answered; [reflexivity | intros; prove_sends_200].
    + apply service_branch_answered; [|intros; prove_sends_200].
      rewrite encodable_stock_placeholder. apply symbol_encodable, Hpath.
    + apply service_branch_answered;
        [reflexivity | intros; unfold Astock.board_records; prove_sends_200].
    + apply service_branch_answered;
        [reflexivity | intros; unfold Astock.board_records; prove_sends_200].
    + apply answered_at_once, answers_at_once_send; reflexivity.
  - intros Hw. unfold AkshareService.do_GET.
    repeat match goal with |- answered _ (if ?b then _ else _) => destruct b end.
    + apply answered_at_once, answers_at_once_send; [left|]; reflexivity.
    + apply list_handler_answered;
        [exact Hw | apply trace_akshare_quote_record | apply builtin_only_quote_record].
    + apply list_handler_answered;
        [exact Hw | apply trace_akshare_quote_record | apply builtin_only_quote_record].
    + apply list_handler_answered;
        [exact Hw | apply trace_akshare_news_record | apply builtin_only_news_record].
    + apply list_handler_answered;
        [exact Hw | apply trace_akshare_board_record | apply builtin_only_board_record].
    + apply list_handler_answered;
        [exact Hw | apply trace_akshare_board_record | apply builtin_only_board_record].
    + unfold AkshareService.stock_handler. cbv zeta.
      apply (answered_try _ (plain lib)).
      * apply answers_or_fails_bind; [apply fails_within_ak_call, Hw|]. intros df.
        apply answers_or_fails_bind.
        { apply fails_within_builtin; [apply trace_select_eq | apply builtin_only_select_eq]. }
        intros stock. destruct (empty stock).
        { left. apply answers_at_once_send; [right; left|]; reflexivity. }
        destruct (iterrows stock) as [|r rows].
        { apply answers_or_fails_raise. reflexivity. }
        apply answers_or_fails_bind.
        { apply fails_within_builtin;
            [apply trace_akshare_stock_record | apply builtin_only_stock_record]. }
        intros record. apply answers_or_fails_send_200; [left; reflexivity|].
        apply builtin_plain. exact I.
      * intros e He. rewrite (on_error_sent _ _ _ _ He).
        exists 500, (error_object (exn_str lib e)).
        split; [reflexivity|]. split; [right; right; reflexivity|]. split; reflexivity.
    + apply answered_at_once, answers_at_once_send; [right; left|]; reflexivity.
Qed.

(** A request whose payload cannot be encoded, at each service: the board
    list with a name that holds a lone surrogate, and the quote of the
    snapshot with such a name. *)
Lemma every_request_answered_witness :
  answered (fun st => st = 200)
    (AstockService.do_GET Json.lib Fixture.clock_a Sample.garbled_boards
       (Fixture.GET "/stock/concept")) /\
  answered library_status
    (AkshareService.do_GET Json.lib Fixture.clock_a (Fixture.ak_world (inl Sample.garbled))
       (Fixture.GET "/stock/realtime/600000")).
Proof.
  split.
  - apply (proj1 (every_request_answered Json.lib Fixture.clock_a Sample.garbled_boards
                    (Fixture.GET "/stock/concept"))).
    reflexivity.
  - apply (proj2 (every_request_answered Json.lib Fixture.clock_a
                    (Fixture.ak_world (inl Sample.garbled))
                    (Fixture.GET "/stock/realtime/600000"))).
    intros fn args e H. discriminate H.
Defined.

(** ** A payload that UTF-8 cannot encode *)

(** What astock_service.py has written once the fetch is done. *)
Lemma after_service_curl lib w url (k : option string -> M unit) :
  responses (trace (bind (AstockService.curl_get lib w url) k))
  = responses (trace (k (fetched_by_service w url))) /\
  status_lines (trace (bind (AstockService.curl_get lib w url) k))
  = status_lines (trace (k (fetched_by_service w url))).
Proof.
  pose proof (status_lines_service_curl lib w url) as Hs.
  destruct (service_curl_get_eq lib w url) as (log & Heq & _).
  rewrite Heq in *. cbn [trace fst] in Hs.
  pose proof (status_lines_responses _ Hs) as Hr.
  unfold bind, trace. destruct (k (fetched_by_service w url)) as [t r]. cbn [fst].
  rewrite responses_app, status_lines_app, Hr, Hs. split; reflexivity.
Qed.


